(** * A shallow embedding of the GTFS service-day, time-arithmetic and
      trip-planning core of stm-mcp

    Sources: [services/schedule_service.py], [services/trip_planner.py] and
    the MCP tools of [tools/trip_tools.py] and [tools/schedule_tools.py].
    Python [str] values are modelled as Rocq [string]s whose characters are
    read as the code points U+0000..U+00FF; Python [int] as [Z]; exceptions
    as the [Err] branch of a small result monad. *)

From Stdlib Require Import String Ascii ZArith List Lia Bool.
From Stdlib Require Import Sorted Permutation.
From Stdlib Require Import DecimalNat.
Import ListNotations.
Open Scope Z_scope.

(** ** Python exceptions and the result monad *)

Inductive py_exc : Type :=
| ValueError (msg : string)
| OverflowError (msg : string)
| TypeError (msg : string)
| OtherException (msg : string)  (* any other subclass of [Exception] *)
| CancelledError.                (* [asyncio.CancelledError], a [BaseException] only *)

(** [isinstance(e, Exception)] *)
Definition is_exception (e : py_exc) : bool :=
  match e with
  | CancelledError => false
  | _ => true
  end.

(** [str(e)] *)
Definition py_exc_str (e : py_exc) : string :=
  match e with
  | ValueError m | OverflowError m | TypeError m | OtherException m => m
  | CancelledError => EmptyString
  end.

Inductive result (A : Type) : Type :=
| Ok (a : A)
| Err (e : py_exc).
Arguments Ok {A} a.
Arguments Err {A} e.

Definition bind {A B : Type} (m : result A) (k : A -> result B) : result B :=
  match m with
  | Ok a => k a
  | Err e => Err e
  end.

Notation "x <- m ;; k" := (bind m (fun x => k))
  (at level 61, m at next level, right associativity).

(** ** Characters and strings as CPython sees them *)

Definition code (c : ascii) : Z := Z.of_nat (nat_of_ascii c).

(** [str.isspace] restricted to U+0000..U+00FF. *)
Definition is_space (c : ascii) : bool :=
  let n := code c in
  ((9 <=? n) && (n <=? 13)) || ((28 <=? n) && (n <=? 32))
  || (n =? 133) || (n =? 160).

Definition is_digit (c : ascii) : bool :=
  (48 <=? code c) && (code c <=? 57).

Definition digit_val (c : ascii) : Z := code c - 48.

Fixpoint lstrip (s : string) : string :=
  match s with
  | EmptyString => EmptyString
  | String c r => if is_space c then lstrip r else s
  end.

Fixpoint rstrip (s : string) : string :=
  match s with
  | EmptyString => EmptyString
  | String c r =>
      let r' := rstrip r in
      if String.eqb r' EmptyString && is_space c then EmptyString
      else String c r'
  end.

(** [str.strip()] *)
Definition py_strip (s : string) : string := rstrip (lstrip s).

(** [str.split(":")] *)
Fixpoint split_colon (s : string) : list string :=
  match s with
  | EmptyString => [EmptyString]
  | String c r =>
      let ps := split_colon r in
      if Ascii.eqb c ":" then EmptyString :: ps
      else match ps with
           | p :: ps' => String c p :: ps'
           | [] => [String c EmptyString]
           end
  end.

(** The digit part of [int(x)] in base 10: digits, with single underscores
    allowed between two digits. *)
Fixpoint digits_after (s : string) (acc : Z) : option Z :=
  match s with
  | EmptyString => Some acc
  | String c r =>
      if is_digit c then digits_after r (acc * 10 + digit_val c)
      else if Ascii.eqb c "_" then
        match r with
        | String c' r' =>
            if is_digit c' then digits_after r' (acc * 10 + digit_val c')
            else None
        | EmptyString => None
        end
      else None
  end.

Definition parse_udigits (s : string) : option Z :=
  match s with
  | EmptyString => None
  | String c _ => if is_digit c then digits_after s 0 else None
  end.

(** [int(x)] for a [str] [x]: surrounding whitespace, an optional sign,
    then decimal digits; [None] stands for the [ValueError]. *)
Definition py_int (s : string) : option Z :=
  match py_strip s with
  | String "-" r => option_map Z.opp (parse_udigits r)
  | String "+" r => parse_udigits r
  | s' => parse_udigits s'
  end.

(** Decimal printing of a natural number. *)
Fixpoint uint_str (u : Decimal.uint) : string :=
  match u with
  | Decimal.Nil => EmptyString
  | Decimal.D0 u => String "0" (uint_str u)
  | Decimal.D1 u => String "1" (uint_str u)
  | Decimal.D2 u => String "2" (uint_str u)
  | Decimal.D3 u => String "3" (uint_str u)
  | Decimal.D4 u => String "4" (uint_str u)
  | Decimal.D5 u => String "5" (uint_str u)
  | Decimal.D6 u => String "6" (uint_str u)
  | Decimal.D7 u => String "7" (uint_str u)
  | Decimal.D8 u => String "8" (uint_str u)
  | Decimal.D9 u => String "9" (uint_str u)
  end.

Definition dec (n : nat) : string := uint_str (Nat.to_uint n).

(** [f"{z:02d}"]: sign first, then zero padding to a width of two. *)
Definition format02 (z : Z) : string :=
  if z <? 0 then String "-" (dec (Z.to_nat (- z)))
  else if z <? 10 then String "0" (dec (Z.to_nat z))
  else dec (Z.to_nat z).

(** [f"{h:02d}:{m:02d}:{s:02d}"] *)
Definition format_hms (h m s : Z) : string :=
  (format02 h ++ String ":" (format02 m ++ String ":" (format02 s)))%string.

(** ** GTFS time arithmetic ([schedule_service.py]) *)

Definition invalid_time (time_str : string) : py_exc :=
  ValueError ("Invalid GTFS time format: " ++ time_str)%string.

(** [parse_gtfs_time] *)
Definition parse_gtfs_time (time_str : string) : result (Z * Z * Z) :=
  match split_colon (py_strip time_str) with
  | [p0; p1; p2] =>
      match py_int p0, py_int p1, py_int p2 with
      | Some hours, Some minutes, Some seconds => Ok (hours, minutes, seconds)
      | _, _, _ => Err (invalid_time time_str)
      end
  | _ => Err (invalid_time time_str)
  end.

(** [gtfs_time_to_seconds] *)
Definition gtfs_time_to_seconds (time_str : string) : result Z :=
  hms <- parse_gtfs_time time_str ;;
  let '(hours, minutes, seconds) := hms in
  Ok (hours * 3600 + minutes * 60 + seconds).

(** [calculate_minutes_until]: Python's [//] is [Z.div] (floor). *)
Definition calculate_minutes_until (arrival_time query_time : string) : result Z :=
  arrival_seconds <- gtfs_time_to_seconds arrival_time ;;
  query_seconds <- gtfs_time_to_seconds query_time ;;
  let diff_seconds := arrival_seconds - query_seconds in
  Ok (diff_seconds / 60).

Definition LATE_NIGHT_THRESHOLD_HOUR : Z := 4.

(** [safe_parse_gtfs_time] *)
Definition safe_parse_gtfs_time (time_str : string) : option (Z * Z * Z) :=
  match parse_gtfs_time time_str with
  | Ok hms => Some hms
  | Err _ => None
  end.

(** [is_time_in_late_night_range] *)
Definition is_time_in_late_night_range (time_str : string) : bool :=
  match safe_parse_gtfs_time time_str with
  | None => false
  | Some (hours, _, _) => hours <? LATE_NIGHT_THRESHOLD_HOUR
  end.

(** [is_extended_time] *)
Definition is_extended_time (time_str : string) : bool :=
  match safe_parse_gtfs_time time_str with
  | None => false
  | Some (hours, _, _) => 24 <=? hours
  end.

(** [convert_to_extended_time] *)
Definition convert_to_extended_time (time_str : string) : string :=
  match safe_parse_gtfs_time time_str with
  | None => time_str
  | Some (hours, minutes, seconds) =>
      if hours <? 24 then format_hms (hours + 24) minutes seconds
      else time_str
  end.

(** [safe_gtfs_time_to_seconds] *)
Definition safe_gtfs_time_to_seconds (time_str : string) : option Z :=
  match safe_parse_gtfs_time time_str with
  | None => None
  | Some (hours, minutes, seconds) => Some (hours * 3600 + minutes * 60 + seconds)
  end.

(** ** Dates and datetimes *)

(** A Python [date] is determined by its proleptic Gregorian ordinal
    ([date.toordinal()]), 1 for 0001-01-01 up to [MAXORDINAL] for
    9999-12-31. *)
Definition MAXORDINAL : Z := 3652059.

Record date := mkdate { toordinal : Z }.

Definition valid_date (d : date) : Prop := 1 <= toordinal d <= MAXORDINAL.

(** [date.weekday()]: 0 is Monday. *)
Definition weekday (d : date) : Z := (toordinal d + 6) mod 7.

(** [date - timedelta(days=n)], with the message of CPython's C
    implementation of [datetime]. *)
Definition date_sub_days (d : date) (n : Z) : result date :=
  let o := toordinal d - n in
  if (0 <? o) && (o <=? MAXORDINAL) then Ok (mkdate o)
  else Err (OverflowError "date value out of range").

Definition DAYS_BEFORE_MONTH (m : Z) : Z :=
  match m with
  | 1 => 0 | 2 => 31 | 3 => 59 | 4 => 90 | 5 => 120 | 6 => 151
  | 7 => 181 | 8 => 212 | 9 => 243 | 10 => 273 | 11 => 304 | 12 => 334
  | _ => -1
  end.

Definition DAYS_IN_MONTH (m : Z) : Z :=
  match m with
  | 2 => 28 | 4 | 6 | 9 | 11 => 30
  | 1 | 3 | 5 | 7 | 8 | 10 | 12 => 31
  | _ => -1
  end.

Definition DI400Y : Z := 146097.
Definition DI100Y : Z := 36524.
Definition DI4Y : Z := 1461.

(** CPython's [_ord2ymd]. *)
Definition ord2ymd (n0 : Z) : Z * Z * Z :=
  let n := n0 - 1 in
  let n400 := n / DI400Y in let n := n mod DI400Y in
  let year := n400 * 400 + 1 in
  let n100 := n / DI100Y in let n := n mod DI100Y in
  let n4 := n / DI4Y in let n := n mod DI4Y in
  let n1 := n / 365 in let n := n mod 365 in
  let year := year + n100 * 100 + n4 * 4 + n1 in
  if (n1 =? 4) || (n100 =? 4) then (year - 1, 12, 31)
  else
    let leapyear := (n1 =? 3) && (negb (n4 =? 24) || (n100 =? 3)) in
    let month := Z.shiftr (n + 50) 5 in
    let preceding := DAYS_BEFORE_MONTH month
                     + (if (2 <? month) && leapyear then 1 else 0) in
    let '(month, preceding) :=
      if n <? preceding then
        let month := month - 1 in
        (month, preceding - (DAYS_IN_MONTH month
                             + (if (month =? 2) && leapyear then 1 else 0)))
      else (month, preceding) in
    (year, month, n - preceding + 1).

(** [f"{n:0wd}"] for [n >= 0]. *)
Definition pad0 (w : nat) (n : Z) : string :=
  let ds := dec (Z.to_nat n) in
  (String.concat "" (repeat "0"%string (w - String.length ds)) ++ ds)%string.

(** [date_to_gtfs_format], [d.strftime("%Y%m%d")]; [%Y] as glibc prints
    it (no padding of years below 1000). *)
Definition date_to_gtfs_format (d : date) : string :=
  let '(y, m, dd) := ord2ymd (toordinal d) in
  (dec (Z.to_nat y) ++ pad0 2 m ++ pad0 2 dd)%string.

(** A naive [datetime]; [hour], [minute], [second] in their Python ranges. *)
Record datetime := mkdatetime {
  dt_date : date;
  hour : Z;
  minute : Z;
  second : Z
}.

Definition valid_datetime (dt : datetime) : Prop :=
  valid_date (dt_date dt) /\ 0 <= hour dt <= 23 /\ 0 <= minute dt <= 59
  /\ 0 <= second dt <= 59.

(** [time_to_gtfs_format] *)
Definition time_to_gtfs_format (dt : datetime) : string :=
  format_hms (hour dt) (minute dt) (second dt).

(** [get_gtfs_service_context] *)
Definition get_gtfs_service_context (dt : datetime) : result (date * string * bool) :=
  let is_late_night := hour dt <? LATE_NIGHT_THRESHOLD_HOUR in
  if is_late_night then
    service_date <- date_sub_days (dt_date dt) 1 ;;
    let extended_hour := hour dt + 24 in
    Ok (service_date, format_hms extended_hour (minute dt) (second dt), true)
  else
    Ok (dt_date dt, format_hms (hour dt) (minute dt) (second dt), false).

(** ** The service-day resolver ([get_active_service_ids]) *)

(** A row of the [calendar] table. *)
Record calendar_row := mkcal {
  cal_service_id : string;
  monday : Z; tuesday : Z; wednesday : Z; thursday : Z;
  friday : Z; saturday : Z; sunday : Z;
  start_date : string;
  end_date : string
}.

(** A row of the [calendar_dates] table, whose primary key is
    [(service_id, date)]. *)
Record calendar_date_row := mkcd {
  cd_service_id : string;
  cd_date : string;
  exception_type : Z
}.

Record stop_row := mkstop {
  stop_id : string;
  stop_name : string;
  stop_code : option string
}.

Record route_row := mkroute {
  route_id : string;
  route_short_name : option string;
  route_type : Z
}.

Record trip_row := mktrip {
  trip_id : string;
  trip_route_id : string;
  service_id : string;
  trip_headsign : option string
}.

Record stop_time_row := mkstoptime {
  st_trip_id : string;
  arrival_time : string;
  departure_time : string;
  st_stop_id : string;
  stop_sequence : Z
}.

(** The GTFS tables, as lists of rows in the order SQLite returns them. *)
Record gtfs_tables := mktables {
  stops : list stop_row;
  routes : list route_row;
  trips : list trip_row;
  stop_times : list stop_time_row;
  calendar : list calendar_row;
  calendar_dates : list calendar_date_row
}.

(** [row[WEEKDAY_COLUMNS[wd]]] *)
Definition weekday_flag (r : calendar_row) (wd : Z) : Z :=
  match wd with
  | 0 => monday r | 1 => tuesday r | 2 => wednesday r | 3 => thursday r
  | 4 => friday r | 5 => saturday r | _ => sunday r
  end.

(** A Python [set] of strings: a duplicate-free list. *)
Definition set_add (x : string) (s : list string) : list string :=
  if existsb (String.eqb x) s then s else s ++ [x].

Definition set_discard (x : string) (s : list string) : list string :=
  filter (fun y => negb (String.eqb x y)) s.

(** [? BETWEEN start_date AND end_date] on TEXT columns (binary collation). *)
Definition sql_between (v lo hi : string) : bool :=
  String.leb lo v && String.leb v hi.

(** [get_active_service_ids] *)
Definition get_active_service_ids (db : gtfs_tables) (query_date : date) : list string :=
  let date_str := date_to_gtfs_format query_date in
  let wd := weekday query_date in
  let rows := filter (fun r => sql_between date_str (start_date r) (end_date r)
                               && (weekday_flag r wd =? 1)) (calendar db) in
  let base_services := fold_left (fun acc r => set_add (cal_service_id r) acc) rows [] in
  let exceptions := filter (fun r => String.eqb (cd_date r) date_str) (calendar_dates db) in
  fold_left (fun acc r =>
               if exception_type r =? 2 then set_discard (cd_service_id r) acc
               else if exception_type r =? 1 then set_add (cd_service_id r) acc
               else acc)
            exceptions base_services.

(** ** Scheduled arrivals ([get_scheduled_arrivals]) *)

(** [str(n)] for an [int]. *)
Definition py_str_int (z : Z) : string :=
  if z <? 0 then String "-" (dec (Z.to_nat (- z))) else dec (Z.to_nat z).

(** [format_gtfs_time] *)
Definition format_gtfs_time (time_str : string) : result string :=
  hms <- parse_gtfs_time time_str ;;
  let '(hours0, minutes, _) := hms in
  let '(hours, next_day) :=
    if 24 <=? hours0 then (hours0 - 24, " (+1)"%string) else (hours0, ""%string) in
  let '(display_hour, period) :=
    if hours =? 0 then (12, "AM"%string)
    else if hours =? 12 then (hours, "PM"%string)
    else if 12 <? hours then (hours - 12, "PM"%string)
    else (hours, "AM"%string) in
  Ok (py_str_int display_hour ++ ":" ++ format02 minutes ++ " " ++ period ++ next_day)%string.

(** A stable insertion sort: [sort_by le l] is [sorted(l)] for a key order
    [le] ([list.sort] is stable, so its result is determined). *)
Fixpoint insert_by {A : Type} (le : A -> A -> bool) (x : A) (l : list A) : list A :=
  match l with
  | [] => [x]
  | y :: r => if le y x then y :: insert_by le x r else x :: l
  end.

Definition sort_by {A : Type} (le : A -> A -> bool) (l : list A) : list A :=
  fold_left (fun acc x => insert_by le x acc) l [].

(** SQL [LIMIT n]: a negative limit means no limit. *)
Definition sql_limit {A : Type} (n : Z) (l : list A) : list A :=
  if n <? 0 then l else firstn (Z.to_nat n) l.

Fixpoint mapM {A B : Type} (f : A -> result B) (l : list A) : result (list B) :=
  match l with
  | [] => Ok []
  | x :: r => y <- f x ;; ys <- mapM f r ;; Ok (y :: ys)
  end.

Record StopInfo := mkStopInfo {
  si_stop_id : string;
  si_stop_name : string;
  si_stop_code : option string
}.

Record ScheduledArrival := mkScheduledArrival {
  sa_trip_id : string;
  sa_route_id : string;
  sa_route_short_name : option string;
  sa_route_type : Z;
  sa_trip_headsign : option string;
  sa_arrival_time : string;
  sa_arrival_time_formatted : string;
  sa_minutes_until : Z
}.

Record GetScheduledArrivalsResponse := mkArrivalsResponse {
  ar_stop : StopInfo;
  ar_arrivals : list ScheduledArrival;
  ar_service_date : date;
  ar_query_time : string;
  ar_count : Z
}.

(** STEP 1 of [get_scheduled_arrivals]: service date, start time and
    [use_extended_times]. *)
Definition derive_start (now : datetime) (start_time : option string)
  : result (date * string * bool) :=
  match start_time with
  | Some st =>
      if is_extended_time st then
        service_date <- date_sub_days (dt_date now) 1 ;;
        Ok (service_date, st, true)
      else if is_time_in_late_night_range st then
        ctx <- get_gtfs_service_context now ;;
        let '(_, _, currently_late_night) := ctx in
        if currently_late_night then
          service_date <- date_sub_days (dt_date now) 1 ;;
          Ok (service_date, convert_to_extended_time st, true)
        else Ok (dt_date now, st, false)
      else Ok (dt_date now, st, false)
  | None => get_gtfs_service_context now
  end.

(** STEP 2: the end of the window. *)
Definition derive_end (use_extended_times : bool) (end_time : option string) : string :=
  match end_time with
  | None => "28:00:00"%string
  | Some et =>
      if use_extended_times && is_time_in_late_night_range et
      then convert_to_extended_time et else et
  end.

(** STEP 3: the inverted-window correction, only in extended mode. *)
Definition fix_inverted_window (use_extended_times : bool) (start_time end_time : string)
  : string :=
  if use_extended_times then
    match safe_gtfs_time_to_seconds start_time, safe_gtfs_time_to_seconds end_time with
    | Some start_seconds, Some end_seconds =>
        if (end_seconds <? start_seconds) && negb (is_extended_time end_time)
        then convert_to_extended_time end_time else end_time
    | _, _ => end_time
    end
  else end_time.

(** STEPS 1-3 together: [(service_date, start_time, end_time, use_extended_times)]. *)
Definition arrivals_window (now : datetime) (start_time end_time : option string)
  : result (date * string * string * bool) :=
  w <- derive_start now start_time ;;
  let '(service_date, start_time, use_extended_times) := w in
  let end_time := derive_end use_extended_times end_time in
  let end_time := fix_inverted_window use_extended_times start_time end_time in
  Ok (service_date, start_time, end_time, use_extended_times).

(** The arrivals query: [stop_times JOIN trips JOIN routes] filtered on the
    stop, the active services, [arrival_time BETWEEN] the window (TEXT
    comparison) and the optional route, [ORDER BY st.arrival_time LIMIT ?]. *)
Definition arrival_rows (db : gtfs_tables) (stop : string) (active : list string)
  (start_time end_time : string) (route : option string) (limit : Z)
  : list (stop_time_row * trip_row * route_row) :=
  let joined :=
    flat_map (fun st =>
      flat_map (fun t =>
        flat_map (fun r =>
          if String.eqb (st_trip_id st) (trip_id t)
             && String.eqb (trip_route_id t) (route_id r)
             && String.eqb (st_stop_id st) stop
             && existsb (String.eqb (service_id t)) active
             && String.leb start_time (arrival_time st)
             && String.leb (arrival_time st) end_time
             && match route with
                | Some rid => String.eqb (trip_route_id t) rid
                | None => true
                end
          then [(st, t, r)] else [])
        (routes db))
      (trips db))
    (stop_times db) in
  sql_limit limit
    (sort_by (fun a b => let '(sa, _, _) := a in let '(sb, _, _) := b in
                         String.leb (arrival_time sa) (arrival_time sb)) joined).

(** [get_scheduled_arrivals], with [datetime.now()] passed as [now]. *)
Definition get_scheduled_arrivals (db : gtfs_tables) (now : datetime)
  (stop : string) (route : option string) (start_time end_time : option string)
  (limit : Z) : result GetScheduledArrivalsResponse :=
  w <- arrivals_window now start_time end_time ;;
  let '(service_date, start_time, end_time, _) := w in
  match find (fun r => String.eqb (stop_id r) stop) (stops db) with
  | None => Err (ValueError ("Stop not found: " ++ stop)%string)
  | Some stop_row =>
      let stop_info := mkStopInfo (stop_id stop_row) (stop_name stop_row)
                                  (stop_code stop_row) in
      match get_active_service_ids db service_date with
      | [] => Ok (mkArrivalsResponse stop_info [] service_date start_time 0)
      | active_services =>
          let rows := arrival_rows db stop active_services start_time end_time route limit in
          arrivals <- mapM (fun row =>
            let '(st, t, r) := row in
            formatted <- format_gtfs_time (arrival_time st) ;;
            minutes_until <- calculate_minutes_until (arrival_time st) start_time ;;
            Ok (mkScheduledArrival (st_trip_id st) (trip_route_id t)
                  (route_short_name r) (route_type r) (trip_headsign t)
                  (arrival_time st) formatted minutes_until)) rows ;;
          Ok (mkArrivalsResponse stop_info arrivals service_date start_time
                                 (Z.of_nat (length arrivals)))
      end
  end.

(** ** Transfer points ([_find_transfer_points]) *)

(** [MIN_TRANSFER_TIME_MINUTES], [MAX_TRANSFER_TIME_MINUTES] and
    [MAX_WALKING_DISTANCE_METERS] of [trip_planner.py]. *)
Definition MIN_TRANSFER_TIME_MINUTES : Z := 3.
Definition MAX_TRANSFER_TIME_MINUTES : Z := 30.
Definition MAX_WALKING_DISTANCE_METERS : Z := 400.

(** The Python [float] operations the transfer search uses: the literal
    [0.0], [haversine_distance], [d > n] and [int(d / n)]. *)
Class FloatOps := {
  float : Type;
  float_zero : float;
  haversine_distance : float -> float -> float -> float -> float;
  float_gt_int : float -> Z -> bool;
  int_div_float : float -> Z -> Z
}.

Record OutboundSegment := mkOutboundSegment {
  out_trip_id : string;
  out_route_id : string;
  out_route_short_name : option string;
  out_route_type : Z;
  out_trip_headsign : option string;
  origin_departure : string;
  origin_seq : Z;
  out_xfer_stop_id : string;
  xfer_arrival : string;
  out_xfer_seq : Z
}.

Record InboundSegment := mkInboundSegment {
  in_trip_id : string;
  in_route_id : string;
  in_route_short_name : option string;
  in_route_type : Z;
  in_trip_headsign : option string;
  in_xfer_stop_id : string;
  xfer_departure : string;
  in_xfer_seq : Z;
  dest_arrival : string;
  dest_seq : Z
}.

(** Dictionaries keyed by strings, in insertion order. *)
Fixpoint assoc_get {V : Type} (d : list (string * V)) (k : string) : option V :=
  match d with
  | [] => None
  | (k', v) :: r => if String.eqb k' k then Some v else assoc_get r k
  end.

(** [d.get(k, [])] *)
Definition dict_get_list {V : Type} (d : list (string * list V)) (k : string) : list V :=
  match assoc_get d k with
  | Some l => l
  | None => []
  end.

(** [if k not in d: d[k] = []] then [d[k].append(v)]. *)
Fixpoint dict_append {V : Type} (d : list (string * list V)) (k : string) (v : V)
  : list (string * list V) :=
  match d with
  | [] => [(k, [v])]
  | (k', l) :: r => if String.eqb k' k then (k', l ++ [v]) :: r else (k', l) :: dict_append r k v
  end.

Definition mem (x : string) (s : list string) : bool := existsb (String.eqb x) s.

(** A [set] of strings built from a list, as the list of its distinct
    elements. *)
Definition set_of (l : list string) : list string :=
  fold_left (fun acc x => set_add x acc) l [].

Fixpoint concat_mapM {A B : Type} (f : A -> result (list B)) (l : list A)
  : result (list B) :=
  match l with
  | [] => Ok []
  | x :: r => ys <- f x ;; zs <- concat_mapM f r ;; Ok (ys ++ zs)
  end.

Fixpoint foldM {A S : Type} (f : S -> A -> result S) (l : list A) (s : S) : result S :=
  match l with
  | [] => Ok s
  | x :: r => s' <- f s x ;; foldM f r s'
  end.

Section TransferPoints.
Context `{FloatOps}.

Record TransferPoint := mkTransferPoint {
  outbound : OutboundSegment;
  inbound : InboundSegment;
  wait_minutes : Z;
  walk_meters : float;
  walk_minutes : Z
}.

(** A row of [stops] as [_get_stop_location] reads it. *)
Record stop_location_row := mkStopLocationRow {
  loc_stop_id : string;
  stop_lat : option float;
  stop_lon : option float;
  loc_parent_station : option string
}.

Record location := mkLocation {
  lat : float;
  lon : float;
  parent_station : option string
}.

(** [_get_stop_location]; [float(None)] raises [TypeError]. *)
Definition get_stop_location (rows : list stop_location_row) (stop : string)
  : result (option location) :=
  match find (fun r => String.eqb (loc_stop_id r) stop) rows with
  | Some r =>
      match stop_lat r, stop_lon r with
      | Some la, Some lo => Ok (Some (mkLocation la lo (loc_parent_station r)))
      | Some _, None =>
          Err (TypeError "float() argument must be a string or a real number, not 'NoneType'")
      | None, _ => Ok None
      end
  | None => Ok None
  end.

(** [loc["parent_station"]] when truthy. *)
Definition truthy_parent (l : location) : option string :=
  match parent_station l with
  | Some p => if String.eqb p EmptyString then None else Some p
  | None => None
  end.

(** [loc and loc["parent_station"]] *)
Definition loc_parent (loc : option location) : option string :=
  match loc with
  | Some l => truthy_parent l
  | None => None
  end.

(** The body of the innermost loop, common to the three strategies: skip a
    same-route pair, compute the wait from the effective arrival, keep the
    pair when the wait is in the window. *)
Definition try_transfer (out_seg : OutboundSegment) (in_seg : InboundSegment)
  (effective_arrival_seconds : Z) (walk_m : float) (walk_min : Z)
  : result (list TransferPoint) :=
  if String.eqb (out_route_id out_seg) (in_route_id in_seg) then Ok []
  else
    departure_seconds <- gtfs_time_to_seconds (xfer_departure in_seg) ;;
    let effective_wait := (departure_seconds - effective_arrival_seconds) / 60 in
    if (MIN_TRANSFER_TIME_MINUTES <=? effective_wait)
       && (effective_wait <=? MAX_TRANSFER_TIME_MINUTES)
    then Ok [mkTransferPoint out_seg in_seg effective_wait walk_m walk_min]
    else Ok [].

(** The loop over the inbound segments at one stop, for one outbound
    segment, with [walk_min] minutes added to its arrival (0 for a same-stop
    transfer). *)
Definition transfers_from (out_seg : OutboundSegment) (in_segs : list InboundSegment)
  (walk_min : Z) (walk_m : float) : result (list TransferPoint) :=
  arrival_seconds <- gtfs_time_to_seconds (xfer_arrival out_seg) ;;
  concat_mapM (fun in_seg =>
    try_transfer out_seg in_seg (arrival_seconds + walk_min * 60) walk_m walk_min) in_segs.

(** [_find_transfer_points]. The iteration order of a Python [set] depends
    on string hashing; it is the parameter [iter], applied wherever the code
    iterates over a set. *)
Definition find_transfer_points (iter : list string -> list string)
  (locs : list stop_location_row) (outbound_segments : list OutboundSegment)
  (inbound_segments : list InboundSegment) : result (list TransferPoint) :=
  let inbound_by_stop :=
    fold_left (fun d seg => dict_append d (in_xfer_stop_id seg) seg) inbound_segments [] in
  let get_location := get_stop_location locs in
  let outbound_stops := set_of (map out_xfer_stop_id outbound_segments) in
  let inbound_stops := map fst inbound_by_stop in
  let common_stops := filter (fun st => mem st inbound_stops) outbound_stops in
  (* Strategy 1: same-stop transfers *)
  tps1 <- concat_mapM (fun out_seg =>
      if negb (mem (out_xfer_stop_id out_seg) common_stops) then Ok []
      else transfers_from out_seg (dict_get_list inbound_by_stop (out_xfer_stop_id out_seg))
             0 float_zero)
    outbound_segments ;;
  (* Strategy 2: same-station transfers *)
  outbound_parent_stations <- foldM (fun d stop =>
      loc <- get_location stop ;;
      match loc_parent loc with
      | Some parent => Ok (dict_append d parent stop)
      | None => Ok d
      end) (iter outbound_stops) [] ;;
  st2 <- foldM (fun st in_stop_id =>
      let '(tps, matched_out, matched_in) := st in
      if mem in_stop_id common_stops then Ok st
      else
        loc <- get_location in_stop_id ;;
        match loc_parent loc with
        | None => Ok st
        | Some parent =>
            match assoc_get outbound_parent_stations parent with
            | None => Ok st
            | Some out_stop_ids =>
                foldM (fun st out_stop_id =>
                  foldM (fun st out_seg =>
                    let '(tps, matched_out, matched_in) := st in
                    if negb (String.eqb (out_xfer_stop_id out_seg) out_stop_id) then Ok st
                    else
                      found <- transfers_from out_seg (dict_get_list inbound_by_stop in_stop_id)
                                 2 float_zero ;;
                      match found with
                      | [] => Ok st
                      | _ => Ok (tps ++ found, set_add out_stop_id matched_out,
                                 set_add in_stop_id matched_in)
                      end) outbound_segments st) out_stop_ids st
            end
        end) (iter inbound_stops) ([], [], []) ;;
  let '(tps2, matched_out, matched_in) := st2 in
  (* Strategy 3: proximity transfers *)
  let unmatched_outbound :=
    filter (fun st => negb (mem st common_stops) && negb (mem st matched_out)) outbound_stops in
  let unmatched_inbound :=
    filter (fun st => negb (mem st common_stops) && negb (mem st matched_in)) inbound_stops in
  tps3 <- concat_mapM (fun out_stop_id =>
      out_loc <- get_location out_stop_id ;;
      match out_loc with
      | None => Ok []
      | Some ol =>
          concat_mapM (fun in_stop_id =>
            in_loc <- get_location in_stop_id ;;
            match in_loc with
            | None => Ok []
            | Some il =>
                let distance := haversine_distance (lat ol) (lon ol) (lat il) (lon il) in
                if float_gt_int distance MAX_WALKING_DISTANCE_METERS then Ok []
                else
                  let walk_minutes := int_div_float distance 80 + 1 in
                  concat_mapM (fun out_seg =>
                    if negb (String.eqb (out_xfer_stop_id out_seg) out_stop_id) then Ok []
                    else transfers_from out_seg (dict_get_list inbound_by_stop in_stop_id)
                           walk_minutes distance) outbound_segments
            end) (iter unmatched_inbound)
      end) (iter unmatched_outbound) ;;
  Ok (tps1 ++ tps2 ++ tps3).

(** The transfer invariant: different routes, a wait within
    [MIN_TRANSFER_TIME_MINUTES..MAX_TRANSFER_TIME_MINUTES], equal to the
    whole minutes between arrival and departure less the walk minutes, and
    the walk minutes of one of the strategies. *)
Definition valid_transfer (tp : TransferPoint) : Prop :=
  out_route_id (outbound tp) <> in_route_id (inbound tp) /\
  MIN_TRANSFER_TIME_MINUTES <= wait_minutes tp <= MAX_TRANSFER_TIME_MINUTES /\
  (exists arr dep,
     gtfs_time_to_seconds (xfer_arrival (outbound tp)) = Ok arr /\
     gtfs_time_to_seconds (xfer_departure (inbound tp)) = Ok dep /\
     wait_minutes tp = (dep - arr) / 60 - walk_minutes tp) /\
  (walk_minutes tp = 0 \/ walk_minutes tp = 2 \/
   (float_gt_int (walk_meters tp) MAX_WALKING_DISTANCE_METERS = false /\
    walk_minutes tp = int_div_float (walk_meters tp) 80 + 1)).

End TransferPoints.

(** ** Trip planning ([plan_trip]) *)

(** [list[:n]] *)
Definition py_slice_to {A : Type} (n : Z) (l : list A) : list A :=
  if n <? 0 then firstn (Z.to_nat (Z.of_nat (length l) + n)) l
  else firstn (Z.to_nat n) l.

Inductive MatchConfidence := EXACT | HIGH | MEDIUM | LOW.

Definition confidence_value (c : MatchConfidence) : string :=
  match c with
  | EXACT => "exact"%string
  | HIGH => "high"%string
  | MEDIUM => "medium"%string
  | LOW => "low"%string
  end.

Record StopMatch := mkStopMatch {
  sm_stop_id : string;
  sm_stop_name : string;
  confidence : MatchConfidence
}.

Record StopResolutionResponse := mkStopResolutionResponse {
  srr_query : string;
  matches : list StopMatch;
  best_match : option StopMatch;
  srr_resolved : bool
}.

(** [resolve_stop]: [candidates q] is the ranked list of matches of the
    stripped query [q] built from the search index (exact code or id,
    cross-street and fuzzy name matches, sorted by score); it may raise. *)
Definition resolve_stop (candidates : string -> result (list StopMatch))
  (query : string) (limit : Z) : result StopResolutionResponse :=
  let query := py_strip query in
  if String.eqb query EmptyString then Ok (mkStopResolutionResponse query [] None false)
  else
    ms <- candidates query ;;
    let ms := py_slice_to limit ms in
    let best := hd_error ms in
    let resolved :=
      match best with
      | Some m => match confidence m with EXACT | HIGH => true | _ => false end
      | None => false
      end in
    Ok (mkStopResolutionResponse query ms best resolved).

Record StopResolutionInfo := mkStopResolutionInfo {
  sri_query : string;
  resolved_stop_id : option string;
  resolved_stop_name : option string;
  sri_confidence : option string;
  resolved : bool;
  sri_error : option string
}.

(** [_resolve_stop_for_planning]: [except Exception] catches every
    exception but a bare [BaseException] such as [CancelledError]. *)
Definition resolve_stop_for_planning (candidates : string -> result (list StopMatch))
  (query : string) : result StopResolutionInfo :=
  match resolve_stop candidates query 1 with
  | Ok r =>
      match best_match r with
      | Some m =>
          Ok (mkStopResolutionInfo query (Some (sm_stop_id m)) (Some (sm_stop_name m))
                (Some (confidence_value (confidence m))) (srr_resolved r) None)
      | None =>
          Ok (mkStopResolutionInfo query None None None false (Some "No matching stop found"%string))
      end
  | Err e =>
      if is_exception e
      then Ok (mkStopResolutionInfo query None None None false (Some (py_exc_str e)))
      else Err e
  end.

Record Itinerary := mkItinerary {
  it_departure_time : string;
  it_arrival_time : string;
  total_duration_minutes : Z;
  num_transfers : Z
}.

Record PlanTripResponse := mkPlanTripResponse {
  origin_resolution : StopResolutionInfo;
  destination_resolution : StopResolutionInfo;
  itineraries : list Itinerary;
  pt_service_date : date;
  departure_date : date;
  query_time : string;
  pt_count : Z;
  success : bool;
  pt_error : option string
}.

Inductive finder := DirectFinder | TransferFinder.

(** A call of [_find_direct_itineraries] or [_find_transfer_itineraries]
    with its arguments. *)
Record finder_call := mkFinderCall {
  fc_finder : finder;
  fc_origin_stop_id : option string;
  fc_destination_stop_id : option string;
  fc_departure_time : string;
  fc_service_date : date;
  fc_limit : Z
}.

(** What [plan_trip] calls: the search index of [resolve_stop] and the two
    itinerary finders. *)
Record planner_env := mkPlannerEnv {
  stop_candidates : string -> result (list StopMatch);
  find_itineraries : finder_call -> result (list Itinerary)
}.

(** Results with the trace of the finder calls made. *)
Definition traced (A : Type) : Type := (list finder_call * result A)%type.

Definition tret {A : Type} (a : A) : traced A := ([], Ok a).

Definition tlift {A : Type} (r : result A) : traced A := ([], r).

Definition tbind {A B : Type} (m : traced A) (k : A -> traced B) : traced B :=
  match m with
  | (t1, Ok a) => let (t2, r) := k a in (t1 ++ t2, r)
  | (t1, Err e) => (t1, Err e)
  end.

Notation "x <-- m ;;; k" := (tbind m (fun x => k))
  (at level 61, m at next level, right associativity).

Definition call_finder (env : planner_env) (c : finder_call) : traced (list Itinerary) :=
  ([c], find_itineraries env c).

(** [plan_trip], with [datetime.now()] passed as [now]. *)
Definition plan_trip (env : planner_env) (now : datetime) (origin destination : string)
  (departure_time : option string) (limit : Z) : traced PlanTripResponse :=
  let service_date := dt_date now in
  let departure_time :=
    match departure_time with
    | Some t => t
    | None => time_to_gtfs_format now
    end in
  origin_res <-- tlift (resolve_stop_for_planning (stop_candidates env) origin) ;;;
  dest_res <-- tlift (resolve_stop_for_planning (stop_candidates env) destination) ;;;
  if negb (resolved origin_res) || negb (resolved dest_res) then
    tret (mkPlanTripResponse origin_res dest_res [] service_date (dt_date now) departure_time
            0 false (Some "Could not resolve origin or destination stop"%string))
  else
    direct_itineraries <-- call_finder env
      (mkFinderCall DirectFinder (resolved_stop_id origin_res) (resolved_stop_id dest_res)
         departure_time service_date limit) ;;;
    transfer_itineraries <-- call_finder env
      (mkFinderCall TransferFinder (resolved_stop_id origin_res) (resolved_stop_id dest_res)
         departure_time service_date limit) ;;;
    let all_itineraries := direct_itineraries ++ transfer_itineraries in
    let all_itineraries :=
      sort_by (fun a b => total_duration_minutes a <=? total_duration_minutes b)
        all_itineraries in
    let its := py_slice_to limit all_itineraries in
    tret (mkPlanTripResponse origin_res dest_res its service_date (dt_date now) departure_time
            (Z.of_nat (length its)) (0 <? Z.of_nat (length its))
            (match its with [] => Some "No routes found"%string | _ => None end)).

(** [p] holds of every character of a string. *)
Fixpoint all_chars (p : ascii -> bool) (s : string) : bool :=
  match s with
  | EmptyString => true
  | String c r => p c && all_chars p r
  end.

(** Characters that [str.strip()] keeps and [str.split(":")] does not cut at. *)
Definition plain_char (c : ascii) : bool :=
  negb (is_space c) && negb (Ascii.eqb c ":").

Definition nonspace (c : ascii) : bool := negb (is_space c).

(** Characters printed by [format02]. *)
Definition fmt_char (c : ascii) : bool := is_digit c || Ascii.eqb c "-".

(** One step of the exception loop. *)
Definition exception_step (acc : list string) (r : calendar_date_row) : list string :=
  if exception_type r =? 2 then set_discard (cd_service_id r) acc
  else if exception_type r =? 1 then set_add (cd_service_id r) acc
  else acc.

Definition has_exception (L : list calendar_date_row) (y : string) (k : Z) : Prop :=
  exists r, In r L /\ cd_service_id r = y /\ exception_type r = k.

(** ** The trip finders ([trip_planner.py]) *)

Definition TIME_WINDOW_HOURS : Z := 2.

(** [f"{secs // 3600:02d}:{(secs % 3600) // 60:02d}:00"], the form of
    [end_time] in both finders and of [latest_transfer_time]. *)
Definition hhmm00 (secs : Z) : string :=
  (format02 (secs / 3600) ++ ":" ++ format02 ((secs mod 3600) / 60) ++ ":00")%string.

(** The dict returned by [_get_stop_info]. *)
Record stop_info_dict := mkStopInfoDict {
  info_name : string;
  info_code : option string
}.

(** [_get_stop_info]; [stop_id] is the primary key of [stops]. *)
Definition get_stop_info (db : gtfs_tables) (stop : string) : stop_info_dict :=
  match find (fun r => String.eqb (stop_id r) stop) (stops db) with
  | Some r => mkStopInfoDict (stop_name r) (stop_code r)
  | None => mkStopInfoDict stop None
  end.

Definition key2_eqb (a b : string * string) : bool :=
  String.eqb (fst a) (fst b) && String.eqb (snd a) (snd b).

Definition key3_eqb (a b : string * string * string) : bool :=
  let '(a1, a2, a3) := a in let '(b1, b2, b3) := b in
  String.eqb a1 b1 && String.eqb a2 b2 && String.eqb a3 b3.

(** The row loop of both finders:
    [for x in xs: if key in seen: continue; seen.add(key);
     itineraries.append(build(x)); if len(itineraries) >= limit: break]. *)
Fixpoint dedup_build {A K B : Type} (keq : K -> K -> bool) (key : A -> K)
  (build : A -> result B) (limit : Z) (xs : list A) (seen : list K) (acc : list B)
  : result (list B) :=
  match xs with
  | [] => Ok acc
  | x :: r =>
      if existsb (keq (key x)) seen then dedup_build keq key build limit r seen acc
      else
        b <- build x ;;
        let acc' := acc ++ [b] in
        if limit <=? Z.of_nat (length acc') then Ok acc'
        else dedup_build keq key build limit r (key x :: seen) acc'
  end.

Section Finders.
Context `{FloatOps}.

Record TripLeg := mkTripLeg {
  leg_route_id : string;
  leg_route_short_name : option string;
  leg_route_type : Z;
  leg_trip_id : string;
  leg_trip_headsign : option string;
  from_stop_id : string;
  from_stop_name : string;
  from_stop_code : option string;
  to_stop_id : string;
  to_stop_name : string;
  to_stop_code : option string;
  leg_departure_time : string;
  leg_departure_time_formatted : string;
  leg_arrival_time : string;
  leg_arrival_time_formatted : string;
  duration_minutes : Z;
  num_stops : Z
}.

(** [Itinerary] of [models/responses.py] with all its fields, as the
    finders build it; the record [Itinerary] above keeps the fields that
    [plan_trip] reads. *)
Record FullItinerary := mkFullItinerary {
  legs : list TripLeg;
  fi_departure_time : string;
  fi_departure_time_formatted : string;
  fi_arrival_time : string;
  fi_arrival_time_formatted : string;
  fi_total_duration_minutes : Z;
  fi_num_transfers : Z;
  transfer_wait_minutes : option Z;
  transfer_walk_meters : option float
}.

(** The query of [_find_direct_itineraries]:
    [stop_times o JOIN stop_times d JOIN trips t JOIN routes r] with its
    [WHERE] clause (times compared as TEXT), [ORDER BY o.departure_time]
    and [LIMIT lim]. SQLite leaves the order of rows with equal departure
    times open; they are kept here in the order of the join. *)
Definition direct_rows (db : gtfs_tables) (origin dest : string) (active : list string)
  (dep_time end_time : string) (lim : Z)
  : list (stop_time_row * stop_time_row * trip_row * route_row) :=
  let joined :=
    flat_map (fun o =>
      flat_map (fun d =>
        flat_map (fun t =>
          flat_map (fun r =>
            if String.eqb (st_trip_id o) (st_trip_id d)
               && String.eqb (st_trip_id o) (trip_id t)
               && String.eqb (trip_route_id t) (route_id r)
               && String.eqb (st_stop_id o) origin
               && String.eqb (st_stop_id d) dest
               && mem (service_id t) active
               && String.leb dep_time (departure_time o)
               && String.leb (departure_time o) end_time
               && (stop_sequence o <? stop_sequence d)
            then [(o, d, t, r)] else [])
          (routes db))
        (trips db))
      (stop_times db))
    (stop_times db) in
  sql_limit lim
    (sort_by (fun a b => let '(oa, _, _, _) := a in let '(ob, _, _, _) := b in
                         String.leb (departure_time oa) (departure_time ob)) joined).

(** The body of the row loop of [_find_direct_itineraries]. *)
Definition direct_itinerary (origin_stop_id destination_stop_id : string)
  (origin_info dest_info : stop_info_dict)
  (row : stop_time_row * stop_time_row * trip_row * route_row) : result FullItinerary :=
  let '(o, d, t, r) := row in
  let origin_dep := departure_time o in
  let dest_arr := arrival_time d in
  a <- gtfs_time_to_seconds dest_arr ;;
  b <- gtfs_time_to_seconds origin_dep ;;
  let duration := (a - b) / 60 in
  let num_stops := stop_sequence d - stop_sequence o + 1 in
  f1 <- format_gtfs_time origin_dep ;;
  f2 <- format_gtfs_time dest_arr ;;
  let leg := mkTripLeg (trip_route_id t) (route_short_name r) (route_type r) (st_trip_id o)
               (trip_headsign t) origin_stop_id (info_name origin_info) (info_code origin_info)
               destination_stop_id (info_name dest_info) (info_code dest_info)
               origin_dep f1 dest_arr f2 duration num_stops in
  f3 <- format_gtfs_time origin_dep ;;
  f4 <- format_gtfs_time dest_arr ;;
  Ok (mkFullItinerary [leg] origin_dep f3 dest_arr f4 duration 0 None None).

(** [_find_direct_itineraries] *)
Definition find_direct_itineraries (db : gtfs_tables)
  (origin_stop_id destination_stop_id dep_time : string) (service_date : date) (limit : Z)
  : result (list FullItinerary) :=
  departure_seconds <- gtfs_time_to_seconds dep_time ;;
  let end_seconds := departure_seconds + TIME_WINDOW_HOURS * 3600 in
  let end_time := hhmm00 end_seconds in
  match get_active_service_ids db service_date with
  | [] => Ok []
  | active_services =>
      let origin_info := get_stop_info db origin_stop_id in
      let dest_info := get_stop_info db destination_stop_id in
      let rows := direct_rows db origin_stop_id destination_stop_id active_services
                    dep_time end_time (limit * 2) in
      dedup_build key2_eqb
        (fun row => let '(o, _, t, _) := row in (trip_route_id t, departure_time o))
        (direct_itinerary origin_stop_id destination_stop_id origin_info dest_info)
        limit rows [] []
  end.

(** [_get_outbound_segments]: [ORDER BY ot.origin_dep, st.stop_sequence],
    ties kept in join order. *)
Definition outbound_segments (db : gtfs_tables) (origin_stop_id dep_time end_time : string)
  (active : list string) : list OutboundSegment :=
  let origin_trips :=
    flat_map (fun st =>
      flat_map (fun t =>
        if String.eqb (st_trip_id st) (trip_id t)
           && String.eqb (st_stop_id st) origin_stop_id
           && mem (service_id t) active
           && String.leb dep_time (departure_time st)
           && String.leb (departure_time st) end_time
        then [(st, t)] else [])
      (trips db))
    (stop_times db) in
  let joined :=
    flat_map (fun ot =>
      let '(ost, t) := ot in
      flat_map (fun st =>
        flat_map (fun r =>
          if String.eqb (st_trip_id ost) (st_trip_id st)
             && (stop_sequence ost <? stop_sequence st)
             && String.eqb (trip_route_id t) (route_id r)
          then [mkOutboundSegment (st_trip_id ost) (trip_route_id t) (route_short_name r)
                  (route_type r) (trip_headsign t) (departure_time ost) (stop_sequence ost)
                  (st_stop_id st) (arrival_time st) (stop_sequence st)]
          else [])
        (routes db))
      (stop_times db))
    origin_trips in
  sort_by (fun a b => String.ltb (origin_departure a) (origin_departure b)
                      || (String.eqb (origin_departure a) (origin_departure b)
                          && (out_xfer_seq a <=? out_xfer_seq b))) joined.

(** [_get_inbound_segments]: [ORDER BY dt.dest_arr, st.stop_sequence DESC],
    ties kept in join order. *)
Definition inbound_segments (db : gtfs_tables) (destination_stop_id : string)
  (active : list string) (latest_transfer_departure : string) : list InboundSegment :=
  let dest_trips :=
    flat_map (fun st =>
      flat_map (fun t =>
        if String.eqb (st_trip_id st) (trip_id t)
           && String.eqb (st_stop_id st) destination_stop_id
           && mem (service_id t) active
        then [(st, t)] else [])
      (trips db))
    (stop_times db) in
  let joined :=
    flat_map (fun dt =>
      let '(dst, t) := dt in
      flat_map (fun st =>
        flat_map (fun r =>
          if String.eqb (st_trip_id dst) (st_trip_id st)
             && (stop_sequence st <? stop_sequence dst)
             && String.eqb (trip_route_id t) (route_id r)
             && String.leb (departure_time st) latest_transfer_departure
          then [mkInboundSegment (st_trip_id dst) (trip_route_id t) (route_short_name r)
                  (route_type r) (trip_headsign t) (st_stop_id st) (departure_time st)
                  (stop_sequence st) (arrival_time dst) (stop_sequence dst)]
          else [])
        (routes db))
      (stop_times db))
    dest_trips in
  sort_by (fun a b => String.ltb (dest_arrival a) (dest_arrival b)
                      || (String.eqb (dest_arrival a) (dest_arrival b)
                          && (in_xfer_seq b <=? in_xfer_seq a))) joined.

(** [_build_transfer_itinerary] *)
Definition build_transfer_itinerary (db : gtfs_tables) (transfer : TransferPoint)
  (origin_stop_id destination_stop_id : string) : result FullItinerary :=
  let ob := outbound transfer in
  let ib := inbound transfer in
  let origin_info := get_stop_info db origin_stop_id in
  let xfer_out_info := get_stop_info db (out_xfer_stop_id ob) in
  let xfer_in_info := get_stop_info db (in_xfer_stop_id ib) in
  let dest_info := get_stop_info db destination_stop_id in
  a1 <- gtfs_time_to_seconds (xfer_arrival ob) ;;
  d1 <- gtfs_time_to_seconds (origin_departure ob) ;;
  let leg1_duration := (a1 - d1) / 60 in
  f1 <- format_gtfs_time (origin_departure ob) ;;
  f2 <- format_gtfs_time (xfer_arrival ob) ;;
  let leg1 := mkTripLeg (out_route_id ob) (out_route_short_name ob) (out_route_type ob)
                (out_trip_id ob) (out_trip_headsign ob)
                origin_stop_id (info_name origin_info) (info_code origin_info)
                (out_xfer_stop_id ob) (info_name xfer_out_info) (info_code xfer_out_info)
                (origin_departure ob) f1 (xfer_arrival ob) f2 leg1_duration
                (out_xfer_seq ob - origin_seq ob + 1) in
  a2 <- gtfs_time_to_seconds (dest_arrival ib) ;;
  d2 <- gtfs_time_to_seconds (xfer_departure ib) ;;
  let leg2_duration := (a2 - d2) / 60 in
  f3 <- format_gtfs_time (xfer_departure ib) ;;
  f4 <- format_gtfs_time (dest_arrival ib) ;;
  let leg2 := mkTripLeg (in_route_id ib) (in_route_short_name ib) (in_route_type ib)
                (in_trip_id ib) (in_trip_headsign ib)
                (in_xfer_stop_id ib) (info_name xfer_in_info) (info_code xfer_in_info)
                destination_stop_id (info_name dest_info) (info_code dest_info)
                (xfer_departure ib) f3 (dest_arrival ib) f4 leg2_duration
                (dest_seq ib - in_xfer_seq ib + 1) in
  a3 <- gtfs_time_to_seconds (dest_arrival ib) ;;
  d3 <- gtfs_time_to_seconds (origin_departure ob) ;;
  let total_duration := (a3 - d3) / 60 in
  f5 <- format_gtfs_time (origin_departure ob) ;;
  f6 <- format_gtfs_time (dest_arrival ib) ;;
  Ok (mkFullItinerary [leg1; leg2] (origin_departure ob) f5 (dest_arrival ib) f6
        total_duration 1 (Some (wait_minutes transfer))
        (if float_gt_int (walk_meters transfer) 0 then Some (walk_meters transfer) else None)).

(** The sort key of [_find_transfer_itineraries]. *)
Definition transfer_sort_key (t : TransferPoint) : result Z :=
  a <- gtfs_time_to_seconds (dest_arrival (inbound t)) ;;
  b <- gtfs_time_to_seconds (origin_departure (outbound t)) ;;
  Ok (a - b).

(** [_find_transfer_itineraries]; [locs] are the [stop_lat], [stop_lon]
    and [parent_station] columns of [stops], [iter] the order of set
    iteration (see [find_transfer_points]). [list.sort] computes every key
    first, then sorts stably. *)
Definition find_transfer_itineraries (iter : list string -> list string) (db : gtfs_tables)
  (locs : list stop_location_row) (origin_stop_id destination_stop_id dep_time : string)
  (service_date : date) (limit : Z) : result (list FullItinerary) :=
  departure_seconds <- gtfs_time_to_seconds dep_time ;;
  let end_seconds := departure_seconds + TIME_WINDOW_HOURS * 3600 in
  let end_time := hhmm00 end_seconds in
  match get_active_service_ids db service_date with
  | [] => Ok []
  | active_services =>
      match outbound_segments db origin_stop_id dep_time end_time active_services with
      | [] => Ok []
      | outbound_segs =>
          arrivals <- mapM (fun seg => gtfs_time_to_seconds (xfer_arrival seg)) outbound_segs ;;
          let max_outbound_arrival := fold_left Z.max (tl arrivals) (hd 0 arrivals) in
          let latest_transfer_seconds :=
            max_outbound_arrival + MAX_TRANSFER_TIME_MINUTES * 60 in
          let latest_transfer_time := hhmm00 latest_transfer_seconds in
          match inbound_segments db destination_stop_id active_services latest_transfer_time with
          | [] => Ok []
          | inbound_segs =>
              transfer_points <- find_transfer_points iter locs outbound_segs inbound_segs ;;
              match transfer_points with
              | [] => Ok []
              | _ =>
                  keys <- mapM transfer_sort_key transfer_points ;;
                  let sorted := map fst (sort_by (fun a b => snd a <=? snd b)
                                           (combine transfer_points keys)) in
                  dedup_build key3_eqb
                    (fun t => (origin_departure (outbound t), out_route_id (outbound t),
                               in_route_id (inbound t)))
                    (fun t => build_transfer_itinerary db t origin_stop_id destination_stop_id)
                    limit sorted [] []
              end
          end
      end
  end.

End Finders.

(** ** The MCP tools ([tools/trip_tools.py], [tools/schedule_tools.py]) *)

(** The [plan_trip] tool: clamps [limit] to [1..5]. *)
Definition plan_trip_tool (env : planner_env) (now : datetime) (origin destination : string)
  (departure_time : option string) (limit : Z) : traced PlanTripResponse :=
  let limit := if limit <? 1 then 1 else if 5 <? limit then 5 else limit in
  plan_trip env now origin destination departure_time limit.

(** The [get_scheduled_arrivals] tool: clamps [limit] to [1..100]. *)
Definition get_scheduled_arrivals_tool (db : gtfs_tables) (now : datetime) (stop : string)
  (route : option string) (start_time end_time : option string) (limit : Z)
  : result GetScheduledArrivalsResponse :=
  let limit := if limit <? 1 then 1 else if 100 <? limit then 100 else limit in
  get_scheduled_arrivals db now stop route start_time end_time limit.

(** Distances as whole metres between points of a plane: an instance of
    [FloatOps] in which the transfer search can be run on examples. *)
#[export] Instance planar_metres : FloatOps := {
  float := Z;
  float_zero := 0;
  haversine_distance := fun la lo la' lo' => Z.abs (la - la') + Z.abs (lo - lo');
  float_gt_int := fun d n => n <? d;
  int_div_float := fun d n => Z.quot d n
}.

(** The ASCII digit of a value [0..9]. *)
Definition digit_char (d : Z) : ascii := ascii_of_N (Z.to_N (48 + d)).

(** Transfer points as the finder returns them: valid, made of segments of
    the given lists. *)
Section TransferSoundness.
Context `{FloatOps}.

Definition sound_transfer (outs : list OutboundSegment) (ins : list InboundSegment)
  (tp : TransferPoint) : Prop :=
  valid_transfer tp /\ In (outbound tp) outs /\ In (inbound tp) ins.

(** The order of [list.sort(key=...)] in [_find_transfer_itineraries]. *)
Definition key_le (tp1 tp2 : TransferPoint) : Prop :=
  forall k1 k2, transfer_sort_key tp1 = Ok k1 -> transfer_sort_key tp2 = Ok k2 -> k1 <= k2.

End TransferSoundness.

(** Example tables: one stop served by routes 24 and 51 on weekdays. *)
Definition arrivals_db : gtfs_tables :=
  mktables [mkstop "S1" "Berri-UQAM" (Some "51001"%string)]
    [mkroute "24" (Some "24"%string) 3; mkroute "51" (Some "51"%string) 3]
    [mktrip "T1" "24" "WK" None; mktrip "T2" "51" "WK" None; mktrip "T3" "24" "WK" None]
    [mkstoptime "T3" "09:40:00" "09:40:00" "S1" 5;
     mkstoptime "T1" "08:15:00" "08:15:00" "S1" 3;
     mkstoptime "T2" "08:05:00" "08:05:00" "S1" 7]
    [mkcal "WK" 1 1 1 1 1 0 0 "20250101" "20251231"] [].

(** Example tables: stops [A] and [B] joined directly by trips of routes 24
    and 51, and with a transfer at [X] from route 24 to route 80. *)
Definition planner_db : gtfs_tables :=
  mktables [mkstop "A" "Origin" None; mkstop "B" "Dest" (Some "52002"%string);
            mkstop "X" "Xfer" None]
    [mkroute "24" (Some "24"%string) 3; mkroute "51" (Some "51"%string) 3;
     mkroute "80" (Some "80"%string) 3]
    [mktrip "T1" "24" "WK" None; mktrip "T2" "24" "WK" None; mktrip "T3" "51" "WK" None;
     mktrip "T4" "80" "WK" None]
    [mkstoptime "T1" "08:10:00" "08:10:00" "A" 1;
     mkstoptime "T1" "08:20:00" "08:20:00" "X" 3;
     mkstoptime "T1" "08:40:00" "08:40:00" "B" 5;
     mkstoptime "T2" "08:10:00" "08:10:00" "A" 1;
     mkstoptime "T2" "08:45:00" "08:45:00" "B" 4;
     mkstoptime "T3" "08:20:00" "08:20:00" "A" 2;
     mkstoptime "T3" "08:35:00" "08:35:00" "B" 6;
     mkstoptime "T4" "08:25:00" "08:25:00" "X" 1;
     mkstoptime "T4" "08:50:00" "08:50:00" "B" 3]
    [mkcal "WK" 1 1 1 1 1 0 0 "20250101" "20251231"] [].

(** END OF DEFINITIONS *)

(** * Properties *)

(** ** Evaluation on small inputs *)

Example parse_ex1 : parse_gtfs_time "25:30:00" = Ok (25, 30, 0).
Proof. reflexivity. Qed.
Example parse_ex2 : parse_gtfs_time " +1_0: 05 :-3 " = Ok (10, 5, -3).
Proof. reflexivity. Qed.
Example parse_ex3 : safe_parse_gtfs_time "1__0:00:00" = None.
Proof. reflexivity. Qed.
Example conv_ex1 : convert_to_extended_time "02:10:00" = "26:10:00"%string.
Proof. reflexivity. Qed.
Example conv_ex2 : convert_to_extended_time "-1:00:00" = "23:00:00"%string.
Proof. reflexivity. Qed.
Example fmt_ex : format_hms (-5) 0 123 = "-5:00:123"%string.
Proof. reflexivity. Qed.
Example ord_ex1 : ord2ymd 739259 = (2025, 1, 8).
Proof. reflexivity. Qed.
Example ord_ex2 : ord2ymd 738945 = (2024, 2, 29) /\ ord2ymd 730485 = (2000, 12, 31)
  /\ ord2ymd 1 = (1, 1, 1) /\ ord2ymd MAXORDINAL = (9999, 12, 31).
Proof. vm_compute. repeat split. Qed.
Example date_fmt_ex : date_to_gtfs_format (mkdate 739259) = "20250108"%string
  /\ weekday (mkdate 739259) = 2.
Proof. vm_compute. split; reflexivity. Qed.
Example active_ex :
  let wk := mkcal "WEEKDAY" 1 1 1 1 1 0 0 "20240101" "20261231" in
  let hol := mkcd "HOLIDAY" "20250108" 1 in
  let rm := mkcd "WEEKDAY" "20250108" 2 in
  get_active_service_ids (mktables [] [] [] [] [wk] []) (mkdate 739259)
    = ["WEEKDAY"%string] /\
  get_active_service_ids (mktables [] [] [] [] [wk] [hol]) (mkdate 739259)
    = ["WEEKDAY"%string; "HOLIDAY"%string] /\
  get_active_service_ids (mktables [] [] [] [] [wk] [rm]) (mkdate 739259) = [].
Proof. vm_compute. repeat split. Qed.
Example format_ex :
  format_gtfs_time "25:30:00" = Ok "1:30 AM (+1)"%string /\
  format_gtfs_time "00:00:00" = Ok "12:00 AM"%string /\
  format_gtfs_time "14:30:00" = Ok "2:30 PM"%string.
Proof. vm_compute. repeat split. Qed.
Example window_ex :
  arrivals_window (mkdatetime (mkdate 739259) 1 6 0) None (Some "05:00:00"%string)
    = Ok (mkdate 739258, "25:06:00"%string, "29:00:00"%string, true).
Proof. vm_compute. reflexivity. Qed.
Example cmu_ex : calculate_minutes_until "08:00:30" "08:01:00" = Ok (-1).
Proof. reflexivity. Qed.

(** ** Decimal printing and [int()] parsing round-trip *)

Lemma digits_after_uint (u : Decimal.uint) (a : Z) (acc : nat) :
  a = Z.of_nat acc ->
  digits_after (uint_str u) a = Some (Z.of_nat (Nat.of_uint_acc u acc)).
Proof.
  revert a acc; induction u; intros a acc Ha; subst a;
    [reflexivity|..];
    cbn [uint_str digits_after Nat.of_uint_acc];
    (match goal with |- (if is_digit ?c then _ else _) = _ =>
       change (is_digit c) with true end);
    cbv iota beta;
    apply IHu; rewrite ?Nat.tail_mul_spec;
    unfold digit_val, code;
    match goal with |- context [nat_of_ascii ?c] =>
      let v := eval vm_compute in (nat_of_ascii c) in change (nat_of_ascii c) with v end;
    lia.
Qed.

Lemma to_uint_not_nil (n : nat) : Nat.to_uint n <> Decimal.Nil.
Proof.
  intro E. destruct n as [|k]; [discriminate|].
  pose proof (Unsigned.of_to (S k)) as H. rewrite E in H. discriminate.
Qed.

Lemma digits_after_dec (n : nat) :
  digits_after (dec n) 0 = Some (Z.of_nat n).
Proof.
  unfold dec. rewrite (digits_after_uint _ 0 0 eq_refl).
  change (Nat.of_uint_acc (Nat.to_uint n) 0) with (Nat.of_uint (Nat.to_uint n)).
  now rewrite Unsigned.of_to.
Qed.

Lemma parse_udigits_dec (n : nat) :
  parse_udigits (dec n) = Some (Z.of_nat n).
Proof.
  rewrite <- digits_after_dec. unfold dec.
  pose proof (to_uint_not_nil n) as Hn.
  destruct (Nat.to_uint n); [contradiction|..]; reflexivity.
Qed.

Ltac ascii_cases c :=
  destruct c as [[] [] [] [] [] [] [] []].

Lemma digit_plain (c : ascii) : is_digit c = true -> plain_char c = true.
Proof. ascii_cases c; vm_compute; intro H; first [reflexivity | discriminate H]. Qed.

Lemma fmt_plain (c : ascii) : fmt_char c = true -> plain_char c = true.
Proof. ascii_cases c; vm_compute; intro H; first [reflexivity | discriminate H]. Qed.

Lemma all_chars_app (p : ascii -> bool) (a b : string) :
  all_chars p (a ++ b) = all_chars p a && all_chars p b.
Proof.
  induction a as [|c a IH]; simpl; [reflexivity|].
  now rewrite IH, andb_assoc.
Qed.

Lemma all_chars_impl (p q : ascii -> bool) (s : string) :
  (forall c, p c = true -> q c = true) ->
  all_chars p s = true -> all_chars q s = true.
Proof.
  intros Hpq. induction s as [|c s IH]; simpl; [reflexivity|].
  intros H. apply andb_prop in H as [H1 H2].
  now rewrite (Hpq c H1), (IH H2).
Qed.

Lemma uint_str_digits (u : Decimal.uint) : all_chars is_digit (uint_str u) = true.
Proof. induction u; cbn [uint_str all_chars]; try rewrite IHu; reflexivity. Qed.

Lemma dec_plain (n : nat) : all_chars plain_char (dec n) = true.
Proof. exact (all_chars_impl _ _ _ digit_plain (uint_str_digits _)). Qed.

Lemma dec_fmt (n : nat) : all_chars fmt_char (dec n) = true.
Proof.
  refine (all_chars_impl _ _ _ _ (uint_str_digits _)).
  intros c H. unfold fmt_char. now rewrite H.
Qed.

Lemma format02_plain (z : Z) : all_chars plain_char (format02 z) = true.
Proof.
  apply (all_chars_impl fmt_char); [exact fmt_plain|].
  unfold format02. destruct (z <? 0); [|destruct (z <? 10)];
    cbn [all_chars]; rewrite ?dec_fmt; reflexivity.
Qed.

Lemma plain_nonspace (c : ascii) : plain_char c = true -> nonspace c = true.
Proof. unfold plain_char, nonspace. now intros [? _]%andb_prop. Qed.

Lemma rstrip_nonspace (s : string) : all_chars nonspace s = true -> rstrip s = s.
Proof.
  induction s as [|c s IH]; simpl; [reflexivity|].
  intros H. apply andb_prop in H as [H1 H2]. rewrite (IH H2).
  unfold nonspace in H1. destruct (is_space c); [discriminate|].
  now rewrite andb_false_r.
Qed.

Lemma py_strip_nonspace (s : string) : all_chars nonspace s = true -> py_strip s = s.
Proof.
  intros H. unfold py_strip.
  assert (E : lstrip s = s).
  { destruct s as [|c r]; simpl; [reflexivity|].
    simpl in H. apply andb_prop in H as [H1 _]. unfold nonspace in H1.
    destruct (is_space c); [discriminate|reflexivity]. }
  rewrite E. now apply rstrip_nonspace.
Qed.

Lemma py_strip_plain (s : string) : all_chars plain_char s = true -> py_strip s = s.
Proof. intros H. apply py_strip_nonspace. exact (all_chars_impl _ _ _ plain_nonspace H). Qed.

Lemma split_colon_plain (s : string) :
  all_chars plain_char s = true -> split_colon s = [s].
Proof.
  induction s as [|c s IH]; simpl; [reflexivity|].
  intros H. apply andb_prop in H as [H1 H2]. rewrite (IH H2).
  unfold plain_char in H1. destruct (Ascii.eqb c ":"); [rewrite andb_false_r in H1; discriminate|].
  reflexivity.
Qed.

Lemma split_colon_app (a r : string) :
  all_chars plain_char a = true ->
  split_colon (a ++ String ":" r) = a :: split_colon r.
Proof.
  induction a as [|c a IH]; simpl; [reflexivity|].
  intros H. apply andb_prop in H as [H1 H2]. rewrite (IH H2).
  unfold plain_char in H1. destruct (Ascii.eqb c ":"); [rewrite andb_false_r in H1; discriminate|].
  reflexivity.
Qed.

Lemma py_int_minus (r : string) :
  all_chars plain_char r = true ->
  py_int (String "-" r) = option_map Z.opp (parse_udigits r).
Proof.
  intros H. unfold py_int. rewrite py_strip_plain by (simpl; now rewrite H).
  reflexivity.
Qed.

Lemma py_int_digit (c : ascii) (r : string) :
  is_digit c = true -> all_chars plain_char r = true ->
  py_int (String c r) = parse_udigits (String c r).
Proof.
  intros Hc H. unfold py_int.
  rewrite py_strip_plain by (simpl; now rewrite (digit_plain c Hc), H).
  revert Hc. ascii_cases c; vm_compute; intro Hc; first [reflexivity | discriminate Hc].
Qed.

Lemma py_int_dec (n : nat) : py_int (dec n) = Some (Z.of_nat n).
Proof.
  pose proof (to_uint_not_nil n) as Hn. pose proof (uint_str_digits (Nat.to_uint n)) as Hd.
  rewrite <- parse_udigits_dec. unfold dec in *.
  destruct (Nat.to_uint n) eqn:E; [contradiction|..];
    cbn [uint_str all_chars] in *; apply andb_prop in Hd as [_ Hd];
    (rewrite py_int_digit; [reflexivity|reflexivity|]);
    exact (all_chars_impl _ _ _ digit_plain Hd).
Qed.

Lemma py_int_format02 (z : Z) : py_int (format02 z) = Some z.
Proof.
  unfold format02. destruct (z <? 0) eqn:H1; [|destruct (z <? 10) eqn:H2].
  - rewrite py_int_minus by apply dec_plain. rewrite parse_udigits_dec.
    simpl. f_equal. lia.
  - rewrite py_int_digit by (reflexivity || apply dec_plain).
    change (parse_udigits (String "0" (dec (Z.to_nat z))))
      with (digits_after (dec (Z.to_nat z)) 0).
    rewrite digits_after_dec. f_equal. lia.
  - rewrite py_int_dec. f_equal. lia.
Qed.

Lemma format02_nonspace (z : Z) : all_chars nonspace (format02 z) = true.
Proof. exact (all_chars_impl _ _ _ plain_nonspace (format02_plain z)). Qed.

Lemma format_hms_nonspace (h m s : Z) : all_chars nonspace (format_hms h m s) = true.
Proof.
  unfold format_hms.
  repeat (rewrite all_chars_app || cbn [all_chars]).
  rewrite !format02_nonspace. reflexivity.
Qed.

(** Printing with [format_hms] and parsing back with [parse_gtfs_time]
    is the identity, negative components included. *)
Lemma parse_format_hms (h m s : Z) :
  parse_gtfs_time (format_hms h m s) = Ok (h, m, s).
Proof.
  unfold parse_gtfs_time. rewrite py_strip_nonspace by apply format_hms_nonspace.
  unfold format_hms.
  rewrite split_colon_app by apply format02_plain.
  rewrite split_colon_app by apply format02_plain.
  rewrite split_colon_plain by apply format02_plain.
  now rewrite !py_int_format02.
Qed.

Lemma safe_parse_format_hms (h m s : Z) :
  safe_parse_gtfs_time (format_hms h m s) = Some (h, m, s).
Proof. unfold safe_parse_gtfs_time. now rewrite parse_format_hms. Qed.

Lemma format_hms_inj (h m s h' m' s' : Z) :
  format_hms h m s = format_hms h' m' s' -> (h, m, s) = (h', m', s').
Proof.
  intros E. pose proof (parse_format_hms h m s) as P.
  rewrite E, parse_format_hms in P. injection P as <- <- <-. reflexivity.
Qed.

(** ** Minutes until an arrival (C4) *)

Lemma floor_vs_trunc_60 (d : Z) :
  (0 <= d -> d / 60 = Z.quot d 60) /\
  (d < 0 -> d mod 60 <> 0 -> d / 60 = Z.quot d 60 - 1).
Proof.
  pose proof (Z.div_mod d 60 ltac:(lia)) as Dm.
  pose proof (Z.mod_pos_bound d 60 ltac:(lia)) as Mb.
  pose proof (Z.quot_rem' d 60) as Qr.
  pose proof (Z.rem_bound_abs d 60 ltac:(lia)) as Rb.
  split; intros Hd.
  - pose proof (Z.rem_nonneg d 60 ltac:(lia) Hd). lia.
  - intros Hm. pose proof (Z.rem_nonpos d 60 ltac:(lia) ltac:(lia)).
    assert (Z.rem d 60 <> 0).
    { intros Hr. apply Hm. apply Z.mod_divide; [lia|].
      exists (Z.quot d 60). lia. }
    lia.
Qed.

(** C4 counterexample: with the reference 30 seconds after the target, the
    code returns -1 where truncation toward zero gives 0. *)
Lemma calculate_minutes_until_floors_negative :
  gtfs_time_to_seconds "08:00:30" = Ok 28830 /\
  gtfs_time_to_seconds "08:01:00" = Ok 28860 /\
  calculate_minutes_until "08:00:30" "08:01:00" = Ok (-1) /\
  calculate_minutes_until "08:00:30" "08:01:00" <> Ok (Z.quot (28830 - 28860) 60).
Proof. vm_compute. repeat split; discriminate. Qed.

(** C4 (amended): for valid time strings, [calculate_minutes_until] is the
    floor of the difference in seconds divided by 60; this is truncation when
    the target is not before the reference, and one less than truncation for
    a negative difference that is not a whole number of minutes. *)
Theorem calculate_minutes_until_floor (target reference : string) (ts rs : Z) :
  gtfs_time_to_seconds target = Ok ts ->
  gtfs_time_to_seconds reference = Ok rs ->
  calculate_minutes_until target reference = Ok ((ts - rs) / 60) /\
  (rs <= ts -> (ts - rs) / 60 = Z.quot (ts - rs) 60) /\
  (ts < rs -> (ts - rs) mod 60 <> 0 -> (ts - rs) / 60 = Z.quot (ts - rs) 60 - 1).
Proof.
  intros Ht Hr. unfold calculate_minutes_until. rewrite Ht, Hr. simpl.
  destruct (floor_vs_trunc_60 (ts - rs)) as [F1 F2].
  split; [reflexivity|]. split; intros; [apply F1; lia | apply F2; lia].
Qed.

Lemma calculate_minutes_until_floor_witness :
  calculate_minutes_until "08:00:30" "08:01:00" = Ok ((28830 - 28860) / 60) /\
  (28860 <= 28830 -> (28830 - 28860) / 60 = Z.quot (28830 - 28860) 60) /\
  (28830 < 28860 -> (28830 - 28860) mod 60 <> 0 ->
   (28830 - 28860) / 60 = Z.quot (28830 - 28860) 60 - 1).
Proof.
  apply (calculate_minutes_until_floor "08:00:30" "08:01:00" 28830 28860);
    vm_compute; reflexivity.
Defined.

(** ** Extended-time conversion (C9) *)

(** C9 counterexample: a negative hour is lifted by 24 but stays below 24,
    so a second application lifts it again. *)
Lemma convert_to_extended_time_twice_negative_hour :
  convert_to_extended_time "-1:00:00" = "23:00:00"%string /\
  convert_to_extended_time (convert_to_extended_time "-1:00:00") = "47:00:00"%string /\
  convert_to_extended_time (convert_to_extended_time "-1:00:00")
    <> convert_to_extended_time "-1:00:00".
Proof. vm_compute. repeat split; discriminate. Qed.

(** C9 (amended): [convert_to_extended_time] is idempotent on [t] exactly
    when [t] does not parse to a time with a negative hour component
    (inputs that fail to parse, or parse with hours >= 0). *)
Theorem convert_to_extended_time_idempotent_iff (t : string) :
  convert_to_extended_time (convert_to_extended_time t) = convert_to_extended_time t <->
  (forall h m s, safe_parse_gtfs_time t = Some (h, m, s) -> 0 <= h).
Proof.
  destruct (safe_parse_gtfs_time t) as [[[h m] s]|] eqn:E.
  - destruct (h <? 24) eqn:Hh.
    + assert (C : convert_to_extended_time t = format_hms (h + 24) m s)
        by (unfold convert_to_extended_time; now rewrite E, Hh).
      rewrite C. unfold convert_to_extended_time at 1.
      rewrite safe_parse_format_hms.
      destruct (h + 24 <? 24) eqn:H2; split.
      * intros Eq. apply format_hms_inj in Eq. injection Eq. lia.
      * intros Hyp. specialize (Hyp h m s eq_refl). lia.
      * intros _ h' m' s' Eq. injection Eq; intros; subst; lia.
      * intros _. reflexivity.
    + assert (C : convert_to_extended_time t = t)
        by (unfold convert_to_extended_time; now rewrite E, Hh).
      rewrite C, C. split; [|reflexivity].
      intros _ h' m' s' Eq. injection Eq; intros; subst; lia.
  - assert (C : convert_to_extended_time t = t)
      by (unfold convert_to_extended_time; now rewrite E).
    rewrite C, C. split; [|reflexivity]. intros _ h' m' s' Eq. discriminate.
Qed.

(** ** Late-night service context (C3) *)

(** C3 counterexample: at 02:00 on 0001-01-01 the previous calendar day
    does not exist and [date - timedelta(days=1)] raises. *)
Lemma service_context_overflow_at_min_date :
  valid_datetime (mkdatetime (mkdate 1) 2 0 0) /\
  get_gtfs_service_context (mkdatetime (mkdate 1) 2 0 0)
    = Err (OverflowError "date value out of range").
Proof. unfold valid_datetime, valid_date, MAXORDINAL. simpl. split; [lia | reflexivity]. Qed.

(** C3 (amended): before 4 AM the service date is the previous calendar day
    and the time is the extended [HH+24:MM:SS], for every date but
    0001-01-01, on which every time before 4 AM raises [OverflowError]
    (the previous day is out of range); from 4 AM on it is the same date
    with the unextended [HH:MM:SS] of [time_to_gtfs_format]. *)
Theorem get_gtfs_service_context_spec (dt : datetime) :
  valid_datetime dt ->
  (hour dt < 4 -> 1 < toordinal (dt_date dt) ->
   get_gtfs_service_context dt =
     Ok (mkdate (toordinal (dt_date dt) - 1),
         format_hms (hour dt + 24) (minute dt) (second dt), true)
   /\ gtfs_time_to_seconds (format_hms (hour dt + 24) (minute dt) (second dt))
      = Ok ((hour dt + 24) * 3600 + minute dt * 60 + second dt)
   /\ is_extended_time (format_hms (hour dt + 24) (minute dt) (second dt)) = true) /\
  (hour dt < 4 -> toordinal (dt_date dt) = 1 ->
   get_gtfs_service_context dt = Err (OverflowError "date value out of range")) /\
  (4 <= hour dt ->
   get_gtfs_service_context dt = Ok (dt_date dt, time_to_gtfs_format dt, false)
   /\ is_extended_time (time_to_gtfs_format dt) = false).
Proof.
  intros (Hd & Hh & Hm & Hs). unfold valid_date, MAXORDINAL in Hd.
  unfold get_gtfs_service_context, LATE_NIGHT_THRESHOLD_HOUR. split.
  - intros Hlt Hgt. replace (hour dt <? 4) with true by lia.
    unfold date_sub_days, MAXORDINAL.
    replace ((0 <? toordinal (dt_date dt) - 1) && (toordinal (dt_date dt) - 1 <=? 3652059))
      with true by lia.
    simpl. split; [reflexivity|].
    unfold gtfs_time_to_seconds, is_extended_time.
    rewrite safe_parse_format_hms, parse_format_hms. simpl.
    split; [reflexivity|]. lia.
  - split.
    + intros Hlt Heq. replace (hour dt <? 4) with true by lia.
      unfold date_sub_days. rewrite Heq. reflexivity.
    + intros Hge. replace (hour dt <? 4) with false by lia. split; [reflexivity|].
      unfold is_extended_time, time_to_gtfs_format.
      rewrite safe_parse_format_hms. lia.
Qed.

Lemma get_gtfs_service_context_spec_witness :
  get_gtfs_service_context (mkdatetime (mkdate 739259) 1 30 0)
    = Ok (mkdate 739258, "25:30:00"%string, true) /\
  get_gtfs_service_context (mkdatetime (mkdate 739259) 22 30 0)
    = Ok (mkdate 739259, "22:30:00"%string, false) /\
  get_gtfs_service_context (mkdatetime (mkdate 1) 3 59 0)
    = Err (OverflowError "date value out of range").
Proof.
  assert (V1 : valid_datetime (mkdatetime (mkdate 739259) 1 30 0))
    by (unfold valid_datetime, valid_date, MAXORDINAL; simpl; lia).
  assert (V2 : valid_datetime (mkdatetime (mkdate 739259) 22 30 0))
    by (unfold valid_datetime, valid_date, MAXORDINAL; simpl; lia).
  assert (V3 : valid_datetime (mkdatetime (mkdate 1) 3 59 0))
    by (unfold valid_datetime, valid_date, MAXORDINAL; simpl; lia).
  split; [|split].
  - destruct (get_gtfs_service_context_spec _ V1) as [H _].
    destruct H as [H _]; [simpl; lia | simpl; lia | exact H].
  - destruct (get_gtfs_service_context_spec _ V2) as [_ [_ H]].
    destruct H as [H _]; [simpl; lia | exact H].
  - destruct (get_gtfs_service_context_spec _ V3) as [_ [H _]].
    apply H; simpl; lia.
Defined.

(** ** Active services on a date (C2) *)

Lemma set_add_In (x y : string) (s : list string) :
  In y (set_add x s) <-> y = x \/ In y s.
Proof.
  unfold set_add. destruct (existsb (String.eqb x) s) eqn:E.
  - apply existsb_exists in E as [z [Hz Ez]]. apply String.eqb_eq in Ez. subst z.
    split; [now right|]. intros [->|H]; assumption.
  - rewrite in_app_iff. simpl. intuition.
Qed.

Lemma set_add_NoDup (x : string) (s : list string) : NoDup s -> NoDup (set_add x s).
Proof.
  intros H. unfold set_add. destruct (existsb (String.eqb x) s) eqn:E; [exact H|].
  apply (Permutation_NoDup (Permutation_cons_append s x)). constructor; [|exact H].
  intros Hin. assert (existsb (String.eqb x) s = true) as E'
    by (apply existsb_exists; exists x; split; [exact Hin | apply String.eqb_refl]).
  congruence.
Qed.

Lemma set_discard_In (x y : string) (s : list string) :
  In y (set_discard x s) <-> In y s /\ y <> x.
Proof.
  unfold set_discard. rewrite filter_In.
  destruct (String.eqb_spec x y) as [<-|Hne]; simpl.
  - split; intros [_ H]; [discriminate H | now contradiction H].
  - split; intros [H _]; split; auto; congruence.
Qed.

Lemma set_discard_NoDup (x : string) (s : list string) : NoDup s -> NoDup (set_discard x s).
Proof. apply NoDup_filter. Qed.

Lemma fold_set_add_In (rows : list calendar_row) (acc : list string) (y : string) :
  In y (fold_left (fun acc r => set_add (cal_service_id r) acc) rows acc) <->
  In y acc \/ exists r, In r rows /\ cal_service_id r = y.
Proof.
  revert acc. induction rows as [|r rows IH]; intros acc; simpl.
  - split; [now left|]. intros [H|[r [[] _]]]. exact H.
  - rewrite IH, set_add_In. split.
    + intros [[->|H]|[r' [Hr' Hy]]].
      * right. exists r. split; [left; reflexivity | reflexivity].
      * left. exact H.
      * right. exists r'. split; [right; exact Hr' | exact Hy].
    + intros [H|[r' [[<-|Hr'] Hy]]].
      * left. right. exact H.
      * left. left. symmetry. exact Hy.
      * right. exists r'. split; [exact Hr' | exact Hy].
Qed.

Lemma fold_set_add_NoDup (rows : list calendar_row) (acc : list string) :
  NoDup acc -> NoDup (fold_left (fun acc r => set_add (cal_service_id r) acc) rows acc).
Proof.
  revert acc. induction rows as [|r rows IH]; intros acc H; simpl; [exact H|].
  apply IH, set_add_NoDup, H.
Qed.

Lemma has_exception_cons (r : calendar_date_row) (L : list calendar_date_row) y k :
  has_exception (r :: L) y k <->
  (cd_service_id r = y /\ exception_type r = k) \/ has_exception L y k.
Proof.
  unfold has_exception. simpl. split.
  - intros [r' [[<-|H] [H1 H2]]]; [now left | right; now exists r'].
  - intros [[H1 H2]|[r' [H [H1 H2]]]]; [now exists r; auto | exists r'; auto].
Qed.

Lemma exception_step_other (r : calendar_date_row) acc y :
  cd_service_id r <> y -> In y (exception_step acc r) <-> In y acc.
Proof.
  intros Hne. unfold exception_step.
  destruct (exception_type r =? 2); [|destruct (exception_type r =? 1)].
  - rewrite set_discard_In. split; [intros [H _]; exact H|].
    intros H. split; [exact H|]. intros E. apply Hne. symmetry. exact E.
  - rewrite set_add_In. split; [|intros H; right; exact H].
    intros [E|H]; [|exact H]. exfalso. apply Hne. symmetry. exact E.
  - reflexivity.
Qed.

Lemma exception_step_NoDup r acc : NoDup acc -> NoDup (exception_step acc r).
Proof.
  intros H. unfold exception_step.
  destruct (exception_type r =? 2); [|destruct (exception_type r =? 1)].
  - now apply set_discard_NoDup.
  - now apply set_add_NoDup.
  - exact H.
Qed.

Lemma fold_exceptions_In (L : list calendar_date_row) (acc : list string) (y : string) :
  NoDup (map cd_service_id L) ->
  In y (fold_left exception_step L acc) <->
  has_exception L y 1 \/ (In y acc /\ ~ has_exception L y 2).
Proof.
  revert acc. induction L as [|r L IH]; intros acc Hnd; simpl.
  - unfold has_exception. simpl. split.
    + intros H. right. split; [exact H|]. intros [r [[] _]].
    + intros [[r [[] _]]|[H _]]. exact H.
  - inversion Hnd as [|? ? Hnotin Hnd']. subst.
    rewrite (IH _ Hnd'), !has_exception_cons.
    destruct (String.eqb_spec (cd_service_id r) y) as [<-|Hne].
    + assert (N : forall k, ~ has_exception L (cd_service_id r) k).
      { intros k [r' [Hr' [Hs _]]]. apply Hnotin. rewrite <- Hs. now apply in_map. }
      pose proof (N 1) as N1. pose proof (N 2) as N2. clear N.
      unfold exception_step.
      destruct (Z.eqb_spec (exception_type r) 2) as [E2|E2];
        [|destruct (Z.eqb_spec (exception_type r) 1) as [E1|E1]];
        rewrite ?set_discard_In, ?set_add_In; intuition (try lia; try congruence).
    + rewrite (exception_step_other _ _ _ Hne). split.
      * intros [H|[H1 H2]]; [left; now right|].
        right. split; [exact H1|]. intros [[E _]|H]; [contradiction|auto].
      * intros [[[E _]|H]|[H1 H2]]; [contradiction|now left|].
        right. split; [exact H1|]. intros H. apply H2. now right.
Qed.

Lemma fold_exceptions_NoDup (L : list calendar_date_row) (acc : list string) :
  NoDup acc -> NoDup (fold_left exception_step L acc).
Proof.
  revert acc. induction L as [|r L IH]; intros acc H; simpl; [exact H|].
  apply IH, exception_step_NoDup, H.
Qed.

Lemma NoDup_keys_on_date (l : list calendar_date_row) (ds : string) :
  NoDup (map (fun r => (cd_service_id r, cd_date r)) l) ->
  NoDup (map cd_service_id (filter (fun r => String.eqb (cd_date r) ds) l)).
Proof.
  induction l as [|r l IH]; simpl; intros H; [constructor|].
  inversion H as [|? ? Hnotin Hnd]. subst.
  destruct (String.eqb_spec (cd_date r) ds) as [Ed|Ed]; [|now apply IH].
  simpl. constructor; [|now apply IH].
  intros Hin. apply in_map_iff in Hin as [r' [Hs Hin]].
  apply filter_In in Hin as [Hin Hd]. apply String.eqb_eq in Hd.
  apply Hnotin. apply in_map_iff. exists r'. split; [|exact Hin].
  rewrite Hs, Hd, Ed. reflexivity.
Qed.

(** C2: with the [calendar_dates] primary key [(service_id, date)], the
    active set on [d] (compared as the YYYYMMDD string [ds]) is a set, and
    a service id is in it exactly when it has an Added (1) exception on [ds],
    or it has a calendar row whose weekday flag for [d] is 1 and whose
    [start_date, end_date] range contains [ds] and it has no Removed (2)
    exception on [ds]. In particular a service id with no calendar row at
    all is active whenever it has an Added exception on [ds]. *)
Theorem get_active_service_ids_spec (db : gtfs_tables) (d : date) :
  NoDup (map (fun r => (cd_service_id r, cd_date r)) (calendar_dates db)) ->
  let ds := date_to_gtfs_format d in
  let added sid := exists r, In r (calendar_dates db) /\ cd_service_id r = sid
                             /\ cd_date r = ds /\ exception_type r = 1 in
  let removed sid := exists r, In r (calendar_dates db) /\ cd_service_id r = sid
                               /\ cd_date r = ds /\ exception_type r = 2 in
  let scheduled sid := exists r, In r (calendar db) /\ cal_service_id r = sid
                                 /\ weekday_flag r (weekday d) = 1
                                 /\ sql_between ds (start_date r) (end_date r) = true in
  NoDup (get_active_service_ids db d) /\
  (forall sid, In sid (get_active_service_ids db d) <->
               added sid \/ (scheduled sid /\ ~ removed sid)) /\
  (forall sid, ~ (exists r, In r (calendar db) /\ cal_service_id r = sid) ->
               added sid -> In sid (get_active_service_ids db d)).
Proof.
  intros Hpk ds added removed scheduled.
  set (rows := filter (fun r => sql_between ds (start_date r) (end_date r)
                                && (weekday_flag r (weekday d) =? 1)) (calendar db)).
  set (exceptions := filter (fun r => String.eqb (cd_date r) ds) (calendar_dates db)).
  assert (E : get_active_service_ids db d =
              fold_left exception_step exceptions
                (fold_left (fun acc r => set_add (cal_service_id r) acc) rows []))
    by reflexivity.
  assert (Hnd : NoDup (map cd_service_id exceptions)) by now apply NoDup_keys_on_date.
  assert (Ex : forall sid k, has_exception exceptions sid k <->
                 exists r, In r (calendar_dates db) /\ cd_service_id r = sid
                           /\ cd_date r = ds /\ exception_type r = k).
  { intros sid k. unfold has_exception, exceptions. split.
    - intros [r [Hin [H1 H2]]]. apply filter_In in Hin as [Hin Hd].
      apply String.eqb_eq in Hd. exists r. auto.
    - intros [r [Hin [H1 [H2 H3]]]]. exists r. split; [|auto].
      apply filter_In. split; [exact Hin|]. now apply String.eqb_eq. }
  assert (Sc : forall sid, (In sid [] \/ exists r, In r rows /\ cal_service_id r = sid)
                           <-> scheduled sid).
  { intros sid. unfold scheduled, rows. split.
    - intros [[]|[r [Hin Hs]]]. apply filter_In in Hin as [Hin Hc].
      apply andb_prop in Hc as [Hb Hw]. apply Z.eqb_eq in Hw. exists r. auto.
    - intros [r [Hin [Hs [Hw Hb]]]]. right. exists r. split; [|exact Hs].
      apply filter_In. split; [exact Hin|]. rewrite Hb. simpl. now apply Z.eqb_eq. }
  assert (Mem : forall sid, In sid (get_active_service_ids db d) <->
                            added sid \/ (scheduled sid /\ ~ removed sid)).
  { intros sid. rewrite E, (fold_exceptions_In _ _ _ Hnd), fold_set_add_In, Sc, !Ex.
    reflexivity. }
  split; [|split].
  - rewrite E. apply fold_exceptions_NoDup, fold_set_add_NoDup. constructor.
  - exact Mem.
  - intros sid _ Ha. apply Mem. now left.
Qed.

Lemma get_active_service_ids_spec_witness :
  let wk := mkcal "WEEKDAY" 1 1 1 1 1 0 0 "20240101" "20261231" in
  let db := mktables [] [] [] [] [wk] [mkcd "HOLIDAY" "20250108" 1] in
  NoDup (get_active_service_ids db (mkdate 739259)) /\
  In "HOLIDAY"%string (get_active_service_ids db (mkdate 739259)).
Proof.
  intros wk db.
  assert (Hpk : NoDup (map (fun r => (cd_service_id r, cd_date r)) (calendar_dates db)))
    by (simpl; repeat constructor; simpl; tauto).
  destruct (get_active_service_ids_spec db (mkdate 739259) Hpk) as [Hn [Hm Hp]].
  split; [exact Hn|]. apply Hm. left.
  exists (mkcd "HOLIDAY" "20250108" 1). simpl. auto.
Defined.

(** ** Text order of zero-padded times *)

Lemma string_compare_le_trans (a b c : string) :
  String.compare a b <> Gt -> String.compare b c <> Gt -> String.compare a c <> Gt.
Proof.
  revert b c. induction a as [|x a IH]; intros [|y b] [|z c]; simpl;
    try (intros; discriminate); try congruence.
  unfold Ascii.compare.
  destruct (N.compare_spec (N_of_ascii x) (N_of_ascii y)) as [Exy|Exy|Exy];
  destruct (N.compare_spec (N_of_ascii y) (N_of_ascii z)) as [Eyz|Eyz|Eyz];
  destruct (N.compare_spec (N_of_ascii x) (N_of_ascii z)) as [Exz|Exz|Exz];
  try congruence; try (exfalso; lia); eauto.
Qed.

Lemma string_leb_trans (a b c : string) :
  String.leb a b = true -> String.leb b c = true -> String.leb a c = true.
Proof.
  unfold String.leb. intros H1 H2.
  assert (C : String.compare a c <> Gt).
  { apply (string_compare_le_trans a b c);
      [destruct (String.compare a b) | destruct (String.compare b c)]; congruence. }
  destruct (String.compare a c); congruence.
Qed.

Lemma format02_two_digits (z : Z) :
  0 <= z < 100 ->
  format02 z = String (digit_char (z / 10)) (String (digit_char (z mod 10)) EmptyString).
Proof.
  intros Hz.
  assert (A : forallb (fun n => String.eqb (format02 (Z.of_nat n))
      (String (digit_char (Z.of_nat n / 10)) (String (digit_char (Z.of_nat n mod 10)) EmptyString)))
      (seq 0 100) = true) by (vm_compute; reflexivity).
  rewrite forallb_forall in A.
  specialize (A (Z.to_nat z) ltac:(apply in_seq; lia)).
  apply String.eqb_eq in A. rewrite Z2Nat.id in A by lia. exact A.
Qed.

Lemma ascii_compare_digit (a b : Z) :
  0 <= a <= 9 -> 0 <= b <= 9 ->
  Ascii.compare (digit_char a) (digit_char b) = Z.compare a b.
Proof.
  intros Ha Hb. unfold Ascii.compare, digit_char.
  rewrite !N_ascii_embedding by lia.
  rewrite Z2N.inj_compare by lia. apply Z.add_compare_mono_l.
Qed.

Ltac digits_of z :=
  let D := fresh "D" in let M := fresh "M" in
  pose proof (Z.div_mod z 10 ltac:(lia)) as D;
  pose proof (Z.mod_pos_bound z 10 ltac:(lia)) as M;
  generalize dependent (z / 10); generalize dependent (z mod 10); intros.

Lemma format_hms_compare (h m s h' m' s' : Z) :
  0 <= h < 100 -> 0 <= m < 60 -> 0 <= s < 60 ->
  0 <= h' < 100 -> 0 <= m' < 60 -> 0 <= s' < 60 ->
  String.compare (format_hms h m s) (format_hms h' m' s')
  = Z.compare (h * 3600 + m * 60 + s) (h' * 3600 + m' * 60 + s').
Proof.
  intros Hh Hm Hs Hh' Hm' Hs'. unfold format_hms.
  rewrite !format02_two_digits by lia.
  cbn [String.append String.compare].
  change (Ascii.compare ":" ":") with Eq. cbv beta iota.
  rewrite !ascii_compare_digit by (Z.to_euclidean_division_equations; lia).
  digits_of h; digits_of m; digits_of s; digits_of h'; digits_of m'; digits_of s'.
  repeat match goal with
  | |- context [match Z.compare ?x ?y with _ => _ end] =>
      destruct (Z.compare_spec x y); cbv beta iota
  end;
  destruct (Z.compare_spec (h * 3600 + m * 60 + s) (h' * 3600 + m' * 60 + s'));
  try reflexivity; exfalso; lia.
Qed.

(** ** Arrivals window and query (C6, C10) *)

Lemma flat_map_nil {A B : Type} (f : A -> list B) (l : list A) :
  (forall x, In x l -> f x = []) -> flat_map f l = [].
Proof.
  induction l as [|x l IH]; simpl; [reflexivity|].
  intros H. rewrite (H x (or_introl eq_refl)), IH by auto. reflexivity.
Qed.

(** A window whose start is above its end in text order selects no row. *)
Lemma arrival_rows_text_inverted (db : gtfs_tables) (stop : string) (active : list string)
  (s e : string) (route : option string) (limit : Z) :
  String.compare s e = Gt -> arrival_rows db stop active s e route limit = [].
Proof.
  intros G. unfold arrival_rows.
  rewrite flat_map_nil.
  - unfold sql_limit. destruct (limit <? 0); [|rewrite firstn_nil]; reflexivity.
  - intros st _. apply flat_map_nil. intros t _. apply flat_map_nil. intros r _.
    destruct (String.leb s (arrival_time st)) eqn:L1;
    destruct (String.leb (arrival_time st) e) eqn:L2;
    rewrite ?andb_false_r, ?andb_false_l; try reflexivity.
    pose proof (string_leb_trans _ _ _ L1 L2) as L. unfold String.leb in L.
    rewrite G in L. discriminate L.
Qed.

Lemma find_stop_none (l : list stop_row) (stop : string) :
  (forall r, In r l -> stop_id r <> stop) ->
  find (fun r => String.eqb (stop_id r) stop) l = None.
Proof.
  induction l as [|r l IH]; simpl; [reflexivity|]. intros H.
  destruct (String.eqb_spec (stop_id r) stop) as [E|_].
  - exfalso. exact (H r (or_introl eq_refl) E).
  - apply IH. intros r' Hr'. exact (H r' (or_intror Hr')).
Qed.

Lemma date_sub_one_ok (d : date) :
  1 < toordinal d <= MAXORDINAL -> date_sub_days d 1 = Ok (mkdate (toordinal d - 1)).
Proof.
  intros H. unfold date_sub_days.
  replace ((0 <? toordinal d - 1) && (toordinal d - 1 <=? MAXORDINAL)) with true by lia.
  reflexivity.
Qed.

Lemma service_context_ok (now : datetime) :
  1 < toordinal (dt_date now) <= MAXORDINAL ->
  exists c, get_gtfs_service_context now = Ok c.
Proof.
  intros H. unfold get_gtfs_service_context.
  destruct (hour now <? LATE_NIGHT_THRESHOLD_HOUR).
  - rewrite date_sub_one_ok by exact H. simpl. eexists; reflexivity.
  - eexists; reflexivity.
Qed.

Lemma derive_start_ok (now : datetime) (start_time : option string) :
  1 < toordinal (dt_date now) <= MAXORDINAL ->
  exists w, derive_start now start_time = Ok w.
Proof.
  intros H. unfold derive_start.
  destruct start_time as [st|]; [|exact (service_context_ok now H)].
  destruct (is_extended_time st).
  - rewrite date_sub_one_ok by exact H. simpl. eexists; reflexivity.
  - destruct (is_time_in_late_night_range st); [|eexists; reflexivity].
    destruct (service_context_ok now H) as [[[a b] c] E]. rewrite E. simpl.
    destruct c; [|eexists; reflexivity].
    rewrite date_sub_one_ok by exact H. simpl. eexists; reflexivity.
Qed.

Lemma arrivals_window_ok (now : datetime) (start_time end_time : option string) :
  1 < toordinal (dt_date now) <= MAXORDINAL ->
  exists sd s e b, arrivals_window now start_time end_time = Ok (sd, s, e, b).
Proof.
  intros H. destruct (derive_start_ok now start_time H) as [[[sd s] b] E].
  unfold arrivals_window. rewrite E. simpl. do 4 eexists. reflexivity.
Qed.

Lemma is_extended_time_false (t : string) (h m s : Z) :
  safe_parse_gtfs_time t = Some (h, m, s) -> is_extended_time t = false -> h < 24.
Proof. unfold is_extended_time. intros -> E. lia. Qed.

(** C6 (counterexample). Outside extended mode an inverted window is kept
    as given, but the query compares times as text: with an end time
    written without its leading zero, [14:00:00 <= 15:00:00 <= 8:00:00]
    holds in text order and a row is returned although the window runs
    from 50400 s down to 28800 s. *)
Lemma get_scheduled_arrivals_unpadded_end_not_empty :
  let db := mktables [mkstop "S1" "Berri" None] [mkroute "R1" (Some "24"%string) 3]
              [mktrip "T1" "R1" "DAILY" None] [mkstoptime "T1" "15:00:00" "15:00:00" "S1" 1]
              [mkcal "DAILY" 1 1 1 1 1 1 1 "20240101" "20261231"] [] in
  let now := mkdatetime (mkdate 739259) 10 0 0 in
  arrivals_window now (Some "14:00:00"%string) (Some "8:00:00"%string)
    = Ok (mkdate 739259, "14:00:00"%string, "8:00:00"%string, false) /\
  safe_gtfs_time_to_seconds "14:00:00" = Some 50400 /\
  safe_gtfs_time_to_seconds "8:00:00" = Some 28800 /\
  exists resp,
    get_scheduled_arrivals db now "S1" None (Some "14:00:00"%string) (Some "8:00:00"%string) 20
      = Ok resp /\ ar_count resp = 1.
Proof.
  intros db now. vm_compute. split; [reflexivity|]. split; [reflexivity|].
  split; [reflexivity|]. eexists. split; reflexivity.
Qed.

(** C6. The window correction of [get_scheduled_arrivals]: in extended
    mode, when the start is after the end (in seconds) and the end is not
    extended, the end is moved 24 hours later; outside extended mode the
    end is the one given; and an inverted window of zero-padded [HH:MM:SS]
    times (minutes and seconds below 60) returns no arrivals. *)
Theorem arrivals_window_inverted_range :
  (forall now st et sd s e ss es,
     arrivals_window now st et = Ok (sd, s, e, true) ->
     safe_gtfs_time_to_seconds s = Some ss ->
     safe_gtfs_time_to_seconds (derive_end true et) = Some es ->
     es < ss -> is_extended_time (derive_end true et) = false ->
     e = convert_to_extended_time (derive_end true et) /\
     safe_gtfs_time_to_seconds e = Some (es + 86400)) /\
  (forall now st et sd s e,
     arrivals_window now st (Some et) = Ok (sd, s, e, false) -> e = et) /\
  (forall db now stop route st et limit sd h m sec h' m' sec' resp,
     arrivals_window now st et = Ok (sd, format_hms h m sec, format_hms h' m' sec', false) ->
     0 <= h < 100 -> 0 <= m < 60 -> 0 <= sec < 60 ->
     0 <= h' < 100 -> 0 <= m' < 60 -> 0 <= sec' < 60 ->
     h' * 3600 + m' * 60 + sec' < h * 3600 + m * 60 + sec ->
     get_scheduled_arrivals db now stop route st et limit = Ok resp ->
     ar_arrivals resp = [] /\ ar_count resp = 0).
Proof.
  split; [|split].
  - intros now st et sd s e ss es W Hs He Hlt Hx.
    unfold arrivals_window in W.
    destruct (derive_start now st) as [[[sd0 s0] b0]|] eqn:D; cbn [bind] in W; [|discriminate W].
    injection W as E1 E2 E3 E4. subst sd0 s0 b0. subst e.
    unfold fix_inverted_window. rewrite Hs, He, Hx.
    replace (es <? ss) with true by lia. cbn [andb negb].
    split; [reflexivity|].
    unfold safe_gtfs_time_to_seconds in He.
    destruct (safe_parse_gtfs_time (derive_end true et)) as [[[h m] sc]|] eqn:P;
      [|discriminate He].
    injection He as <-. pose proof (is_extended_time_false _ _ _ _ P Hx) as Hh.
    unfold convert_to_extended_time. rewrite P.
    replace (h <? 24) with true by lia.
    unfold safe_gtfs_time_to_seconds. rewrite safe_parse_format_hms. f_equal. lia.
  - intros now st et sd s e W. unfold arrivals_window in W.
    destruct (derive_start now st) as [[[sd0 s0] b0]|] eqn:D; cbn [bind] in W; [|discriminate W].
    injection W as E1 E2 E3 E4. subst b0. rewrite <- E3. reflexivity.
  - intros db now stop route st et limit sd h m sec h' m' sec' resp W
      Hh Hm Hs Hh' Hm' Hs' Hlt R.
    unfold get_scheduled_arrivals in R. rewrite W in R. cbn [bind] in R.
    destruct (find (fun r => String.eqb (stop_id r) stop) (stops db)) as [row|];
      [|discriminate R].
    destruct (get_active_service_ids db sd) as [|a l] eqn:A.
    + injection R as <-. split; reflexivity.
    + rewrite arrival_rows_text_inverted in R.
      * cbn [mapM bind] in R. injection R as <-. split; reflexivity.
      * rewrite format_hms_compare by lia. apply Z.compare_gt_iff. lia.
Qed.

Lemma arrivals_window_inverted_range_witness :
  (derive_end true (Some "05:00:00"%string) = "05:00:00"%string /\
   "29:00:00"%string = convert_to_extended_time "05:00:00" /\
   safe_gtfs_time_to_seconds "29:00:00" = Some (18000 + 86400)) /\
  (arrivals_window (mkdatetime (mkdate 739259) 10 0 0) None (Some "08:00:00"%string)
     = Ok (mkdate 739259, "10:00:00"%string, "08:00:00"%string, false) /\
   "08:00:00"%string = "08:00:00"%string) /\
  (exists resp,
     get_scheduled_arrivals
       (mktables [mkstop "S1" "Berri" None] [mkroute "R1" (Some "24"%string) 3]
          [mktrip "T1" "R1" "DAILY" None] [mkstoptime "T1" "15:00:00" "15:00:00" "S1" 1]
          [mkcal "DAILY" 1 1 1 1 1 1 1 "20240101" "20261231"] [])
       (mkdatetime (mkdate 739259) 10 0 0) "S1" None
       (Some "14:00:00"%string) (Some "08:00:00"%string) 20 = Ok resp /\
     ar_arrivals resp = [] /\ ar_count resp = 0).
Proof.
  destruct arrivals_window_inverted_range as [P1 [P2 P3]].
  split; [|split].
  - split; [reflexivity|].
    apply (P1 (mkdatetime (mkdate 739259) 1 6 0) None (Some "05:00:00"%string)
             (mkdate 739258) "25:06:00"%string "29:00:00"%string 90360 18000);
      vm_compute; reflexivity.
  - split; [vm_compute; reflexivity|].
    apply (P2 (mkdatetime (mkdate 739259) 10 0 0) None "08:00:00"%string (mkdate 739259) "10:00:00"%string).
    vm_compute. reflexivity.
  - eexists. split; [reflexivity|].
    apply (P3 (mktables [mkstop "S1" "Berri" None] [mkroute "R1" (Some "24"%string) 3]
                 [mktrip "T1" "R1" "DAILY" None] [mkstoptime "T1" "15:00:00" "15:00:00" "S1" 1]
                 [mkcal "DAILY" 1 1 1 1 1 1 1 "20240101" "20261231"] [])
             (mkdatetime (mkdate 739259) 10 0 0) "S1"%string None
             (Some "14:00:00"%string) (Some "08:00:00"%string) 20
             (mkdate 739259) 14 0 0 8 0 0); try lia; reflexivity.
Defined.

(** C10. At a real date (not 0001-01-01, whose previous day does not exist),
    [get_scheduled_arrivals] raises [ValueError("Stop not found: ...")]
    for a stop id absent from [stops], while a known stop whose service
    date has no active service gets a normal response with no arrivals and
    [count = 0]. *)
Theorem get_scheduled_arrivals_unknown_stop_raises (db : gtfs_tables) (now : datetime)
  (stop : string) (route : option string) (st et : option string) (limit : Z) :
  1 < toordinal (dt_date now) <= MAXORDINAL ->
  ((forall r, In r (stops db) -> stop_id r <> stop) ->
   get_scheduled_arrivals db now stop route st et limit
     = Err (ValueError ("Stop not found: " ++ stop)%string)) /\
  ((exists r, In r (stops db) /\ stop_id r = stop) ->
   (forall sd s e b, arrivals_window now st et = Ok (sd, s, e, b) ->
      get_active_service_ids db sd = []) ->
   exists resp, get_scheduled_arrivals db now stop route st et limit = Ok resp /\
     ar_arrivals resp = [] /\ ar_count resp = 0).
Proof.
  intros H. destruct (arrivals_window_ok now st et H) as (sd & s & e & b & W).
  unfold get_scheduled_arrivals. rewrite W. cbn [bind]. split.
  - intros N. rewrite find_stop_none by exact N. reflexivity.
  - intros [r [Hr Hs]] A.
    destruct (find (fun r => String.eqb (stop_id r) stop) (stops db)) as [row|] eqn:F.
    + rewrite (A sd s e b eq_refl). eexists. split; [reflexivity|]. split; reflexivity.
    + exfalso. apply (find_none _ _ F r) in Hr. rewrite Hs, String.eqb_refl in Hr.
      discriminate Hr.
Qed.

Lemma get_scheduled_arrivals_unknown_stop_raises_witness :
  let db := mktables [mkstop "S1" "Berri" None] [] [] [] [] [] in
  let now := mkdatetime (mkdate 739259) 10 0 0 in
  get_scheduled_arrivals db now "S2" None None None 20
    = Err (ValueError "Stop not found: S2") /\
  exists resp, get_scheduled_arrivals db now "S1" None None None 20 = Ok resp /\
    ar_arrivals resp = [] /\ ar_count resp = 0.
Proof.
  intros db now.
  assert (Hn : 1 < toordinal (dt_date now) <= MAXORDINAL)
    by (unfold MAXORDINAL; simpl; lia).
  destruct (get_scheduled_arrivals_unknown_stop_raises db now "S2" None None None 20 Hn)
    as [P1 _].
  destruct (get_scheduled_arrivals_unknown_stop_raises db now "S1" None None None 20 Hn)
    as [_ P2].
  split.
  - apply P1. intros r [<-|[]]. simpl. discriminate.
  - apply P2.
    + exists (mkstop "S1" "Berri" None). split; [left; reflexivity | reflexivity].
    + intros. reflexivity.
Defined.

(** ** Transfer points (C1) *)

Lemma bind_Ok {A B : Type} (m : result A) (k : A -> result B) (b : B) :
  bind m k = Ok b -> exists a, m = Ok a /\ k a = Ok b.
Proof. destruct m as [a|e]; simpl; [eauto | discriminate]. Qed.

Ltac bind_inv H :=
  let a := fresh "a" in let E := fresh "E" in
  apply bind_Ok in H as [a [E H]].

Lemma concat_mapM_Forall {A B : Type} (P : B -> Prop) (f : A -> result (list B))
  (l : list A) (zs : list B) :
  (forall x ys, In x l -> f x = Ok ys -> Forall P ys) ->
  concat_mapM f l = Ok zs -> Forall P zs.
Proof.
  revert zs. induction l as [|x l IH]; simpl; intros zs Hf H.
  - injection H as <-. constructor.
  - bind_inv H. bind_inv H. injection H as <-. apply Forall_app. split.
    + exact (Hf x a (or_introl eq_refl) E).
    + apply (IH a0); [|exact E0]. intros y ys Hy. exact (Hf y ys (or_intror Hy)).
Qed.

Lemma foldM_inv {A S : Type} (I : S -> Prop) (f : S -> A -> result S) (l : list A) (s s' : S) :
  (forall s x s', In x l -> I s -> f s x = Ok s' -> I s') ->
  I s -> foldM f l s = Ok s' -> I s'.
Proof.
  revert s. induction l as [|x l IH]; simpl; intros s Hf Hs H.
  - injection H as <-. exact Hs.
  - bind_inv H. apply (IH a); [|exact (Hf s x a (or_introl eq_refl) Hs E)|exact H].
    intros t y t' Hy. exact (Hf t y t' (or_intror Hy)).
Qed.

Section TransferPointProofs.
Context `{FloatOps}.

Lemma transfers_from_valid (out_seg : OutboundSegment) (in_segs : list InboundSegment)
  (k : Z) (wm : float) (l : list TransferPoint) :
  (k = 0 \/ k = 2 \/
   (float_gt_int wm MAX_WALKING_DISTANCE_METERS = false /\ k = int_div_float wm 80 + 1)) ->
  transfers_from out_seg in_segs k wm = Ok l -> Forall valid_transfer l.
Proof.
  intros Hk T. unfold transfers_from in T. bind_inv T.
  refine (concat_mapM_Forall _ _ _ _ (fun in_seg ys _ Y => _) T).
  cbv beta in Y. unfold try_transfer in Y.
  destruct (String.eqb_spec (out_route_id out_seg) (in_route_id in_seg)) as [_|Hne].
  - injection Y as <-. constructor.
  - bind_inv Y.
    destruct ((MIN_TRANSFER_TIME_MINUTES <=? (a0 - (a + k * 60)) / 60)
              && ((a0 - (a + k * 60)) / 60 <=? MAX_TRANSFER_TIME_MINUTES)) eqn:W;
      injection Y as <-; constructor; [|constructor].
    apply andb_prop in W as [W1 W2]. apply Z.leb_le in W1, W2.
    unfold valid_transfer; cbn [outbound inbound wait_minutes walk_minutes walk_meters].
    split; [exact Hne|]. split; [lia|]. split; [|exact Hk].
    exists a, a0. split; [exact E|]. split; [exact E0|].
    replace (a0 - (a + k * 60)) with (a0 - a + (- k) * 60) by ring.
    rewrite Z.div_add by lia. ring.
Qed.

(** C1. Every transfer point found by [_find_transfer_points] (same stop,
    same station or walking distance) pairs two different routes, and its
    wait, the whole minutes from the outbound arrival to the inbound
    departure less the walk minutes of its strategy (0, 2, or
    [int(d / 80) + 1] for a distance [d] of at most 400 m), is between 3 and
    30 minutes, for every set iteration order. *)
Theorem find_transfer_points_valid (iter : list string -> list string)
  (locs : list stop_location_row) (outs : list OutboundSegment) (ins : list InboundSegment)
  (tps : list TransferPoint) :
  find_transfer_points iter locs outs ins = Ok tps -> Forall valid_transfer tps.
Proof.
  intros Hf. unfold find_transfer_points in Hf. cbv zeta in Hf.
  bind_inv Hf. bind_inv Hf. bind_inv Hf. destruct a1 as [[tps2 mo] mi].
  bind_inv Hf. injection Hf as <-.
  apply Forall_app. split; [|apply Forall_app; split].
  - (* same stop *)
    refine (concat_mapM_Forall _ _ _ _ (fun out_seg ys _ Y => _) E). cbv beta in Y.
    destruct (negb _); [injection Y as <-; constructor|].
    exact (transfers_from_valid _ _ _ _ _ (or_introl eq_refl) Y).
  - (* same station *)
    refine (foldM_inv (fun st => Forall valid_transfer (fst (fst st))) _ _ ([], [], []) _
              (fun st in_stop_id st' _ Hst Y => _) (Forall_nil _) E1). cbv beta in Y.
    destruct st as [[tps mo'] mi']. cbn [fst] in Hst |- *.
    destruct (mem in_stop_id _); [injection Y as <-; exact Hst|].
    apply bind_Ok in Y as [loc [El Y]]. destruct (loc_parent loc) as [parent|]; [|injection Y as <-; exact Hst].
    destruct (assoc_get a0 parent) as [out_stop_ids|]; [|injection Y as <-; exact Hst].
    refine (foldM_inv (fun st => Forall valid_transfer (fst (fst st))) _ _ (tps, mo', mi') _
              (fun st out_stop_id st' _ Hst' Y' => _) Hst Y). cbv beta in Y'.
    refine (foldM_inv (fun st => Forall valid_transfer (fst (fst st))) _ _ st _
              (fun st out_seg st'' _ Hst'' Y'' => _) Hst' Y'). cbv beta in Y''.
    destruct st as [[tps' mo''] mi'']. cbn [fst] in Hst'' |- *.
    destruct (negb _); [injection Y'' as <-; exact Hst''|].
    apply bind_Ok in Y'' as [found [Ef Y'']]. destruct found as [|tp found].
    + injection Y'' as <-. exact Hst''.
    + injection Y'' as <-. cbn [fst]. apply Forall_app. split; [exact Hst''|].
      exact (transfers_from_valid _ _ _ _ _ (or_intror (or_introl eq_refl)) Ef).
  - (* walking distance *)
    refine (concat_mapM_Forall _ _ _ _ (fun out_stop_id ys _ Y => _) E2). cbv beta in Y.
    apply bind_Ok in Y as [ol [Eo Y]]. destruct ol as [ol|]; [|injection Y as <-; constructor].
    refine (concat_mapM_Forall _ _ _ _ (fun in_stop_id ys' _ Y' => _) Y). cbv beta in Y'.
    apply bind_Ok in Y' as [il [Ei Y']]. destruct il as [il|]; [|injection Y' as <-; constructor].
    destruct (float_gt_int _ _) eqn:G; [injection Y' as <-; constructor|].
    refine (concat_mapM_Forall _ _ _ _ (fun out_seg ys'' _ Y'' => _) Y'). cbv beta in Y''.
    destruct (negb _); [injection Y'' as <-; constructor|].
    exact (transfers_from_valid _ _ _ _ _ (or_intror (or_intror (conj G eq_refl))) Y'').
Qed.

End TransferPointProofs.

Lemma find_transfer_points_valid_witness :
  let outs := [mkOutboundSegment "T1" "A" None 3 None "07:50:00" 1 "X" "08:00:00" 4;
               mkOutboundSegment "T1" "A" None 3 None "07:50:00" 1 "P1" "08:00:00" 4;
               mkOutboundSegment "T1" "A" None 3 None "07:50:00" 1 "Q1" "08:00:00" 4] in
  let ins := [mkInboundSegment "T2" "B" None 3 None "X" "08:05:00" 2 "08:30:00" 9;
              mkInboundSegment "T3" "C" None 1 None "P2" "08:10:00" 2 "08:30:00" 9;
              mkInboundSegment "T4" "D" None 3 None "Q2" "08:15:00" 2 "08:40:00" 9] in
  let locs := [mkStopLocationRow "P1" (Some 5000) (Some 5000) (Some "STN"%string);
               mkStopLocationRow "P2" (Some 5000) (Some 5000) (Some "STN"%string);
               mkStopLocationRow "Q1" (Some 0) (Some 0) None;
               mkStopLocationRow "Q2" (Some 100) (Some 60) None] in
  exists tps, find_transfer_points (fun l => l) locs outs ins = Ok tps /\
    map wait_minutes tps = [5; 8; 12] /\ map walk_minutes tps = [0; 2; 3] /\
    Forall valid_transfer tps.
Proof.
  intros outs ins locs. eexists. split; [vm_compute; reflexivity|].
  split; [vm_compute; reflexivity|]. split; [vm_compute; reflexivity|].
  apply (find_transfer_points_valid (fun l => l) locs outs ins). vm_compute. reflexivity.
Defined.

(** ** Sorting *)

Lemma insert_by_perm {A : Type} (le : A -> A -> bool) (x : A) (l : list A) :
  Permutation (x :: l) (insert_by le x l).
Proof.
  induction l as [|y l IH]; simpl; [reflexivity|].
  destruct (le y x); [|reflexivity].
  etransitivity; [apply perm_swap|]. apply perm_skip. exact IH.
Qed.

Lemma sort_by_perm_acc {A : Type} (le : A -> A -> bool) (l acc : list A) :
  Permutation (l ++ acc) (fold_left (fun acc x => insert_by le x acc) l acc).
Proof.
  revert acc. induction l as [|x l IH]; intros acc; simpl; [reflexivity|].
  etransitivity; [|apply IH].
  etransitivity; [apply Permutation_middle|].
  apply Permutation_app_head. apply insert_by_perm.
Qed.

Lemma sort_by_perm {A : Type} (le : A -> A -> bool) (l : list A) :
  Permutation l (sort_by le l).
Proof. unfold sort_by. rewrite <- (app_nil_r l) at 1. apply sort_by_perm_acc. Qed.

Section SortByKey.
Context {A : Type} (key : A -> Z).

Let R (a b : A) : Prop := key a <= key b.
Let leb_key (a b : A) : bool := key a <=? key b.

Lemma insert_by_sorted (x : A) (l : list A) :
  Sorted R l -> Sorted R (insert_by leb_key x l).
Proof.
  induction l as [|y l IH]; simpl; intros S.
  - constructor; constructor.
  - unfold leb_key at 1. destruct (Z.leb_spec (key y) (key x)) as [Hyx|Hxy].
    + apply Sorted_inv in S as [S Hd]. constructor; [exact (IH S)|].
      destruct l as [|z l]; simpl.
      * constructor. exact Hyx.
      * unfold leb_key. destruct (key z <=? key x); constructor;
          [inversion Hd; assumption | exact Hyx].
    + constructor; [exact S|]. constructor. unfold R. lia.
Qed.

Lemma sort_by_sorted (l : list A) : Sorted R (sort_by leb_key l).
Proof.
  unfold sort_by. assert (Sorted R []) as S0 by constructor. revert S0.
  generalize (@nil A). induction l as [|x l IH]; intros acc S; simpl; [exact S|].
  apply IH. apply insert_by_sorted. exact S.
Qed.

Lemma firstn_sorted (n : nat) (l : list A) : Sorted R l -> Sorted R (firstn n l).
Proof.
  revert n. induction l as [|x l IH]; intros n S; destruct n as [|n]; simpl;
    [constructor | constructor | constructor |].
  apply Sorted_inv in S as [S Hd]. apply Sorted_cons; [exact (IH n S)|].
  destruct n as [|n]; destruct l as [|y l]; simpl; try constructor.
  inversion Hd. assumption.
Qed.

End SortByKey.

(** ** Trip planning (C5, C7, C8) *)

(** The steps of [plan_trip], with the monad unfolded. *)
Lemma plan_trip_steps (env : planner_env) (now : datetime) (o d : string)
  (dep : option string) (limit : Z) :
  let dep' := match dep with Some t => t | None => time_to_gtfs_format now end in
  plan_trip env now o d dep limit =
  match resolve_stop_for_planning (stop_candidates env) o with
  | Err e => ([], Err e)
  | Ok orr =>
      match resolve_stop_for_planning (stop_candidates env) d with
      | Err e => ([], Err e)
      | Ok dr =>
          if negb (resolved orr) || negb (resolved dr) then
            ([], Ok (mkPlanTripResponse orr dr [] (dt_date now) (dt_date now) dep' 0 false
                       (Some "Could not resolve origin or destination stop"%string)))
          else
            let c1 := mkFinderCall DirectFinder (resolved_stop_id orr) (resolved_stop_id dr)
                        dep' (dt_date now) limit in
            let c2 := mkFinderCall TransferFinder (resolved_stop_id orr) (resolved_stop_id dr)
                        dep' (dt_date now) limit in
            match find_itineraries env c1 with
            | Err e => ([c1], Err e)
            | Ok ds =>
                match find_itineraries env c2 with
                | Err e => ([c1; c2], Err e)
                | Ok ts =>
                    let its := py_slice_to limit
                      (sort_by (fun a b => total_duration_minutes a <=? total_duration_minutes b)
                         (ds ++ ts)) in
                    ([c1; c2], Ok (mkPlanTripResponse orr dr its (dt_date now) (dt_date now) dep'
                                     (Z.of_nat (length its)) (0 <? Z.of_nat (length its))
                                     (match its with
                                      | [] => Some "No routes found"%string
                                      | _ => None
                                      end)))
                end
            end
      end
  end.
Proof.
  intros dep'. unfold plan_trip, tbind, tlift, tret, call_finder.
  destruct (resolve_stop_for_planning (stop_candidates env) o) as [orr|e]; [|reflexivity].
  destruct (resolve_stop_for_planning (stop_candidates env) d) as [dr|e]; [|reflexivity].
  destruct (negb (resolved orr) || negb (resolved dr)); [reflexivity|].
  destruct (find_itineraries env _) as [ds|e]; [|reflexivity].
  destruct (find_itineraries env _) as [ts|e]; reflexivity.
Qed.

Lemma resolve_stop_best (cands : string -> result (list StopMatch)) (q : string) (l : Z)
  (r : StopResolutionResponse) :
  resolve_stop cands q l = Ok r ->
  srr_resolved r = match best_match r with
                   | Some m => match confidence m with EXACT | HIGH => true | _ => false end
                   | None => false
                   end.
Proof.
  unfold resolve_stop. destruct (String.eqb _ _).
  - intros E. injection E as <-. reflexivity.
  - intros E. apply bind_Ok in E as [ms [_ E]]. injection E as <-. reflexivity.
Qed.

(** C5. [plan_trip] passes today's calendar date ([now.date()]) as the
    service date to both finders, at every hour of the day (no late-night
    shift to the previous service day), and the departure time it passes
    and reports is the one given or else [now] as [HH:MM:SS]. *)
Theorem plan_trip_service_date_today (env : planner_env) (now : datetime) (o d : string)
  (dep : option string) (limit : Z) :
  let dep' := match dep with Some t => t | None => time_to_gtfs_format now end in
  (forall c, In c (fst (plan_trip env now o d dep limit)) ->
     fc_service_date c = dt_date now /\ fc_departure_time c = dep') /\
  (forall resp, snd (plan_trip env now o d dep limit) = Ok resp ->
     pt_service_date resp = dt_date now /\ query_time resp = dep') /\
  (forall orr dr ds,
     resolve_stop_for_planning (stop_candidates env) o = Ok orr ->
     resolve_stop_for_planning (stop_candidates env) d = Ok dr ->
     resolved orr = true -> resolved dr = true ->
     find_itineraries env (mkFinderCall DirectFinder (resolved_stop_id orr)
                             (resolved_stop_id dr) dep' (dt_date now) limit) = Ok ds ->
     fst (plan_trip env now o d dep limit) =
       [mkFinderCall DirectFinder (resolved_stop_id orr) (resolved_stop_id dr)
          dep' (dt_date now) limit;
        mkFinderCall TransferFinder (resolved_stop_id orr) (resolved_stop_id dr)
          dep' (dt_date now) limit]).
Proof.
  intros dep'. rewrite (plan_trip_steps env now o d dep limit). fold dep'.
  split; [|split].
  - intros c.
    destruct (resolve_stop_for_planning _ o) as [orr|e]; [|simpl; tauto].
    destruct (resolve_stop_for_planning _ d) as [dr|e]; [|simpl; tauto].
    destruct (negb (resolved orr) || negb (resolved dr)); [simpl; tauto|].
    cbv zeta.
    destruct (find_itineraries env _) as [ds|e];
      [destruct (find_itineraries env _) as [ts|e]|]; cbn [fst In];
      intros Hc; repeat (destruct Hc as [<-|Hc]; [split; reflexivity|]); destruct Hc.
  - intros resp.
    destruct (resolve_stop_for_planning _ o) as [orr|e]; [|discriminate].
    destruct (resolve_stop_for_planning _ d) as [dr|e]; [|discriminate].
    destruct (negb (resolved orr) || negb (resolved dr));
      [intros R; injection R as <-; split; reflexivity|].
    cbv zeta.
    destruct (find_itineraries env _) as [ds|e]; [|discriminate].
    destruct (find_itineraries env _) as [ts|e]; [|discriminate].
    intros R; injection R as <-; split; reflexivity.
  - intros orr dr ds Ho Hd Ro Rd Hds. rewrite Ho, Hd, Ro, Rd. cbn [negb orb]. cbv zeta.
    rewrite Hds.
    destruct (find_itineraries env (mkFinderCall TransferFinder (resolved_stop_id orr)
                (resolved_stop_id dr) dep' (dt_date now) limit)); reflexivity.
Qed.

Lemma plan_trip_service_date_today_witness :
  let env := mkPlannerEnv (fun q => Ok [mkStopMatch q q EXACT])
               (fun c => Ok [mkItinerary "01:40:00" "02:00:00" 20 0]) in
  let now := mkdatetime (mkdate 739259) 1 30 0 in
  fst (plan_trip env now "51001" "51002" None 3) =
    [mkFinderCall DirectFinder (Some "51001"%string) (Some "51002"%string)
       "01:30:00" (mkdate 739259) 3;
     mkFinderCall TransferFinder (Some "51001"%string) (Some "51002"%string)
       "01:30:00" (mkdate 739259) 3].
Proof.
  intros env now.
  destruct (plan_trip_service_date_today env now "51001" "51002" None 3) as [_ [_ P]].
  apply (P (mkStopResolutionInfo "51001" (Some "51001"%string) (Some "51001"%string)
              (Some "exact"%string) true None)
           (mkStopResolutionInfo "51002" (Some "51002"%string) (Some "51002"%string)
              (Some "exact"%string) true None)
           [mkItinerary "01:40:00" "02:00:00" 20 0]); vm_compute; reflexivity.
Defined.

(** C7. Once both stops are resolved and both finders return, [plan_trip]
    returns the first [limit] itineraries of the stable sort by
    [total_duration_minutes] of the direct ones followed by the transfer
    ones: non-decreasing in duration, a sub-multiset of them of length
    [min limit n]; [success] holds exactly when the list is non-empty and
    the error is ["No routes found"] exactly when it is empty. [limit] is
    a non-negative count (the tool passes 1..5). *)
Theorem plan_trip_sorted_truncated (env : planner_env) (now : datetime) (o d : string)
  (dep : option string) (limit : Z) (orr dr : StopResolutionInfo) (ds ts : list Itinerary) :
  let dep' := match dep with Some t => t | None => time_to_gtfs_format now end in
  0 <= limit ->
  resolve_stop_for_planning (stop_candidates env) o = Ok orr ->
  resolve_stop_for_planning (stop_candidates env) d = Ok dr ->
  resolved orr = true -> resolved dr = true ->
  find_itineraries env (mkFinderCall DirectFinder (resolved_stop_id orr)
                          (resolved_stop_id dr) dep' (dt_date now) limit) = Ok ds ->
  find_itineraries env (mkFinderCall TransferFinder (resolved_stop_id orr)
                          (resolved_stop_id dr) dep' (dt_date now) limit) = Ok ts ->
  exists resp, snd (plan_trip env now o d dep limit) = Ok resp /\
    itineraries resp =
      firstn (Z.to_nat limit)
        (sort_by (fun a b => total_duration_minutes a <=? total_duration_minutes b) (ds ++ ts)) /\
    Sorted (fun a b => total_duration_minutes a <= total_duration_minutes b)
      (itineraries resp) /\
    (exists rest, Permutation (ds ++ ts) (itineraries resp ++ rest)) /\
    length (itineraries resp) = Nat.min (Z.to_nat limit) (length (ds ++ ts)) /\
    (success resp = true <-> itineraries resp <> []) /\
    (itineraries resp = [] -> pt_error resp = Some "No routes found"%string) /\
    (itineraries resp <> [] -> pt_error resp = None) /\
    pt_count resp = Z.of_nat (length (itineraries resp)).
Proof.
  intros dep' Hl Ho Hd Ro Rd Hds Hts.
  rewrite (plan_trip_steps env now o d dep limit). fold dep'.
  rewrite Ho, Hd, Ro, Rd. cbn [negb orb]. cbv zeta. rewrite Hds, Hts. cbn [snd].
  eexists. split; [reflexivity|]. cbn [itineraries success pt_error pt_count].
  unfold py_slice_to. replace (limit <? 0) with false by lia.
  set (srt := sort_by _ (ds ++ ts)).
  assert (P : Permutation (ds ++ ts) srt) by apply sort_by_perm.
  split; [reflexivity|]. split.
  { apply firstn_sorted. apply sort_by_sorted. }
  split.
  { exists (skipn (Z.to_nat limit) srt). rewrite firstn_skipn. exact P. }
  split.
  { rewrite length_firstn. rewrite (Permutation_length P). reflexivity. }
  destruct (firstn (Z.to_nat limit) srt) as [|x l] eqn:F; cbn [length].
  - split; [split; [intros H; discriminate H | intros H; contradiction H; reflexivity]|].
    split; [intros _; reflexivity|].
    split; [intros H; contradiction H; reflexivity | reflexivity].
  - split; [split; [intros _; discriminate | intros _; apply Z.ltb_lt; lia]|].
    split; [intros H; discriminate H|]. split; [intros _; reflexivity | reflexivity].
Qed.

Lemma plan_trip_sorted_truncated_witness :
  let env := mkPlannerEnv (fun q => Ok [mkStopMatch q q EXACT])
               (fun c => match fc_finder c with
                         | DirectFinder => Ok [mkItinerary "08:00:00" "08:40:00" 40 0;
                                               mkItinerary "08:10:00" "08:35:00" 25 0]
                         | TransferFinder => Ok [mkItinerary "08:05:00" "08:35:00" 30 1]
                         end) in
  let now := mkdatetime (mkdate 739259) 7 55 0 in
  exists resp, snd (plan_trip env now "51001" "51002" None 2) = Ok resp /\
    map total_duration_minutes (itineraries resp) = [25; 30] /\ success resp = true.
Proof.
  intros env now.
  destruct (plan_trip_sorted_truncated env now "51001" "51002" None 2
              (mkStopResolutionInfo "51001" (Some "51001"%string) (Some "51001"%string)
                 (Some "exact"%string) true None)
              (mkStopResolutionInfo "51002" (Some "51002"%string) (Some "51002"%string)
                 (Some "exact"%string) true None)
              [mkItinerary "08:00:00" "08:40:00" 40 0; mkItinerary "08:10:00" "08:35:00" 25 0]
              [mkItinerary "08:05:00" "08:35:00" 30 1])
    as (resp & E & Hi & _ & _ & _ & [_ Hs] & _);
    try (vm_compute; reflexivity); try lia.
  exists resp. split; [exact E|]. rewrite Hi. split; [vm_compute; reflexivity|].
  apply Hs. rewrite Hi. vm_compute. discriminate.
Defined.

(** C8 (counterexample). A best match of medium confidence is not an error
    for [_resolve_stop_for_planning]: [resolved] is false and [error] is
    [None]; [plan_trip] then returns without calling a finder. *)
Lemma resolve_stop_for_planning_medium_match :
  let cands := fun (_ : string) => Ok [mkStopMatch "51001" "Berri-UQAM" MEDIUM] in
  resolve_stop_for_planning cands "berri" =
    Ok (mkStopResolutionInfo "berri" (Some "51001"%string) (Some "Berri-UQAM"%string)
          (Some "medium"%string) false None) /\
  plan_trip (mkPlannerEnv cands (fun _ => Ok [])) (mkdatetime (mkdate 739259) 9 0 0)
    "berri" "berri" None 3 =
    ([], Ok (mkPlanTripResponse
               (mkStopResolutionInfo "berri" (Some "51001"%string) (Some "Berri-UQAM"%string)
                  (Some "medium"%string) false None)
               (mkStopResolutionInfo "berri" (Some "51001"%string) (Some "Berri-UQAM"%string)
                  (Some "medium"%string) false None)
               [] (mkdate 739259) (mkdate 739259) "09:00:00" 0 false
               (Some "Could not resolve origin or destination stop"%string))).
Proof. vm_compute. split; reflexivity. Qed.

(** C8. [_resolve_stop_for_planning] only lets a non-[Exception] through; it
    reports an exception of the resolver as [resolved = false] with
    [error = str(e)], no match as [resolved = false] with
    ["No matching stop found"], and a best match with that stop, its
    confidence, [resolved] true exactly for EXACT or HIGH confidence and no
    error. If either side is unresolved, [plan_trip] returns at once with
    [success = false], no itinerary, [count = 0] and
    ["Could not resolve origin or destination stop"], calling no finder. *)
Theorem plan_trip_unresolved_early_return (env : planner_env) (now : datetime)
  (o d : string) (dep : option string) (limit : Z) :
  let cands := stop_candidates env in
  let dep' := match dep with Some t => t | None => time_to_gtfs_format now end in
  (forall q e, resolve_stop cands q 1 = Err e -> is_exception e = true ->
     resolve_stop_for_planning cands q =
       Ok (mkStopResolutionInfo q None None None false (Some (py_exc_str e)))) /\
  (forall q r, resolve_stop cands q 1 = Ok r -> best_match r = None ->
     resolve_stop_for_planning cands q =
       Ok (mkStopResolutionInfo q None None None false
             (Some "No matching stop found"%string))) /\
  (forall q r m, resolve_stop cands q 1 = Ok r -> best_match r = Some m ->
     resolve_stop_for_planning cands q =
       Ok (mkStopResolutionInfo q (Some (sm_stop_id m)) (Some (sm_stop_name m))
             (Some (confidence_value (confidence m)))
             (match confidence m with EXACT | HIGH => true | _ => false end) None)) /\
  (forall q e, resolve_stop_for_planning cands q = Err e -> is_exception e = false) /\
  (forall orr dr,
     resolve_stop_for_planning cands o = Ok orr ->
     resolve_stop_for_planning cands d = Ok dr ->
     resolved orr = false \/ resolved dr = false ->
     plan_trip env now o d dep limit =
       ([], Ok (mkPlanTripResponse orr dr [] (dt_date now) (dt_date now) dep' 0 false
                  (Some "Could not resolve origin or destination stop"%string)))).
Proof.
  intros cands dep'. split; [|split; [|split; [|split]]].
  - intros q e E X. unfold resolve_stop_for_planning. rewrite E, X. reflexivity.
  - intros q r E B. unfold resolve_stop_for_planning. rewrite E, B. reflexivity.
  - intros q r m E B. pose proof (resolve_stop_best _ _ _ _ E) as Rr. rewrite B in Rr.
    unfold resolve_stop_for_planning. rewrite E, B, Rr. reflexivity.
  - intros q e. unfold resolve_stop_for_planning.
    destruct (resolve_stop cands q 1) as [r|e'].
    + destruct (best_match r); discriminate.
    + destruct (is_exception e') eqn:X; [discriminate|].
      intros E. injection E as <-. exact X.
  - intros orr dr Ho Hd U. rewrite (plan_trip_steps env now o d dep limit). fold dep'.
    fold cands. rewrite Ho, Hd.
    replace (negb (resolved orr) || negb (resolved dr)) with true
      by (destruct U as [U|U]; rewrite U; [reflexivity | cbn [negb]; rewrite orb_true_r; reflexivity]).
    reflexivity.
Qed.

Lemma plan_trip_unresolved_early_return_witness :
  let env := mkPlannerEnv
               (fun q => if String.eqb q "nowhere" then Ok []
                         else Ok [mkStopMatch q q EXACT]) (fun _ => Ok []) in
  let now := mkdatetime (mkdate 739259) 9 0 0 in
  resolve_stop_for_planning (stop_candidates env) "nowhere" =
    Ok (mkStopResolutionInfo "nowhere" None None None false
          (Some "No matching stop found"%string)) /\
  plan_trip env now "51001" "nowhere" None 3 =
    ([], Ok (mkPlanTripResponse
               (mkStopResolutionInfo "51001" (Some "51001"%string) (Some "51001"%string)
                  (Some "exact"%string) true None)
               (mkStopResolutionInfo "nowhere" None None None false
                  (Some "No matching stop found"%string))
               [] (mkdate 739259) (mkdate 739259) "09:00:00" 0 false
               (Some "Could not resolve origin or destination stop"%string))).
Proof.
  intros env now.
  destruct (plan_trip_unresolved_early_return env now "51001" "nowhere" None 3)
    as [_ [P2 [_ [_ P5]]]].
  split.
  - apply (P2 "nowhere"%string (mkStopResolutionResponse "nowhere"%string [] None false));
      vm_compute; reflexivity.
  - apply P5; [vm_compute; reflexivity | vm_compute; reflexivity | right; reflexivity].
Defined.

(** * Further properties of the code *)

Lemma string_app_assoc (a b c : string) : ((a ++ b) ++ c)%string = (a ++ (b ++ c))%string.
Proof. induction a as [|x a IH]; simpl; [reflexivity | now rewrite IH]. Qed.

Lemma safe_parse_Ok (t : string) (h m s : Z) :
  safe_parse_gtfs_time t = Some (h, m, s) -> parse_gtfs_time t = Ok (h, m, s).
Proof.
  unfold safe_parse_gtfs_time. destruct (parse_gtfs_time t); [|discriminate].
  intros E. injection E as ->. reflexivity.
Qed.

Lemma floor_60_of_3600 (s : Z) :
  (s / 3600) * 3600 + ((s mod 3600) / 60) * 60 = s - s mod 60.
Proof.
  pose proof (Z.div_mod s 3600 ltac:(lia)). pose proof (Z.mod_pos_bound s 3600 ltac:(lia)).
  set (r := s mod 3600) in *. set (q := s / 3600) in *.
  pose proof (Z.div_mod r 60 ltac:(lia)). pose proof (Z.mod_pos_bound r 60 ltac:(lia)).
  assert (s mod 60 = r mod 60) as ->.
  { symmetry. apply (Z.mod_unique s 60 (60 * q + r / 60)); lia. }
  lia.
Qed.

Lemma hhmm00_format_hms (secs : Z) :
  hhmm00 secs = format_hms (secs / 3600) ((secs mod 3600) / 60) 0.
Proof. reflexivity. Qed.

(** The 12-hour display of an hour [0..23]. *)
Lemma clock_cases (h : Z) : 0 <= h < 24 ->
  (h = 0 /\ h mod 12 = 0 /\ h mod 24 = 0) \/
  (h = 12 /\ h mod 12 = 0 /\ h mod 24 = 12) \/
  (12 < h /\ h mod 12 = h - 12 /\ h mod 24 = h) \/
  (0 < h < 12 /\ h mod 12 = h /\ h mod 24 = h).
Proof.
  intros Hh.
  destruct (Z.eq_dec h 0) as [->|H0]; [left; auto|].
  destruct (Z.eq_dec h 12) as [->|H12]; [right; left; auto|].
  right; right. rewrite (Z.mod_small h 24) by lia.
  destruct (Z.ltb_spec 12 h).
  - left. split; [lia|]. split; [|reflexivity].
    symmetry. apply (Z.mod_unique h 12 1); lia.
  - right. split; [lia|]. split; [apply Z.mod_small; lia | reflexivity].
Qed.

Lemma format_gtfs_time_hms (t : string) (h m s : Z) :
  safe_parse_gtfs_time t = Some (h, m, s) -> 0 <= h < 48 ->
  format_gtfs_time t =
    Ok (py_str_int (if (h mod 12 =? 0)%Z then 12%Z else (h mod 12)%Z) ++ ":"
        ++ format02 m ++ " " ++ (if (h mod 24 <? 12)%Z then "AM" else "PM")
        ++ (if (24 <=? h)%Z then " (+1)" else ""))%string.
Proof.
  intros P Hh. unfold format_gtfs_time. rewrite (safe_parse_Ok _ _ _ _ P). cbn [bind].
  destruct (Z.leb_spec 24 h) as [Hx|Hx].
  - assert (h mod 12 = (h - 24) mod 12) as ->.
    { rewrite <- (Z.mod_add (h - 24) 2 12) by lia. f_equal. lia. }
    assert (h mod 24 = h - 24) as ->.
    { symmetry. apply (Z.mod_unique h 24 1); lia. }
    destruct (clock_cases (h - 24)) as [(E & E1 & E2)|[(E & E1 & E2)|[(E & E1 & E2)|(E & E1 & E2)]]];
      [lia| | | |]; rewrite E1; rewrite (Z.mod_small (h - 24) 24) in E2 by lia.
    + rewrite E. reflexivity.
    + rewrite E. reflexivity.
    + destruct (Z.eqb_spec (h - 24) 0); [lia|]. destruct (Z.eqb_spec (h - 24) 12); [lia|].
      destruct (Z.ltb_spec 12 (h - 24)); [|lia]. destruct (Z.eqb_spec (h - 24 - 12) 0); [lia|].
      destruct (Z.ltb_spec (h - 24) 12); [lia|]. reflexivity.
    + destruct (Z.eqb_spec (h - 24) 0); [lia|]. destruct (Z.eqb_spec (h - 24) 12); [lia|].
      destruct (Z.ltb_spec 12 (h - 24)); [lia|]. destruct (Z.eqb_spec (h - 24) 0); [lia|].
      destruct (Z.ltb_spec (h - 24) 12); [|lia]. reflexivity.
  - destruct (clock_cases h) as [(E & E1 & E2)|[(E & E1 & E2)|[(E & E1 & E2)|(E & E1 & E2)]]];
      [lia| | | |]; rewrite E1, E2.
    + subst h. reflexivity.
    + subst h. reflexivity.
    + destruct (Z.eqb_spec h 0); [lia|]. destruct (Z.eqb_spec h 12); [lia|].
      destruct (Z.ltb_spec 12 h); [|lia]. destruct (Z.eqb_spec (h - 12) 0); [lia|].
      destruct (Z.ltb_spec h 12); [lia|]. reflexivity.
    + destruct (Z.eqb_spec h 0); [lia|]. destruct (Z.eqb_spec h 12); [lia|].
      destruct (Z.ltb_spec 12 h); [lia|]. destruct (Z.eqb_spec h 0); [lia|].
      destruct (Z.ltb_spec h 12); [|lia]. reflexivity.
Qed.

(** [format_gtfs_time] on a time with hours in [0..47]: the 12-hour clock
    hour without padding ([12] for hours 0, 12, 24 and 36), the minutes on
    two digits, [AM] or [PM] from the hour of the day, and [" (+1)"] for an
    hour of 24 or more. *)
Theorem format_gtfs_time_clock (t : string) (h m s : Z) :
  safe_parse_gtfs_time t = Some (h, m, s) -> 0 <= h < 48 ->
  format_gtfs_time t =
    Ok (py_str_int (if (h mod 12 =? 0)%Z then 12%Z else (h mod 12)%Z) ++ ":"
        ++ format02 m ++ " " ++ (if (h mod 24 <? 12)%Z then "AM" else "PM")
        ++ (if (24 <=? h)%Z then " (+1)" else ""))%string.
Proof. apply format_gtfs_time_hms. Qed.

Lemma format_gtfs_time_clock_witness :
  safe_parse_gtfs_time "25:07:00" = Some (25, 7, 0) /\ (0 <= 25 < 48) /\
  format_gtfs_time "25:07:00" = Ok "1:07 AM (+1)"%string.
Proof.
  split; [reflexivity|]. split; [lia|].
  rewrite (format_gtfs_time_clock "25:07:00" 25 7 0 eq_refl ltac:(lia)). reflexivity.
Defined.

Lemma convert_to_extended_time_hms (t : string) (h m s : Z) :
  safe_parse_gtfs_time t = Some (h, m, s) -> h < 24 ->
  convert_to_extended_time t = format_hms (h + 24) m s.
Proof.
  intros P Hh. unfold convert_to_extended_time. rewrite P.
  destruct (Z.ltb_spec h 24); [reflexivity | lia].
Qed.

(** [convert_to_extended_time] moves a time with hours below 24 (negative
    hours included) to the next service day: 24 hours more, same minutes and
    seconds, 86400 seconds later; any other string, extended or unparsable,
    is returned unchanged. *)
Theorem convert_to_extended_time_shift (t : string) :
  match safe_parse_gtfs_time t with
  | Some (h, m, s) =>
      if h <? 24 then
        safe_parse_gtfs_time (convert_to_extended_time t) = Some (h + 24, m, s) /\
        safe_gtfs_time_to_seconds (convert_to_extended_time t) =
          Some (h * 3600 + m * 60 + s + 86400)
      else convert_to_extended_time t = t
  | None => convert_to_extended_time t = t
  end.
Proof.
  destruct (safe_parse_gtfs_time t) as [[[h m] s]|] eqn:P.
  - destruct (Z.ltb_spec h 24) as [Hh|Hh].
    + rewrite (convert_to_extended_time_hms t h m s P Hh).
      unfold safe_gtfs_time_to_seconds. rewrite safe_parse_format_hms.
      split; [reflexivity|]. f_equal. ring.
    + unfold convert_to_extended_time. rewrite P.
      destruct (Z.ltb_spec h 24); [lia | reflexivity].
  - unfold convert_to_extended_time. rewrite P. reflexivity.
Qed.

(** For a time of day with hours in [0..23], the display of its extended
    form is its own display followed by [" (+1)"]. *)
Theorem format_gtfs_time_convert_next_day (t : string) (h m s : Z) :
  safe_parse_gtfs_time t = Some (h, m, s) -> 0 <= h < 24 ->
  exists f, format_gtfs_time t = Ok f /\
    format_gtfs_time (convert_to_extended_time t) = Ok (f ++ " (+1)")%string.
Proof.
  intros P Hh. rewrite (convert_to_extended_time_hms t h m s P ltac:(lia)).
  rewrite (format_gtfs_time_hms t h m s P ltac:(lia)).
  rewrite (format_gtfs_time_hms _ (h + 24) m s (safe_parse_format_hms _ _ _) ltac:(lia)).
  eexists. split; [reflexivity|].
  assert ((h + 24) mod 12 = h mod 12) as ->.
  { replace (h + 24) with (h + 2 * 12) by ring. apply Z.mod_add. lia. }
  assert ((h + 24) mod 24 = h mod 24) as ->.
  { replace (h + 24) with (h + 1 * 24) by ring. apply Z.mod_add. lia. }
  destruct (Z.leb_spec 24 h); [lia|]. destruct (Z.leb_spec 24 (h + 24)); [|lia].
  f_equal. rewrite !string_app_assoc. reflexivity.
Qed.

Lemma format_gtfs_time_convert_next_day_witness :
  safe_parse_gtfs_time "02:10:00" = Some (2, 10, 0) /\ (0 <= 2 < 24) /\
  format_gtfs_time "02:10:00" = Ok "2:10 AM"%string /\
  format_gtfs_time (convert_to_extended_time "02:10:00") = Ok "2:10 AM (+1)"%string.
Proof.
  split; [reflexivity|]. split; [lia|].
  destruct (format_gtfs_time_convert_next_day "02:10:00" 2 10 0 eq_refl ltac:(lia))
    as [f [E1 E2]].
  rewrite E1, E2. vm_compute in E1. injection E1 as <-. split; reflexivity.
Defined.

(** [time_to_gtfs_format] of a valid datetime is its seconds since
    midnight as a GTFS time, never extended, and late night exactly when
    its hour is below 4. *)
Theorem time_to_gtfs_format_seconds (dt : datetime) :
  valid_datetime dt ->
  gtfs_time_to_seconds (time_to_gtfs_format dt) =
    Ok (hour dt * 3600 + minute dt * 60 + second dt) /\
  is_extended_time (time_to_gtfs_format dt) = false /\
  is_time_in_late_night_range (time_to_gtfs_format dt) = (hour dt <? 4).
Proof.
  intros (_ & Hh & _). unfold time_to_gtfs_format.
  unfold gtfs_time_to_seconds, is_extended_time, is_time_in_late_night_range.
  rewrite parse_format_hms, safe_parse_format_hms. cbn [bind].
  split; [reflexivity|]. split; [apply Z.leb_gt; lia | reflexivity].
Qed.

Lemma time_to_gtfs_format_seconds_witness :
  valid_datetime (mkdatetime (mkdate 739259) 1 30 5) /\
  gtfs_time_to_seconds "01:30:05" = Ok 5405 /\
  is_time_in_late_night_range "01:30:05" = true.
Proof.
  assert (V : valid_datetime (mkdatetime (mkdate 739259) 1 30 5))
    by (unfold valid_datetime, valid_date, MAXORDINAL; simpl; lia).
  destruct (time_to_gtfs_format_seconds _ V) as [A [_ C]].
  split; [exact V|]. split; [exact A | exact C].
Defined.

(** The time of [get_gtfs_service_context]: the late-night flag is
    [is_time_in_late_night_range] of the wall-clock time, and the time is
    that wall-clock time, converted to the extended form when the flag is
    set. *)
Theorem get_gtfs_service_context_time (dt : datetime) (sd : date) (t : string) (late : bool) :
  valid_datetime dt -> get_gtfs_service_context dt = Ok (sd, t, late) ->
  late = is_time_in_late_night_range (time_to_gtfs_format dt) /\
  t = if late then convert_to_extended_time (time_to_gtfs_format dt)
      else time_to_gtfs_format dt.
Proof.
  intros (_ & Hh & _) G. unfold get_gtfs_service_context in G.
  unfold is_time_in_late_night_range, time_to_gtfs_format.
  rewrite safe_parse_format_hms. unfold LATE_NIGHT_THRESHOLD_HOUR in *.
  destruct (Z.ltb_spec (hour dt) 4).
  - destruct (date_sub_days _ _); [|discriminate]. cbn [bind] in G.
    injection G as <- <- <-. split; [reflexivity|].
    symmetry. apply convert_to_extended_time_hms; [apply safe_parse_format_hms | lia].
  - injection G as <- <- <-. split; reflexivity.
Qed.

Lemma get_gtfs_service_context_time_witness :
  valid_datetime (mkdatetime (mkdate 739259) 1 30 0) /\
  get_gtfs_service_context (mkdatetime (mkdate 739259) 1 30 0) =
    Ok (mkdate 739258, "25:30:00"%string, true) /\
  "25:30:00"%string = convert_to_extended_time "01:30:00".
Proof.
  assert (V : valid_datetime (mkdatetime (mkdate 739259) 1 30 0))
    by (unfold valid_datetime, valid_date, MAXORDINAL; simpl; lia).
  split; [exact V|]. split; [reflexivity|].
  destruct (get_gtfs_service_context_time _ (mkdate 739258) "25:30:00" true V eq_refl)
    as [_ E]. exact E.
Defined.

(** The [end_time] and [latest_transfer_time] strings of the finders
    ([f"{s // 3600:02d}:{(s % 3600) // 60:02d}:00"]) read back as the
    seconds [s] rounded down to the minute, for every integer [s]. *)
Theorem hhmm00_seconds (secs : Z) :
  gtfs_time_to_seconds (hhmm00 secs) = Ok (secs - secs mod 60).
Proof.
  rewrite hhmm00_format_hms. unfold gtfs_time_to_seconds. rewrite parse_format_hms.
  cbn [bind]. f_equal. rewrite <- floor_60_of_3600. ring.
Qed.

(** ** Sorting with a total boolean preorder *)

Section SortTotal.
Context {A : Type} (le : A -> A -> bool).
Hypothesis le_total : forall a b, le a b = false -> le b a = true.

Lemma insert_by_Sorted (x : A) (l : list A) :
  Sorted (fun a b => le a b = true) l ->
  Sorted (fun a b => le a b = true) (insert_by le x l).
Proof.
  induction l as [|y l IH]; simpl; intros S.
  - constructor; constructor.
  - destruct (le y x) eqn:Eyx.
    + apply Sorted_inv in S as [S Hd]. constructor; [exact (IH S)|].
      destruct l as [|z l]; simpl.
      * constructor. exact Eyx.
      * destruct (le z x); constructor; [inversion Hd; assumption | exact Eyx].
    + constructor; [exact S|]. constructor. apply le_total. exact Eyx.
Qed.

Lemma sort_by_Sorted (l : list A) : Sorted (fun a b => le a b = true) (sort_by le l).
Proof.
  unfold sort_by. assert (Sorted (fun a b => le a b = true) []) as S0 by constructor.
  revert S0. generalize (@nil A). induction l as [|x l IH]; intros acc S; simpl; [exact S|].
  apply IH. apply insert_by_Sorted. exact S.
Qed.

End SortTotal.

Lemma firstn_Sorted {A : Type} (R : A -> A -> Prop) (n : nat) (l : list A) :
  Sorted R l -> Sorted R (firstn n l).
Proof.
  revert n. induction l as [|x l IH]; intros n S; destruct n as [|n]; simpl;
    [constructor | constructor | constructor |].
  apply Sorted_inv in S as [S Hd]. apply Sorted_cons; [exact (IH n S)|].
  destruct n as [|n]; destruct l as [|y l]; simpl; try constructor.
  inversion Hd. assumption.
Qed.

Lemma Sorted_weaken {A : Type} (R R' : A -> A -> Prop) (l : list A) :
  (forall a b, R a b -> R' a b) -> Sorted R l -> Sorted R' l.
Proof.
  intros HR S. induction S as [|x l S IH Hd]; constructor; [exact IH|].
  destruct Hd; constructor. apply HR. assumption.
Qed.

Lemma sql_limit_Sorted {A : Type} (R : A -> A -> Prop) (n : Z) (l : list A) :
  Sorted R l -> Sorted R (sql_limit n l).
Proof. unfold sql_limit. destruct (n <? 0); [auto | apply firstn_Sorted]. Qed.

Lemma In_firstn {A : Type} (x : A) (n : nat) (l : list A) : In x (firstn n l) -> In x l.
Proof.
  intros H. rewrite <- (firstn_skipn n l). apply in_or_app. left. exact H.
Qed.

Lemma sql_limit_In {A : Type} (x : A) (n : Z) (l : list A) : In x (sql_limit n l) -> In x l.
Proof. unfold sql_limit. destruct (n <? 0); [auto | apply In_firstn]. Qed.

Lemma sql_limit_length {A : Type} (n : Z) (l : list A) :
  0 <= n -> Z.of_nat (length (sql_limit n l)) <= n.
Proof.
  intros Hn. unfold sql_limit. destruct (Z.ltb_spec n 0); [lia|].
  rewrite length_firstn. lia.
Qed.

Lemma sort_by_In {A : Type} (le : A -> A -> bool) (x : A) (l : list A) :
  In x (sort_by le l) -> In x l.
Proof. intros H. apply (Permutation_in _ (Permutation_sym (sort_by_perm le l)) H). Qed.

Lemma string_leb_total_false (a b : string) :
  String.leb a b = false -> String.leb b a = true.
Proof.
  intros H. destruct (String.leb_total a b) as [E|E]; [congruence | exact E].
Qed.

(** ** Results of a [mapM] *)

Lemma mapM_length {A B : Type} (f : A -> result B) (l : list A) (l' : list B) :
  mapM f l = Ok l' -> length l' = length l.
Proof.
  revert l'. induction l as [|x l IH]; simpl; intros l' H.
  - injection H as <-. reflexivity.
  - bind_inv H. bind_inv H. injection H as <-. simpl. f_equal. exact (IH _ E0).
Qed.

Lemma mapM_Forall {A B : Type} (P : B -> Prop) (f : A -> result B) (l : list A) (l' : list B) :
  (forall x y, In x l -> f x = Ok y -> P y) -> mapM f l = Ok l' -> Forall P l'.
Proof.
  revert l'. induction l as [|x l IH]; simpl; intros l' Hf H.
  - injection H as <-. constructor.
  - bind_inv H. bind_inv H. injection H as <-. constructor.
    + exact (Hf x a (or_introl eq_refl) E).
    + apply (IH a0); [|exact E0]. intros y z Hy. exact (Hf y z (or_intror Hy)).
Qed.

Lemma mapM_Sorted {A B : Type} (R : A -> A -> Prop) (R' : B -> B -> Prop)
  (f : A -> result B) (l : list A) (l' : list B) :
  (forall x y fx fy, R x y -> f x = Ok fx -> f y = Ok fy -> R' fx fy) ->
  Sorted R l -> mapM f l = Ok l' -> Sorted R' l'.
Proof.
  intros HR. revert l'. induction l as [|x l IH]; simpl; intros l' S H.
  - injection H as <-. constructor.
  - bind_inv H. bind_inv H. injection H as <-. apply Sorted_inv in S as [S Hd].
    constructor; [exact (IH _ S E0)|].
    destruct l as [|y l]; simpl in E0.
    + injection E0 as <-. constructor.
    + bind_inv E0. bind_inv E0. injection E0 as <-. constructor.
      inversion Hd; subst. exact (HR x y a a1 H0 E E1).
Qed.

Lemma mapM_StronglySorted {A B : Type} (R : A -> A -> Prop) (R' : B -> B -> Prop)
  (f : A -> result B) (l : list A) (l' : list B) :
  (forall x y fx fy, R x y -> f x = Ok fx -> f y = Ok fy -> R' fx fy) ->
  StronglySorted R l -> mapM f l = Ok l' -> StronglySorted R' l'.
Proof.
  intros HR. revert l'. induction l as [|x l IH]; simpl; intros l' S H.
  - injection H as <-. constructor.
  - bind_inv H. bind_inv H. injection H as <-. apply StronglySorted_inv in S as [S Hd].
    constructor; [exact (IH _ S E0)|].
    apply (mapM_Forall (fun fy => R' a fy) f l); [|exact E0].
    intros y fy Hy Ey. apply (HR x y a fy); [|exact E|exact Ey].
    rewrite Forall_forall in Hd. exact (Hd y Hy).
Qed.

(** ** Scheduled arrivals *)

Lemma arrival_rows_In (db : gtfs_tables) (stop : string) (active : list string)
  (start_time end_time : string) (route : option string) (limit : Z)
  (st : stop_time_row) (t : trip_row) (r : route_row) :
  In (st, t, r) (arrival_rows db stop active start_time end_time route limit) ->
  In st (stop_times db) /\ In t (trips db) /\ In r (routes db) /\
  st_trip_id st = trip_id t /\ trip_route_id t = route_id r /\ st_stop_id st = stop /\
  String.leb start_time (arrival_time st) = true /\
  String.leb (arrival_time st) end_time = true /\
  (forall rid, route = Some rid -> trip_route_id t = rid).
Proof.
  unfold arrival_rows. intros H. apply sql_limit_In, sort_by_In in H.
  apply in_flat_map in H as [st' [Hst H]]. apply in_flat_map in H as [t' [Ht H]].
  apply in_flat_map in H as [r' [Hr H]].
  match type of H with In _ (if ?c then _ else _) => destruct c eqn:C end;
    [|destruct H].
  destruct H as [H|[]]. injection H as <- <- <-.
  repeat (apply andb_prop in C as [C ?]).
  repeat match goal with H : String.eqb _ _ = true |- _ => apply String.eqb_eq in H end.
  split; [exact Hst|]. split; [exact Ht|]. split; [exact Hr|].
  do 5 (split; [assumption|]).
  intros rid ->. apply String.eqb_eq. assumption.
Qed.

Lemma arrival_rows_Sorted (db : gtfs_tables) (stop : string) (active : list string)
  (start_time end_time : string) (route : option string) (limit : Z) :
  Sorted (fun a b => let '(sa, _, _) := a in let '(sb, _, _) := b in
                     String.leb (arrival_time sa) (arrival_time sb) = true)
    (arrival_rows db stop active start_time end_time route limit).
Proof.
  unfold arrival_rows. apply sql_limit_Sorted.
  refine (Sorted_weaken _ _ _ _ (sort_by_Sorted _ _ _)).
  - intros [[a ?] ?] [[b ?] ?]. exact (fun H => H).
  - intros [[a ?] ?] [[b ?] ?]. apply string_leb_total_false.
Qed.

Lemma get_scheduled_arrivals_props (db : gtfs_tables) (now : datetime) (stop : string)
  (route : option string) (start_time end_time : option string) (limit : Z)
  (resp : GetScheduledArrivalsResponse) :
  get_scheduled_arrivals db now stop route start_time end_time limit = Ok resp ->
  si_stop_id (ar_stop resp) = stop /\
  ar_count resp = Z.of_nat (length (ar_arrivals resp)) /\
  (0 <= limit -> ar_count resp <= limit) /\
  Sorted (fun a b => String.leb (sa_arrival_time a) (sa_arrival_time b) = true)
    (ar_arrivals resp) /\
  Forall (fun a =>
    String.leb (ar_query_time resp) (sa_arrival_time a) = true /\
    (forall rid, route = Some rid -> sa_route_id a = rid) /\
    format_gtfs_time (sa_arrival_time a) = Ok (sa_arrival_time_formatted a) /\
    calculate_minutes_until (sa_arrival_time a) (ar_query_time resp) =
      Ok (sa_minutes_until a)) (ar_arrivals resp).
Proof.
  unfold get_scheduled_arrivals. intros G. bind_inv G.
  destruct a as [[[sd s] e] ext].
  destruct (find (fun r => String.eqb (stop_id r) stop) (stops db)) as [row|] eqn:F;
    [|discriminate].
  apply find_some in F as [_ F]. apply String.eqb_eq in F.
  destruct (get_active_service_ids db sd) as [|a0 l0] eqn:A.
  - injection G as <-. cbn. split; [exact F|]. split; [reflexivity|].
    split; [lia|]. split; constructor.
  - set (active := a0 :: l0) in *. bind_inv G. injection G as <-.
    cbn [si_stop_id ar_stop ar_count ar_arrivals ar_query_time]. split; [exact F|].
    split; [reflexivity|]. rewrite (mapM_length _ _ _ E0). split.
    { intros Hl. apply sql_limit_length. exact Hl. }
    split.
    + refine (mapM_Sorted _ _ _ _ _ _ (arrival_rows_Sorted _ _ _ _ _ _ _) E0).
      intros [[x1 x2] x3] [[y1 y2] y3] fx fy R X Y.
      bind_inv X. bind_inv X. injection X as <-. bind_inv Y. bind_inv Y. injection Y as <-.
      exact R.
    + refine (mapM_Forall _ _ _ _ _ E0).
      intros [[x1 x2] x3] y Hin X. bind_inv X. bind_inv X. injection X as <-.
      apply arrival_rows_In in Hin as (_ & _ & _ & _ & _ & _ & H1 & _ & H2).
      cbn. split; [exact H1|]. split; [exact H2|]. split; assumption.
Qed.

(** The [get_scheduled_arrivals] response: the stop asked for, [count]
    the number of arrivals, at most [limit] of them, in text order of
    arrival time, each at or after the query time, on the route asked for,
    with its display time and minutes until arrival from the query time. *)
Theorem get_scheduled_arrivals_response (db : gtfs_tables) (now : datetime) (stop : string)
  (route : option string) (start_time end_time : option string) (limit : Z)
  (resp : GetScheduledArrivalsResponse) :
  get_scheduled_arrivals db now stop route start_time end_time limit = Ok resp ->
  si_stop_id (ar_stop resp) = stop /\
  ar_count resp = Z.of_nat (length (ar_arrivals resp)) /\
  (0 <= limit -> ar_count resp <= limit) /\
  Sorted (fun a b => String.leb (sa_arrival_time a) (sa_arrival_time b) = true)
    (ar_arrivals resp) /\
  Forall (fun a =>
    String.leb (ar_query_time resp) (sa_arrival_time a) = true /\
    (forall rid, route = Some rid -> sa_route_id a = rid) /\
    format_gtfs_time (sa_arrival_time a) = Ok (sa_arrival_time_formatted a) /\
    calculate_minutes_until (sa_arrival_time a) (ar_query_time resp) =
      Ok (sa_minutes_until a)) (ar_arrivals resp).
Proof. apply get_scheduled_arrivals_props. Qed.


Lemma get_scheduled_arrivals_response_witness :
  exists resp,
    get_scheduled_arrivals arrivals_db (mkdatetime (mkdate 739259) 7 0 0) "S1"
      (Some "24"%string) (Some "08:00:00"%string) (Some "10:00:00"%string) 5 = Ok resp /\
    map sa_minutes_until (ar_arrivals resp) = [15; 100] /\ ar_count resp = 2.
Proof.
  eexists. split; [vm_compute; reflexivity|].
  split; [vm_compute; reflexivity|].
  match goal with
  | |- ar_count ?r = 2 =>
      let H := fresh in
      assert (H : get_scheduled_arrivals arrivals_db (mkdatetime (mkdate 739259) 7 0 0) "S1"
                    (Some "24"%string) (Some "08:00:00"%string) (Some "10:00:00"%string) 5 = Ok r)
        by (vm_compute; reflexivity);
      destruct (get_scheduled_arrivals_response _ _ _ _ _ _ _ _ H) as (_ & C & _);
      rewrite C; vm_compute; reflexivity
  end.
Defined.

(** The [get_scheduled_arrivals] tool returns between 0 and 100 arrivals,
    and at most [max(1, limit)]. *)
Theorem get_scheduled_arrivals_tool_count (db : gtfs_tables) (now : datetime)
  (stop : string) (route : option string) (start_time end_time : option string) (limit : Z)
  (resp : GetScheduledArrivalsResponse) :
  get_scheduled_arrivals_tool db now stop route start_time end_time limit = Ok resp ->
  0 <= ar_count resp <= 100 /\ ar_count resp <= Z.max 1 limit /\
  ar_count resp = Z.of_nat (length (ar_arrivals resp)).
Proof.
  unfold get_scheduled_arrivals_tool. intros G.
  destruct (get_scheduled_arrivals_props _ _ _ _ _ _ _ _ G) as (_ & C & L & _).
  assert (0 <= (if limit <? 1 then 1 else if 100 <? limit then 100 else limit)) as H0.
  { destruct (Z.ltb_spec limit 1); [lia|]. destruct (Z.ltb_spec 100 limit); lia. }
  specialize (L H0). clear H0 G. rewrite C in L |- *.
  destruct (Z.ltb_spec limit 1); [|destruct (Z.ltb_spec 100 limit)]; lia.
Qed.

Lemma get_scheduled_arrivals_tool_count_witness :
  exists resp,
    get_scheduled_arrivals_tool arrivals_db (mkdatetime (mkdate 739259) 7 0 0) "S1" None
      (Some "08:00:00"%string) (Some "10:00:00"%string) 0 = Ok resp /\
    ar_count resp <= Z.max 1 0.
Proof.
  eexists. split; [vm_compute; reflexivity|].
  match goal with
  | |- ar_count ?r <= _ =>
      let H := fresh in
      assert (H : get_scheduled_arrivals_tool arrivals_db (mkdatetime (mkdate 739259) 7 0 0)
                    "S1" None (Some "08:00:00"%string) (Some "10:00:00"%string) 0 = Ok r)
        by (vm_compute; reflexivity);
      destruct (get_scheduled_arrivals_tool_count _ _ _ _ _ _ _ _ H) as (_ & B & _);
      exact B
  end.
Defined.

(** ** The [plan_trip] tool and stop resolution *)

Lemma py_slice_to_pos_length {A : Type} (n : Z) (l : list A) :
  0 <= n -> Z.of_nat (length (py_slice_to n l)) <= n.
Proof.
  intros Hn. unfold py_slice_to. destruct (Z.ltb_spec n 0); [lia|].
  rewrite length_firstn. lia.
Qed.

(** Through the MCP tool, [plan_trip] returns at most 5 itineraries, at
    most [max(1, limit)], and [count] is their number. *)
Theorem plan_trip_tool_at_most_five (env : planner_env) (now : datetime)
  (origin destination : string) (departure_time : option string) (limit : Z)
  (resp : PlanTripResponse) :
  snd (plan_trip_tool env now origin destination departure_time limit) = Ok resp ->
  (length (itineraries resp) <= 5)%nat /\
  Z.of_nat (length (itineraries resp)) <= Z.max 1 limit /\
  pt_count resp = Z.of_nat (length (itineraries resp)).
Proof.
  unfold plan_trip_tool.
  set (L := if limit <? 1 then 1 else if 5 <? limit then 5 else limit).
  assert (HL : 1 <= L <= 5 /\ L <= Z.max 1 limit).
  { subst L. destruct (Z.ltb_spec limit 1); [lia|]. destruct (Z.ltb_spec 5 limit); lia. }
  rewrite plan_trip_steps.
  destruct (resolve_stop_for_planning _ origin) as [orr|e]; [|discriminate].
  destruct (resolve_stop_for_planning _ destination) as [dr|e]; [|discriminate].
  destruct (negb (resolved orr) || negb (resolved dr)).
  - intros R. injection R as <-. cbn. lia.
  - cbv zeta. destruct (find_itineraries env _) as [ds|e]; [|discriminate].
    destruct (find_itineraries env _) as [ts|e]; [|discriminate].
    intros R. injection R as <-. cbn [itineraries pt_count].
    pose proof (py_slice_to_pos_length L
      (sort_by (fun a b => total_duration_minutes a <=? total_duration_minutes b) (ds ++ ts))
      ltac:(lia)).
    split; [lia|]. split; [lia | reflexivity].
Qed.

Lemma plan_trip_tool_at_most_five_witness :
  let env := mkPlannerEnv (fun q => Ok [mkStopMatch q q EXACT])
               (fun c => Ok (repeat (mkItinerary "08:00:00" "08:30:00" 30 0) 4)) in
  exists resp,
    snd (plan_trip_tool env (mkdatetime (mkdate 739259) 7 55 0) "51001" "51002" None 9)
      = Ok resp /\ length (itineraries resp) = 5%nat.
Proof.
  intros env. eexists. split; [vm_compute; reflexivity|].
  match goal with
  | |- length (itineraries ?r) = _ =>
      let H := fresh in
      assert (H : snd (plan_trip_tool env (mkdatetime (mkdate 739259) 7 55 0)
                         "51001" "51002" None 9) = Ok r) by (vm_compute; reflexivity);
      destruct (plan_trip_tool_at_most_five _ _ _ _ _ _ _ H) as (B & _);
      vm_compute; reflexivity
  end.
Defined.

(** A side that [_resolve_stop_for_planning] reports resolved carries a
    stop id and name, an [exact] or [high] confidence, and no error. *)
Theorem resolve_stop_for_planning_resolved (cands : string -> result (list StopMatch))
  (q : string) (info : StopResolutionInfo) :
  resolve_stop_for_planning cands q = Ok info -> resolved info = true ->
  (exists sid name, resolved_stop_id info = Some sid /\ resolved_stop_name info = Some name) /\
  (sri_confidence info = Some "exact"%string \/ sri_confidence info = Some "high"%string) /\
  sri_error info = None.
Proof.
  unfold resolve_stop_for_planning.
  destruct (resolve_stop cands q 1) as [r|e] eqn:E.
  - pose proof (resolve_stop_best _ _ _ _ E) as B.
    destruct (best_match r) as [m|].
    + intros R. injection R as <-. cbn. intros Hr. rewrite Hr in B.
      split; [eauto|]. split; [|reflexivity].
      destruct (confidence m); try discriminate; [left | right]; reflexivity.
    + intros R. injection R as <-. cbn. discriminate.
  - destruct (is_exception e); [|discriminate].
    intros R. injection R as <-. cbn. discriminate.
Qed.

Lemma resolve_stop_for_planning_resolved_witness :
  let cands := fun (_ : string) => Ok [mkStopMatch "51001" "Berri-UQAM" HIGH] in
  resolve_stop_for_planning cands "berri" =
    Ok (mkStopResolutionInfo "berri" (Some "51001"%string) (Some "Berri-UQAM"%string)
          (Some "high"%string) true None) /\
  sri_confidence (mkStopResolutionInfo "berri" (Some "51001"%string)
     (Some "Berri-UQAM"%string) (Some "high"%string) true None) = Some "high"%string.
Proof.
  intros cands. split; [vm_compute; reflexivity|].
  destruct (resolve_stop_for_planning_resolved cands "berri"
              (mkStopResolutionInfo "berri" (Some "51001"%string) (Some "Berri-UQAM"%string)
                 (Some "high"%string) true None) ltac:(vm_compute; reflexivity) eq_refl)
    as (_ & _ & _). reflexivity.
Defined.

(** ** The row loop of the finders *)

Lemma dedup_build_sub {A K B : Type} (keq : K -> K -> bool) (key : A -> K)
  (build : A -> result B) (limit : Z) (xs : list A) (seen : list K) (acc out : list B) :
  (forall k, keq k k = true) ->
  dedup_build keq key build limit xs seen acc = Ok out ->
  exists ys bs, out = acc ++ bs /\ mapM build ys = Ok bs /\ incl ys xs /\
    NoDup (map key ys) /\ Forall (fun y => ~ In (key y) seen) ys /\
    (forall R, StronglySorted R xs -> StronglySorted R ys).
Proof.
  intros Hrefl. revert seen acc. induction xs as [|x r IH]; simpl; intros seen acc H.
  - injection H as <-. exists [], []. rewrite app_nil_r.
    repeat split; try constructor. intros y [].
  - destruct (existsb (keq (key x)) seen) eqn:S.
    + destruct (IH _ _ H) as (ys & bs & E & M & I & N & F & SS).
      exists ys, bs. repeat split; try assumption.
      * intros y Hy. right. exact (I y Hy).
      * intros R Hs. apply StronglySorted_inv in Hs as [Hs _]. exact (SS R Hs).
    + assert (Hx : ~ In (key x) seen).
      { intros Hin. assert (existsb (keq (key x)) seen = true) as T.
        { apply existsb_exists. exists (key x). split; [exact Hin | apply Hrefl]. }
        congruence. }
      bind_inv H. destruct (limit <=? Z.of_nat (length (acc ++ [a]))).
      * injection H as <-. exists [x], [a]. simpl. rewrite E. cbn [bind].
        repeat split.
        -- intros y [<-|[]]. left. reflexivity.
        -- constructor; [intros []|constructor].
        -- constructor; [exact Hx|constructor].
        -- intros R _. constructor; constructor.
      * destruct (IH _ _ H) as (ys & bs & E1 & M & I & N & F & SS).
        exists (x :: ys), (a :: bs). simpl. rewrite E, M. cbn [bind].
        rewrite <- app_assoc in E1. split; [exact E1|]. split; [reflexivity|].
        split; [|split; [|split]].
        -- intros y [<-|Hy]; [left; reflexivity|right; exact (I y Hy)].
        -- constructor; [|exact N]. intros Hin. apply in_map_iff in Hin as [y [Ky Hy]].
           rewrite Forall_forall in F. apply (F y Hy). rewrite Ky. left. reflexivity.
        -- constructor; [exact Hx|]. rewrite Forall_forall in F |- *.
           intros y Hy Hin. apply (F y Hy). right. exact Hin.
        -- intros R Hs. apply StronglySorted_inv in Hs as [Hs Hd]. constructor.
           ++ exact (SS R Hs).
           ++ rewrite Forall_forall in Hd |- *. intros y Hy. exact (Hd y (I y Hy)).
Qed.

Lemma dedup_build_length {A K B : Type} (keq : K -> K -> bool) (key : A -> K)
  (build : A -> result B) (limit : Z) (xs : list A) (seen : list K) (acc out : list B) :
  Z.of_nat (length acc) < Z.max 1 limit ->
  dedup_build keq key build limit xs seen acc = Ok out ->
  Z.of_nat (length out) <= Z.max 1 limit.
Proof.
  revert seen acc. induction xs as [|x r IH]; simpl; intros seen acc L H.
  - injection H as <-. lia.
  - destruct (existsb (keq (key x)) seen); [exact (IH _ _ L H)|].
    bind_inv H. rewrite length_app in H. cbn [length] in H.
    destruct (Z.leb_spec limit (Z.of_nat (length acc + 1))).
    + injection H as <-. rewrite length_app. cbn [length]. lia.
    + refine (IH _ _ _ H). rewrite length_app. cbn [length]. lia.
Qed.

Lemma mapM_map_eq {A B C : Type} (f : A -> result B) (g : B -> C) (k : A -> C)
  (l : list A) (l' : list B) :
  (forall x y, In x l -> f x = Ok y -> g y = k x) ->
  mapM f l = Ok l' -> map g l' = map k l.
Proof.
  revert l'. induction l as [|x l IH]; simpl; intros l' Hf H.
  - injection H as <-. reflexivity.
  - bind_inv H. bind_inv H. injection H as <-. simpl.
    rewrite (Hf x a (or_introl eq_refl) E). f_equal.
    apply IH; [|exact E0]. intros y b Hy. exact (Hf y b (or_intror Hy)).
Qed.

Lemma key2_eqb_refl (k : string * string) : key2_eqb k k = true.
Proof. destruct k as [a b]. unfold key2_eqb. cbn. rewrite !String.eqb_refl. reflexivity. Qed.

Lemma key3_eqb_refl (k : string * string * string) : key3_eqb k k = true.
Proof. destruct k as [[a b] c]. unfold key3_eqb. rewrite !String.eqb_refl. reflexivity. Qed.

(** ** Direct itineraries *)

Lemma direct_rows_In (db : gtfs_tables) (origin dest : string) (active : list string)
  (dep_time end_time : string) (lim : Z) (o d : stop_time_row) (t : trip_row) (r : route_row) :
  In (o, d, t, r) (direct_rows db origin dest active dep_time end_time lim) ->
  st_trip_id o = st_trip_id d /\ st_trip_id o = trip_id t /\ trip_route_id t = route_id r /\
  st_stop_id o = origin /\ st_stop_id d = dest /\ mem (service_id t) active = true /\
  String.leb dep_time (departure_time o) = true /\
  String.leb (departure_time o) end_time = true /\ stop_sequence o < stop_sequence d.
Proof.
  unfold direct_rows. intros H. apply sql_limit_In, sort_by_In in H.
  apply in_flat_map in H as [o' [_ H]]. apply in_flat_map in H as [d' [_ H]].
  apply in_flat_map in H as [t' [_ H]]. apply in_flat_map in H as [r' [_ H]].
  match type of H with In _ (if ?c then _ else _) => destruct c eqn:C end;
    [|destruct H].
  destruct H as [H|[]]. injection H as <- <- <- <-.
  repeat (apply andb_prop in C as [C ?]).
  repeat match goal with H : String.eqb _ _ = true |- _ => apply String.eqb_eq in H end.
  match goal with H : (_ <? _) = true |- _ => apply Z.ltb_lt in H end.
  repeat split; assumption.
Qed.

Lemma direct_rows_Sorted (db : gtfs_tables) (origin dest : string) (active : list string)
  (dep_time end_time : string) (lim : Z) :
  Sorted (fun a b => let '(oa, _, _, _) := a in let '(ob, _, _, _) := b in
                     String.leb (departure_time oa) (departure_time ob) = true)
    (direct_rows db origin dest active dep_time end_time lim).
Proof.
  unfold direct_rows. apply sql_limit_Sorted.
  refine (Sorted_weaken _ _ _ _ (sort_by_Sorted _ _ _)).
  - intros [[[a ?] ?] ?] [[[b ?] ?] ?]. exact (fun H => H).
  - intros [[[a ?] ?] ?] [[[b ?] ?] ?]. apply string_leb_total_false.
Qed.


Lemma NoDup_map_inj {A B : Type} (f : A -> B) (l : list A) :
  (forall x y, f x = f y -> x = y) -> NoDup l -> NoDup (map f l).
Proof.
  intros Hf N. induction N as [|x l Hx N IH]; simpl; constructor; [|exact IH].
  intros Hin. apply in_map_iff in Hin as [y [E Hy]]. apply Hf in E. subst y. exact (Hx Hy).
Qed.

Lemma direct_rows_StronglySorted (db : gtfs_tables) (origin dest : string)
  (active : list string) (dep_time end_time : string) (lim : Z) :
  StronglySorted (fun a b => let '(oa, _, _, _) := a in let '(ob, _, _, _) := b in
                   String.leb (departure_time oa) (departure_time ob) = true)
    (direct_rows db origin dest active dep_time end_time lim).
Proof.
  apply Sorted_StronglySorted; [|apply direct_rows_Sorted].
  intros [[[a ?] ?] ?] [[[b ?] ?] ?] [[[c ?] ?] ?]. apply string_leb_trans.
Qed.

Section DirectProofs.
Context `{FloatOps}.

Lemma direct_itinerary_Ok (origin dest : string) (oi di : stop_info_dict)
  (o d : stop_time_row) (t : trip_row) (r : route_row) (it : FullItinerary) :
  direct_itinerary origin dest oi di (o, d, t, r) = Ok it ->
  exists leg, legs it = [leg] /\ leg_route_id leg = trip_route_id t /\
    from_stop_id leg = origin /\ to_stop_id leg = dest /\
    leg_departure_time leg = departure_time o /\ leg_arrival_time leg = arrival_time d /\
    num_stops leg = stop_sequence d - stop_sequence o + 1 /\
    fi_departure_time it = departure_time o /\ fi_arrival_time it = arrival_time d /\
    fi_num_transfers it = 0 /\ transfer_wait_minutes it = None /\
    transfer_walk_meters it = None /\
    fi_total_duration_minutes it = duration_minutes leg /\
    exists a b, gtfs_time_to_seconds (arrival_time d) = Ok a /\
      gtfs_time_to_seconds (departure_time o) = Ok b /\
      fi_total_duration_minutes it = (a - b) / 60.
Proof.
  unfold direct_itinerary. intros X.
  do 6 bind_inv X. injection X as <-. eexists. cbn.
  do 13 (split; [reflexivity|]). exists a, a0. split; [exact E|]. split; [exact E0|].
  reflexivity.
Qed.

Lemma find_direct_itineraries_sub (db : gtfs_tables) (origin dest dep_time : string)
  (service_date : date) (limit : Z) (its : list FullItinerary) :
  find_direct_itineraries db origin dest dep_time service_date limit = Ok its ->
  exists s, gtfs_time_to_seconds dep_time = Ok s /\
  exists active ys, mapM (direct_itinerary origin dest (get_stop_info db origin)
                                (get_stop_info db dest)) ys = Ok its /\
    incl ys (direct_rows db origin dest active dep_time (hhmm00 (s + TIME_WINDOW_HOURS * 3600))
               (limit * 2)) /\
    NoDup (map (fun row => let '(o, _, t, _) := row in (trip_route_id t, departure_time o)) ys) /\
    StronglySorted (fun a b => let '(oa, _, _, _) := a in let '(ob, _, _, _) := b in
                     String.leb (departure_time oa) (departure_time ob) = true) ys /\
    Z.of_nat (length its) <= Z.max 1 limit /\ (limit = 0 -> its = []).
Proof.
  unfold find_direct_itineraries. intros F. bind_inv F. exists a. split; [exact E|].
  cbv zeta in F. destruct (get_active_service_ids db service_date) as [|a0 l0].
  - injection F as <-. exists [], []. simpl. repeat split; try constructor; try lia.
    intros y [].
  - exists (a0 :: l0).
    assert (L0 : Z.of_nat (length (@nil FullItinerary)) < Z.max 1 limit) by (simpl; lia).
    pose proof (dedup_build_length _ _ _ _ _ _ _ _ L0 F) as L.
    apply dedup_build_sub in F as (ys & bs & E1 & M & I & N & _ & SS); [|exact key2_eqb_refl].
    simpl in E1. subst bs. exists ys. split; [exact M|]. split; [exact I|].
    split; [exact N|]. split.
    + apply SS. apply direct_rows_StronglySorted.
    + split; [exact L|]. intros ->.
      assert (ys = []) as ->.
      { destruct ys as [|y ys]; [reflexivity|]. exfalso.
        pose proof (I y (or_introl eq_refl)) as Hy. unfold direct_rows, sql_limit in Hy.
        simpl in Hy. exact Hy. }
      injection M as <-. reflexivity.
Qed.
End DirectProofs.

Section DirectTheorems.
Context `{FloatOps}.

(** [_find_direct_itineraries] parses the departure time, and every
    itinerary it returns is one leg on one trip from the origin to the
    destination, departing (as text) within [departure_time] and the end of
    the two-hour window, over at least two stops, with no transfer, its
    times those of its leg and its duration the whole minutes from
    departure to arrival. *)
Theorem find_direct_itineraries_legs (db : gtfs_tables) (origin dest dep_time : string)
  (service_date : date) (limit : Z) (its : list FullItinerary) :
  find_direct_itineraries db origin dest dep_time service_date limit = Ok its ->
  exists s, gtfs_time_to_seconds dep_time = Ok s /\
  Forall (fun it => exists leg, legs it = [leg] /\
    from_stop_id leg = origin /\ to_stop_id leg = dest /\
    leg_departure_time leg = fi_departure_time it /\ leg_arrival_time leg = fi_arrival_time it /\
    fi_num_transfers it = 0 /\ transfer_wait_minutes it = None /\
    transfer_walk_meters it = None /\
    String.leb dep_time (fi_departure_time it) = true /\
    String.leb (fi_departure_time it) (hhmm00 (s + TIME_WINDOW_HOURS * 3600)) = true /\
    2 <= num_stops leg /\ fi_total_duration_minutes it = duration_minutes leg /\
    exists a b, gtfs_time_to_seconds (fi_arrival_time it) = Ok a /\
      gtfs_time_to_seconds (fi_departure_time it) = Ok b /\
      fi_total_duration_minutes it = (a - b) / 60) its.
Proof.
  intros F. apply find_direct_itineraries_sub in F as (s & Es & active & ys & M & I & _).
  exists s. split; [exact Es|].
  refine (mapM_Forall _ _ _ _ _ M). intros [[[o d] t] r] it Hin X.
  apply I, direct_rows_In in Hin as (_ & _ & _ & _ & _ & _ & W1 & W2 & Sq).
  apply direct_itinerary_Ok in X
    as (leg & Lg & _ & Fr & To & LD & LA & NS & FD & FA & NT & WT & WM & TD & a & b & A & B & T).
  exists leg. rewrite FD, FA, LD, LA. do 12 (split; [first [assumption | reflexivity | lia]|]).
  exists a, b. split; [exact A|]. split; [exact B|]. exact T.
Qed.

(** [_find_direct_itineraries] returns at most [max(1, limit)]
    itineraries (none for [limit = 0]), at most one per route and departure
    time, in text order of departure time. *)
Theorem find_direct_itineraries_distinct (db : gtfs_tables) (origin dest dep_time : string)
  (service_date : date) (limit : Z) (its : list FullItinerary) :
  find_direct_itineraries db origin dest dep_time service_date limit = Ok its ->
  Z.of_nat (length its) <= Z.max 1 limit /\
  (0 <= limit -> Z.of_nat (length its) <= limit) /\
  NoDup (map (fun it => (map leg_route_id (legs it), fi_departure_time it)) its) /\
  Sorted (fun a b => String.leb (fi_departure_time a) (fi_departure_time b) = true) its.
Proof.
  intros F. apply find_direct_itineraries_sub in F as (s & _ & active & ys & M & I & N & SS & L & Z0).
  split; [exact L|]. split.
  { intros Hl. destruct (Z.eq_dec limit 0) as [->|Hn]; [rewrite (Z0 eq_refl); simpl; lia | lia]. }
  split.
  - rewrite (mapM_map_eq _ (fun it => (map leg_route_id (legs it), fi_departure_time it))
               (fun row => let '(o, _, t, _) := row in ([trip_route_id t], departure_time o))
               _ _ ltac:(intros [[[o d] t] r] it _ X;
                          apply direct_itinerary_Ok in X as (leg & Lg & Rt & _ & _ & _ & _ & _ & FD & _);
                          rewrite Lg, FD; simpl; rewrite Rt; reflexivity) M).
    replace (map (fun row : stop_time_row * stop_time_row * trip_row * route_row =>
                   let '(o, _, t, _) := row in ([trip_route_id t], departure_time o)) ys)
      with (map (fun k : string * string => ([fst k], snd k))
              (map (fun row : stop_time_row * stop_time_row * trip_row * route_row =>
                      let '(o, _, t, _) := row in (trip_route_id t, departure_time o)) ys)).
    + apply NoDup_map_inj; [|exact N].
      intros [a1 a2] [b1 b2] E. simpl in E. injection E as -> ->. reflexivity.
    + rewrite map_map. apply map_ext. intros [[[o d] t] r]. reflexivity.
  - apply StronglySorted_Sorted.
    refine (mapM_StronglySorted _ _ _ _ _ _ SS M).
    intros [[[o1 d1] t1] r1] [[[o2 d2] t2] r2] i1 i2 R X1 X2.
    apply direct_itinerary_Ok in X1 as (l1 & _ & _ & _ & _ & _ & _ & _ & F1 & _).
    apply direct_itinerary_Ok in X2 as (l2 & _ & _ & _ & _ & _ & _ & _ & F2 & _).
    rewrite F1, F2. exact R.
Qed.

End DirectTheorems.


Lemma find_direct_itineraries_legs_witness :
  exists its,
    find_direct_itineraries (H := planar_metres) planner_db "A" "B" "08:00:00"
      (mkdate 739259) 5 = Ok its /\
    map fi_total_duration_minutes its = [30; 15] /\
    exists s, gtfs_time_to_seconds "08:00:00" = Ok s.
Proof.
  eexists. split; [vm_compute; reflexivity|]. split; [vm_compute; reflexivity|].
  match goal with
  | |- exists s, _ =>
      let its := fresh in
      evar (its : list (FullItinerary (H := planar_metres)));
      let F := fresh in
      assert (F : find_direct_itineraries (H := planar_metres) planner_db "A" "B" "08:00:00"
                    (mkdate 739259) 5 = Ok its) by (subst its; vm_compute; reflexivity);
      destruct (find_direct_itineraries_legs _ _ _ _ _ _ _ F) as (s & Es & _);
      exists s; exact Es
  end.
Defined.

Lemma find_direct_itineraries_distinct_witness :
  exists its,
    find_direct_itineraries (H := planar_metres) planner_db "A" "B" "08:00:00"
      (mkdate 739259) 5 = Ok its /\
    map (fun it => (map leg_route_id (legs it), fi_departure_time it)) its =
      [(["24"%string], "08:10:00"%string); (["51"%string], "08:20:00"%string)] /\
    Z.of_nat (length its) <= 5.
Proof.
  eexists. split; [vm_compute; reflexivity|]. split; [vm_compute; reflexivity|].
  match goal with
  | |- Z.of_nat (length ?its) <= _ =>
      let F := fresh in
      assert (F : find_direct_itineraries (H := planar_metres) planner_db "A" "B" "08:00:00"
                    (mkdate 739259) 5 = Ok its) by (vm_compute; reflexivity);
      destruct (find_direct_itineraries_distinct _ _ _ _ _ _ _ F) as (_ & L & _);
      exact (L ltac:(lia))
  end.
Defined.

(** ** Outbound and inbound segments *)

Lemma lex_order_total (a b : string) (x y : Z) :
  (String.ltb a b || (String.eqb a b && (x <=? y))) = false ->
  (String.ltb b a || (String.eqb b a && (y <=? x))) = true.
Proof.
  unfold String.ltb. rewrite (String.compare_antisym b a).
  destruct (String.compare a b) eqn:C; cbn [CompOpp orb].
  - apply String.compare_eq_iff in C. subst b. rewrite String.eqb_refl. cbn.
    intros X. apply Z.leb_gt in X. apply Z.leb_le. lia.
  - discriminate.
  - reflexivity.
Qed.

Lemma lex_order_leb (a b : string) (x y : Z) :
  (String.ltb a b || (String.eqb a b && (x <=? y))) = true -> String.leb a b = true.
Proof.
  intros X. apply orb_prop in X as [X|X].
  - unfold String.ltb, String.leb in *. destruct (String.compare a b); congruence.
  - apply andb_prop in X as [X _]. apply String.eqb_eq in X. subst b.
    unfold String.leb. destruct (String.compare a a) eqn:C; [reflexivity|reflexivity|].
    pose proof (String.compare_antisym a a) as K. rewrite C in K. discriminate.
Qed.

Section SegmentProofs.
Context `{FloatOps}.

Lemma outbound_segments_all (db : gtfs_tables) (origin_stop_id dep_time end_time : string)
  (active : list string) :
  Forall (fun seg =>
    origin_seq seg < out_xfer_seq seg /\
    String.leb dep_time (origin_departure seg) = true /\
    String.leb (origin_departure seg) end_time = true /\
    (exists st, In st (stop_times db) /\ st_trip_id st = out_trip_id seg /\
       st_stop_id st = origin_stop_id /\ departure_time st = origin_departure seg /\
       stop_sequence st = origin_seq seg) /\
    (exists st, In st (stop_times db) /\ st_trip_id st = out_trip_id seg /\
       st_stop_id st = out_xfer_stop_id seg /\ arrival_time st = xfer_arrival seg /\
       stop_sequence st = out_xfer_seq seg) /\
    (exists t, In t (trips db) /\ trip_id t = out_trip_id seg /\
       trip_route_id t = out_route_id seg /\ mem (service_id t) active = true))
    (outbound_segments db origin_stop_id dep_time end_time active).
Proof.
  unfold outbound_segments. apply Forall_forall. intros seg Hin. apply sort_by_In in Hin.
  apply in_flat_map in Hin as [[ost t] [Hot Hin]].
  apply in_flat_map in Hin as [st [Hst Hin]]. apply in_flat_map in Hin as [r [_ Hin]].
  match type of Hin with In _ (if ?c then _ else _) => destruct c eqn:C end;
    [|destruct Hin].
  destruct Hin as [<-|[]]. cbn.
  apply in_flat_map in Hot as [ost' [Host Hot]]. apply in_flat_map in Hot as [t' [Ht Hot]].
  match type of Hot with In _ (if ?c then _ else _) => destruct c eqn:C' end;
    [|destruct Hot].
  destruct Hot as [Hot|[]]. injection Hot as -> ->.
  repeat (apply andb_prop in C as [C ?]). repeat (apply andb_prop in C' as [C' ?]).
  repeat match goal with H : String.eqb _ _ = true |- _ => apply String.eqb_eq in H end.
  match goal with H : (_ <? _) = true |- _ => apply Z.ltb_lt in H end.
  split; [assumption|]. split; [assumption|]. split; [assumption|].
  split; [exists ost; repeat apply conj; first [assumption | congruence]|].
  split; [exists st; repeat apply conj; first [assumption | congruence]|].
  exists t. repeat apply conj; first [assumption | congruence].
Qed.

(** [_get_outbound_segments]: every segment rides one trip of an active
    service from the origin stop, departing (as text) within the window, to
    a later stop of the same trip, with the route of the trip; the segments
    are in text order of origin departure. *)
Theorem outbound_segments_spec (db : gtfs_tables) (origin_stop_id dep_time end_time : string)
  (active : list string) :
  Forall (fun seg =>
    origin_seq seg < out_xfer_seq seg /\
    String.leb dep_time (origin_departure seg) = true /\
    String.leb (origin_departure seg) end_time = true /\
    (exists st, In st (stop_times db) /\ st_trip_id st = out_trip_id seg /\
       st_stop_id st = origin_stop_id /\ departure_time st = origin_departure seg /\
       stop_sequence st = origin_seq seg) /\
    (exists st, In st (stop_times db) /\ st_trip_id st = out_trip_id seg /\
       st_stop_id st = out_xfer_stop_id seg /\ arrival_time st = xfer_arrival seg /\
       stop_sequence st = out_xfer_seq seg) /\
    (exists t, In t (trips db) /\ trip_id t = out_trip_id seg /\
       trip_route_id t = out_route_id seg /\ mem (service_id t) active = true))
    (outbound_segments db origin_stop_id dep_time end_time active) /\
  Sorted (fun a b => String.leb (origin_departure a) (origin_departure b) = true)
    (outbound_segments db origin_stop_id dep_time end_time active).
Proof.
  split; [apply outbound_segments_all|].
  unfold outbound_segments.
  refine (Sorted_weaken _ _ _ _ (sort_by_Sorted _ _ _)).
  - intros a b. apply lex_order_leb.
  - intros a b. apply lex_order_total.
Qed.

Lemma inbound_segments_all (db : gtfs_tables) (destination_stop_id : string)
  (active : list string) (latest_transfer_departure : string) :
  Forall (fun seg =>
    in_xfer_seq seg < dest_seq seg /\
    String.leb (xfer_departure seg) latest_transfer_departure = true /\
    (exists st, In st (stop_times db) /\ st_trip_id st = in_trip_id seg /\
       st_stop_id st = destination_stop_id /\ arrival_time st = dest_arrival seg /\
       stop_sequence st = dest_seq seg) /\
    (exists st, In st (stop_times db) /\ st_trip_id st = in_trip_id seg /\
       st_stop_id st = in_xfer_stop_id seg /\ departure_time st = xfer_departure seg /\
       stop_sequence st = in_xfer_seq seg) /\
    (exists t, In t (trips db) /\ trip_id t = in_trip_id seg /\
       trip_route_id t = in_route_id seg /\ mem (service_id t) active = true))
    (inbound_segments db destination_stop_id active latest_transfer_departure).
Proof.
  unfold inbound_segments. apply Forall_forall. intros seg Hin. apply sort_by_In in Hin.
  apply in_flat_map in Hin as [[dst t] [Hdt Hin]].
  apply in_flat_map in Hin as [st [Hst Hin]]. apply in_flat_map in Hin as [r [_ Hin]].
  match type of Hin with In _ (if ?c then _ else _) => destruct c eqn:C end;
    [|destruct Hin].
  destruct Hin as [<-|[]]. cbn.
  apply in_flat_map in Hdt as [dst' [Hdst Hdt]]. apply in_flat_map in Hdt as [t' [Ht Hdt]].
  match type of Hdt with In _ (if ?c then _ else _) => destruct c eqn:C' end;
    [|destruct Hdt].
  destruct Hdt as [Hdt|[]]. injection Hdt as -> ->.
  repeat (apply andb_prop in C as [C ?]). repeat (apply andb_prop in C' as [C' ?]).
  repeat match goal with H : String.eqb _ _ = true |- _ => apply String.eqb_eq in H end.
  match goal with H : (_ <? _) = true |- _ => apply Z.ltb_lt in H end.
  split; [assumption|]. split; [assumption|].
  split; [exists dst; repeat apply conj; first [assumption | congruence]|].
  split; [exists st; repeat apply conj; first [assumption | congruence]|].
  exists t. repeat apply conj; first [assumption | congruence].
Qed.

(** [_get_inbound_segments]: every segment rides one trip of an active
    service from a stop departing (as text) no later than
    [latest_transfer_departure] to a later stop of the same trip, the
    destination, with the route of the trip; the segments are in text order
    of arrival at the destination. *)
Theorem inbound_segments_spec (db : gtfs_tables) (destination_stop_id : string)
  (active : list string) (latest_transfer_departure : string) :
  Forall (fun seg =>
    in_xfer_seq seg < dest_seq seg /\
    String.leb (xfer_departure seg) latest_transfer_departure = true /\
    (exists st, In st (stop_times db) /\ st_trip_id st = in_trip_id seg /\
       st_stop_id st = destination_stop_id /\ arrival_time st = dest_arrival seg /\
       stop_sequence st = dest_seq seg) /\
    (exists st, In st (stop_times db) /\ st_trip_id st = in_trip_id seg /\
       st_stop_id st = in_xfer_stop_id seg /\ departure_time st = xfer_departure seg /\
       stop_sequence st = in_xfer_seq seg) /\
    (exists t, In t (trips db) /\ trip_id t = in_trip_id seg /\
       trip_route_id t = in_route_id seg /\ mem (service_id t) active = true))
    (inbound_segments db destination_stop_id active latest_transfer_departure) /\
  Sorted (fun a b => String.leb (dest_arrival a) (dest_arrival b) = true)
    (inbound_segments db destination_stop_id active latest_transfer_departure).
Proof.
  split; [apply inbound_segments_all|].
  unfold inbound_segments.
  refine (Sorted_weaken _ _ _ _ (sort_by_Sorted _ _ _)).
  - intros a b. apply lex_order_leb.
  - intros a b. apply lex_order_total.
Qed.

End SegmentProofs.

(** ** Transfer itineraries *)

Lemma dict_append_get {V : Type} (d : list (string * list V)) (k : string) (v : V)
  (k' : string) (x : V) :
  In x (dict_get_list (dict_append d k v) k') -> x = v \/ In x (dict_get_list d k').
Proof.
  unfold dict_get_list. induction d as [|[k0 l] r IH]; simpl.
  - destruct (String.eqb k k'); simpl; [intros [->|[]]; left; reflexivity | intros []].
  - destruct (String.eqb k0 k); simpl.
    + destruct (String.eqb k0 k').
      * intros Hin. apply in_app_or in Hin as [Hin|[->|[]]]; [right; exact Hin|left; reflexivity].
      * intros Hin. right. exact Hin.
    + destruct (String.eqb k0 k'); [intros Hin; right; exact Hin | exact IH].
Qed.

Lemma dict_fold_get {V : Type} (key : V -> string) (l : list V) (d0 : list (string * list V))
  (k : string) (x : V) :
  In x (dict_get_list (fold_left (fun d seg => dict_append d (key seg) seg) l d0) k) ->
  In x l \/ In x (dict_get_list d0 k).
Proof.
  revert d0. induction l as [|y l IH]; simpl; intros d0 Hin; [right; exact Hin|].
  destruct (IH _ Hin) as [H|H]; [left; right; exact H|].
  apply dict_append_get in H as [->|H]; [left; left; reflexivity|right; exact H].
Qed.

Section TransferItineraryProofs.
Context `{FloatOps}.

Lemma transfers_from_In (out_seg : OutboundSegment) (in_segs : list InboundSegment)
  (k : Z) (wm : float) (l : list TransferPoint) :
  transfers_from out_seg in_segs k wm = Ok l ->
  Forall (fun tp => outbound tp = out_seg /\ In (inbound tp) in_segs) l.
Proof.
  intros T. unfold transfers_from in T. bind_inv T.
  refine (concat_mapM_Forall _ _ _ _ (fun in_seg ys Hin Y => _) T).
  cbv beta in Y. unfold try_transfer in Y.
  destruct (String.eqb _ _); [injection Y as <-; constructor|].
  bind_inv Y. destruct (_ && _); injection Y as <-; repeat constructor; assumption.
Qed.


Lemma transfers_from_sound (outs : list OutboundSegment) (ins : list InboundSegment)
  (out_seg : OutboundSegment) (key : string) (k : Z) (wm : float) (l : list TransferPoint) :
  In out_seg outs ->
  (k = 0 \/ k = 2 \/
   (float_gt_int wm MAX_WALKING_DISTANCE_METERS = false /\ k = int_div_float wm 80 + 1)) ->
  transfers_from out_seg
    (dict_get_list (fold_left (fun d seg => dict_append d (in_xfer_stop_id seg) seg) ins [])
       key) k wm = Ok l ->
  Forall (sound_transfer outs ins) l.
Proof.
  intros Ho Hk T. pose proof (transfers_from_valid _ _ _ _ _ Hk T) as V.
  apply transfers_from_In in T. rewrite Forall_forall in V, T |- *.
  intros tp Htp. destruct (T tp Htp) as [Eo Hi]. split; [exact (V tp Htp)|].
  rewrite Eo. split; [exact Ho|].
  apply dict_fold_get in Hi as [Hi|Hi]; [exact Hi|]. destruct Hi.
Qed.

Lemma find_transfer_points_sound (iter : list string -> list string)
  (locs : list stop_location_row) (outs : list OutboundSegment) (ins : list InboundSegment)
  (tps : list TransferPoint) :
  find_transfer_points iter locs outs ins = Ok tps -> Forall (sound_transfer outs ins) tps.
Proof.
  intros Hf. unfold find_transfer_points in Hf. cbv zeta in Hf.
  bind_inv Hf. bind_inv Hf. bind_inv Hf. destruct a1 as [[tps2 mo] mi].
  bind_inv Hf. injection Hf as <-.
  apply Forall_app. split; [|apply Forall_app; split].
  - refine (concat_mapM_Forall _ _ _ _ (fun out_seg ys Ho Y => _) E). cbv beta in Y.
    destruct (negb _); [injection Y as <-; constructor|].
    exact (transfers_from_sound _ _ _ _ _ _ _ Ho (or_introl eq_refl) Y).
  - refine (foldM_inv (fun st => Forall (sound_transfer outs ins) (fst (fst st))) _ _
              ([], [], []) _ (fun st in_stop_id st' _ Hst Y => _) (Forall_nil _) E1).
    cbv beta in Y.
    destruct st as [[tps mo'] mi']. cbn [fst] in Hst |- *.
    destruct (mem in_stop_id _); [injection Y as <-; exact Hst|].
    apply bind_Ok in Y as [loc [El Y]].
    destruct (loc_parent loc) as [parent|]; [|injection Y as <-; exact Hst].
    destruct (assoc_get a0 parent) as [out_stop_ids|]; [|injection Y as <-; exact Hst].
    refine (foldM_inv (fun st => Forall (sound_transfer outs ins) (fst (fst st))) _ _
              (tps, mo', mi') _ (fun st out_stop_id st' _ Hst' Y' => _) Hst Y). cbv beta in Y'.
    refine (foldM_inv (fun st => Forall (sound_transfer outs ins) (fst (fst st))) _ _ st _
              (fun st out_seg st'' Ho Hst'' Y'' => _) Hst' Y'). cbv beta in Y''.
    destruct st as [[tps' mo''] mi'']. cbn [fst] in Hst'' |- *.
    destruct (negb _); [injection Y'' as <-; exact Hst''|].
    apply bind_Ok in Y'' as [found [Ef Y'']]. destruct found as [|tp found].
    + injection Y'' as <-. exact Hst''.
    + injection Y'' as <-. cbn [fst]. apply Forall_app. split; [exact Hst''|].
      exact (transfers_from_sound _ _ _ _ _ _ _ Ho (or_intror (or_introl eq_refl)) Ef).
  - refine (concat_mapM_Forall _ _ _ _ (fun out_stop_id ys _ Y => _) E2). cbv beta in Y.
    apply bind_Ok in Y as [ol [Eo Y]]. destruct ol as [ol|]; [|injection Y as <-; constructor].
    refine (concat_mapM_Forall _ _ _ _ (fun in_stop_id ys' _ Y' => _) Y). cbv beta in Y'.
    apply bind_Ok in Y' as [il [Ei Y']]. destruct il as [il|]; [|injection Y' as <-; constructor].
    destruct (float_gt_int _ _) eqn:G; [injection Y' as <-; constructor|].
    refine (concat_mapM_Forall _ _ _ _ (fun out_seg ys'' Ho Y'' => _) Y'). cbv beta in Y''.
    destruct (negb _); [injection Y'' as <-; constructor|].
    exact (transfers_from_sound _ _ _ _ _ _ _ Ho (or_intror (or_intror (conj G eq_refl))) Y'').
Qed.

Lemma build_transfer_itinerary_Ok (db : gtfs_tables) (tp : TransferPoint)
  (origin dest : string) (it : FullItinerary) :
  build_transfer_itinerary db tp origin dest = Ok it ->
  exists l1 l2, legs it = [l1; l2] /\
    leg_route_id l1 = out_route_id (outbound tp) /\ leg_route_id l2 = in_route_id (inbound tp) /\
    leg_trip_id l1 = out_trip_id (outbound tp) /\ leg_trip_id l2 = in_trip_id (inbound tp) /\
    from_stop_id l1 = origin /\ to_stop_id l1 = out_xfer_stop_id (outbound tp) /\
    from_stop_id l2 = in_xfer_stop_id (inbound tp) /\ to_stop_id l2 = dest /\
    leg_departure_time l1 = origin_departure (outbound tp) /\
    leg_arrival_time l1 = xfer_arrival (outbound tp) /\
    leg_departure_time l2 = xfer_departure (inbound tp) /\
    leg_arrival_time l2 = dest_arrival (inbound tp) /\
    fi_departure_time it = origin_departure (outbound tp) /\
    fi_arrival_time it = dest_arrival (inbound tp) /\
    fi_num_transfers it = 1 /\ transfer_wait_minutes it = Some (wait_minutes tp) /\
    exists a1 d1 a2 d2,
      gtfs_time_to_seconds (xfer_arrival (outbound tp)) = Ok a1 /\
      gtfs_time_to_seconds (origin_departure (outbound tp)) = Ok d1 /\
      gtfs_time_to_seconds (dest_arrival (inbound tp)) = Ok a2 /\
      gtfs_time_to_seconds (xfer_departure (inbound tp)) = Ok d2 /\
      duration_minutes l1 = (a1 - d1) / 60 /\ duration_minutes l2 = (a2 - d2) / 60 /\
      fi_total_duration_minutes it = (a2 - d1) / 60.
Proof.
  unfold build_transfer_itinerary. intros X.
  do 12 bind_inv X. injection X as <-.
  rewrite E3 in E7. injection E7 as <-. rewrite E0 in E8. injection E8 as <-.
  do 2 eexists. cbn.
  do 17 (split; [reflexivity|]).
  do 4 eexists. do 4 (split; [eassumption|]).
  split; [reflexivity|]. split; reflexivity.
Qed.

Lemma floor_sum3 (x y z : Z) :
  x / 60 + y / 60 + z / 60 <= (x + y + z) / 60 <= x / 60 + y / 60 + z / 60 + 2.
Proof.
  pose proof (Z.div_mod x 60 ltac:(lia)). pose proof (Z.mod_pos_bound x 60 ltac:(lia)).
  pose proof (Z.div_mod y 60 ltac:(lia)). pose proof (Z.mod_pos_bound y 60 ltac:(lia)).
  pose proof (Z.div_mod z 60 ltac:(lia)). pose proof (Z.mod_pos_bound z 60 ltac:(lia)).
  pose proof (Z.div_mod (x + y + z) 60 ltac:(lia)).
  pose proof (Z.mod_pos_bound (x + y + z) 60 ltac:(lia)).
  lia.
Qed.


Lemma mapM_combine {A B : Type} (f : A -> result B) (l : list A) (l' : list B) :
  mapM f l = Ok l' -> Forall (fun p => f (fst p) = Ok (snd p)) (combine l l').
Proof.
  revert l'. induction l as [|x l IH]; simpl; intros l' Hm.
  - constructor.
  - bind_inv Hm. bind_inv Hm. injection Hm as <-. simpl. constructor; [exact E|exact (IH _ E0)].
Qed.


Lemma StronglySorted_map_fst (ps : list (TransferPoint * Z)) :
  Forall (fun p => transfer_sort_key (fst p) = Ok (snd p)) ps ->
  StronglySorted (fun a b => (snd a <=? snd b) = true) ps ->
  StronglySorted key_le (map fst ps).
Proof.
  intros F S. induction S as [|p ps S IH Hd]; simpl; constructor.
  - apply IH. inversion F. assumption.
  - inversion F as [|? ? Kp Fps]. subst. rewrite Forall_forall in Hd, Fps |- *.
    intros y Hy. apply in_map_iff in Hy as [q [<- Hq]].
    intros k1 k2 K1 K2. rewrite Kp in K1. rewrite (Fps q Hq) in K2.
    injection K1 as <-. injection K2 as <-. apply Z.leb_le. exact (Hd q Hq).
Qed.

Lemma sorted_transfers (tps : list TransferPoint) (keys : list Z) :
  mapM transfer_sort_key tps = Ok keys ->
  StronglySorted key_le (map fst (sort_by (fun a b => snd a <=? snd b) (combine tps keys))) /\
  incl (map fst (sort_by (fun a b => snd a <=? snd b) (combine tps keys))) tps.
Proof.
  intros M. apply mapM_combine in M. split.
  - apply StronglySorted_map_fst.
    + rewrite Forall_forall in M |- *. intros p Hp. exact (M p (sort_by_In _ _ _ Hp)).
    + apply Sorted_StronglySorted.
      * intros a b c X Y. apply Z.leb_le in X, Y. apply Z.leb_le. lia.
      * apply sort_by_Sorted. intros a b X. apply Z.leb_gt in X. apply Z.leb_le. lia.
  - intros t Ht. apply in_map_iff in Ht as [[t' k] [<- Hp]]. apply sort_by_In in Hp.
    exact (in_combine_l _ _ _ _ Hp).
Qed.

Lemma find_transfer_itineraries_sub (iter : list string -> list string) (db : gtfs_tables)
  (locs : list stop_location_row) (origin dest dep_time : string) (service_date : date)
  (limit : Z) (its : list FullItinerary) :
  find_transfer_itineraries iter db locs origin dest dep_time service_date limit = Ok its ->
  exists s, gtfs_time_to_seconds dep_time = Ok s /\
  exists active latest ys,
    Forall (sound_transfer
              (outbound_segments db origin dep_time (hhmm00 (s + TIME_WINDOW_HOURS * 3600)) active)
              (inbound_segments db dest active latest)) ys /\
    mapM (fun t => build_transfer_itinerary db t origin dest) ys = Ok its /\
    NoDup (map (fun t => (origin_departure (outbound t), out_route_id (outbound t),
                          in_route_id (inbound t))) ys) /\
    StronglySorted key_le ys /\
    Z.of_nat (length its) <= Z.max 1 limit.
Proof.
  unfold find_transfer_itineraries. intros F. bind_inv F. exists a. split; [exact E|].
  cbv zeta in F.
  assert (Empty : Ok (@nil FullItinerary) = Ok its ->
                  exists active latest ys,
                    Forall (sound_transfer
                      (outbound_segments db origin dep_time
                         (hhmm00 (a + TIME_WINDOW_HOURS * 3600)) active)
                      (inbound_segments db dest active latest)) ys /\
                    mapM (fun t => build_transfer_itinerary db t origin dest) ys = Ok its /\
                    NoDup (map (fun t => (origin_departure (outbound t), out_route_id (outbound t),
                                          in_route_id (inbound t))) ys) /\
                    StronglySorted key_le ys /\ Z.of_nat (length its) <= Z.max 1 limit).
  { intros R. injection R as <-. exists [], EmptyString, []. simpl.
    repeat split; try constructor. lia. }
  destruct (get_active_service_ids db service_date) as [|s0 l0] eqn:A; [exact (Empty F)|].
  set (active := s0 :: l0) in *.
  destruct (outbound_segments db origin dep_time _ active) as [|o0 os] eqn:O; [exact (Empty F)|].
  bind_inv F.
  set (latest := hhmm00 _) in F.
  destruct (inbound_segments db dest active latest) as [|i0 is] eqn:I; [exact (Empty F)|].
  bind_inv F. destruct a1 as [|t0 ts]; [exact (Empty F)|].
  bind_inv F. exists active, latest.
  assert (L0 : Z.of_nat (length (@nil FullItinerary)) < Z.max 1 limit) by (simpl; lia).
  pose proof (dedup_build_length _ _ _ _ _ _ _ _ L0 F) as L.
  destruct (sorted_transfers _ _ E2) as [SS Inc].
  apply dedup_build_sub in F as (ys & bs & E4 & M & Iy & N & _ & SSy); [|exact key3_eqb_refl].
  simpl in E4. subst bs. exists ys.
  split; [|split; [exact M|split; [exact N|split; [exact (SSy _ SS)|exact L]]]].
  apply find_transfer_points_sound in E1. rewrite <- O, <- I in E1.
  rewrite Forall_forall in E1 |- *. intros y Hy. exact (E1 y (Inc y (Iy y Hy))).
Qed.

End TransferItineraryProofs.

Section TransferTheorems.
Context `{FloatOps}.

(** [_build_transfer_itinerary] on a transfer point of
    [_find_transfer_points]: two legs, origin to transfer stop and transfer
    stop to destination, on different routes, one transfer, the wait of the
    transfer point; the total duration is the two leg durations plus the
    wait and walk minutes, up to two minutes of rounding. *)
Theorem build_transfer_itinerary_durations (db : gtfs_tables) (tp : TransferPoint)
  (origin dest : string) (it : FullItinerary) :
  valid_transfer tp ->
  build_transfer_itinerary db tp origin dest = Ok it ->
  exists l1 l2, legs it = [l1; l2] /\
    from_stop_id l1 = origin /\ to_stop_id l1 = out_xfer_stop_id (outbound tp) /\
    from_stop_id l2 = in_xfer_stop_id (inbound tp) /\ to_stop_id l2 = dest /\
    leg_route_id l1 <> leg_route_id l2 /\
    fi_num_transfers it = 1 /\ transfer_wait_minutes it = Some (wait_minutes tp) /\
    duration_minutes l1 + wait_minutes tp + walk_minutes tp + duration_minutes l2
      <= fi_total_duration_minutes it /\
    fi_total_duration_minutes it
      <= duration_minutes l1 + wait_minutes tp + walk_minutes tp + duration_minutes l2 + 2.
Proof.
  intros (Hr & _ & (arr & dep & Ea & Ed & W) & _) X.
  apply build_transfer_itinerary_Ok in X
    as (l1 & l2 & Lg & R1 & R2 & _ & _ & F1 & T1 & F2 & T2 & _ & _ & _ & _ & _ & _ & NT & WT &
        a1 & d1 & a2 & d2 & A1 & D1 & A2 & D2 & Du1 & Du2 & Tot).
  rewrite Ea in A1. injection A1 as <-. rewrite Ed in D2. injection D2 as <-.
  exists l1, l2. rewrite R1, R2.
  do 8 (split; [assumption|]).
  rewrite Du1, Du2, Tot, W.
  replace (a2 - d1) with ((arr - d1) + (dep - arr) + (a2 - dep)) by ring.
  pose proof (floor_sum3 (arr - d1) (dep - arr) (a2 - dep)). lia.
Qed.

(** [_find_transfer_itineraries] parses the departure time, and every
    itinerary it returns has two legs on different routes with one
    transfer and a wait of 3 to 30 minutes; the first leg's trip leaves the
    origin stop at the itinerary's departure time, which lies (as text) in
    the two-hour window, and the second leg's trip reaches the destination
    stop at the itinerary's arrival time. *)
Theorem find_transfer_itineraries_legs (iter : list string -> list string) (db : gtfs_tables)
  (locs : list stop_location_row) (origin dest dep_time : string) (service_date : date)
  (limit : Z) (its : list FullItinerary) :
  find_transfer_itineraries iter db locs origin dest dep_time service_date limit = Ok its ->
  exists s, gtfs_time_to_seconds dep_time = Ok s /\
  Forall (fun it => exists l1 l2, legs it = [l1; l2] /\
    from_stop_id l1 = origin /\ to_stop_id l2 = dest /\
    leg_route_id l1 <> leg_route_id l2 /\ fi_num_transfers it = 1 /\
    (exists w, transfer_wait_minutes it = Some w /\
               MIN_TRANSFER_TIME_MINUTES <= w <= MAX_TRANSFER_TIME_MINUTES) /\
    String.leb dep_time (fi_departure_time it) = true /\
    String.leb (fi_departure_time it) (hhmm00 (s + TIME_WINDOW_HOURS * 3600)) = true /\
    (exists st, In st (stop_times db) /\ st_trip_id st = leg_trip_id l1 /\
       st_stop_id st = origin /\ departure_time st = fi_departure_time it) /\
    (exists st, In st (stop_times db) /\ st_trip_id st = leg_trip_id l2 /\
       st_stop_id st = dest /\ arrival_time st = fi_arrival_time it)) its.
Proof.
  intros F. apply find_transfer_itineraries_sub in F
    as (s & Es & active & latest & ys & Snd & M & _ & _ & _).
  exists s. split; [exact Es|].
  refine (mapM_Forall _ _ _ _ _ M). intros y it Hy X.
  rewrite Forall_forall in Snd. destruct (Snd y Hy) as ((Hr & Hw & _) & Ho & Hi).
  pose proof (proj1 (Forall_forall _ _) (outbound_segments_all db origin dep_time _ active) _ Ho)
    as (_ & W1 & W2 & (st1 & S1 & S1t & S1s & S1d & _) & _).
  pose proof (proj1 (Forall_forall _ _) (inbound_segments_all db dest active latest) _ Hi)
    as (_ & _ & (st2 & S2 & S2t & S2s & S2a & _) & _).
  apply build_transfer_itinerary_Ok in X
    as (l1 & l2 & Lg & R1 & R2 & Tr1 & Tr2 & F1 & _ & _ & T2 & _ & _ & _ & _ & FD & FA & NT & WT & _).
  exists l1, l2. rewrite R1, R2, Tr1, Tr2, FD, FA.
  do 5 (split; [assumption|]).
  split; [exists (wait_minutes y); split; [exact WT|exact Hw]|].
  split; [exact W1|]. split; [exact W2|].
  split; [exists st1; repeat split; assumption|].
  exists st2; repeat split; assumption.
Qed.


End TransferTheorems.

Lemma build_transfer_itinerary_durations_witness :
  let tp := mkTransferPoint (H := planar_metres)
              (mkOutboundSegment "T1" "24" None 3 None "08:10:00" 1 "X" "08:20:00" 3)
              (mkInboundSegment "T4" "80" None 3 None "X" "08:25:00" 1 "08:50:00" 3)
              5 0 0 in
  valid_transfer tp /\
  exists it, build_transfer_itinerary planner_db tp "A" "B" = Ok it /\
    fi_total_duration_minutes it = 40 /\
    exists l1 l2, legs it = [l1; l2] /\ duration_minutes l1 = 10 /\ duration_minutes l2 = 25.
Proof.
  intros tp.
  assert (V : valid_transfer tp).
  { unfold valid_transfer, MIN_TRANSFER_TIME_MINUTES, MAX_TRANSFER_TIME_MINUTES. cbn.
    split; [discriminate|]. split; [lia|]. split; [|left; reflexivity].
    exists 30000, 30300. split; [vm_compute; reflexivity|]. split; [vm_compute; reflexivity|].
    reflexivity. }
  split; [exact V|]. eexists. split; [vm_compute; reflexivity|]. split; [vm_compute; reflexivity|].
  match goal with
  | |- exists l1 l2, legs ?it = _ /\ _ =>
      let X := fresh in
      assert (X : build_transfer_itinerary planner_db tp "A" "B" = Ok it)
        by (vm_compute; reflexivity);
      destruct (build_transfer_itinerary_durations _ _ _ _ _ V X)
        as (l1 & l2 & Lg & _);
      exists l1, l2; split; [exact Lg|];
      vm_compute in Lg; injection Lg as <- <-; split; reflexivity
  end.
Defined.

Lemma find_transfer_itineraries_legs_witness :
  exists its,
    find_transfer_itineraries (H := planar_metres) (fun l => l) planner_db [] "A" "B"
      "08:00:00" (mkdate 739259) 5 = Ok its /\
    map transfer_wait_minutes its = [Some 5] /\
    exists s, gtfs_time_to_seconds "08:00:00" = Ok s.
Proof.
  eexists. split; [vm_compute; reflexivity|]. split; [vm_compute; reflexivity|].
  match goal with
  | |- exists s, _ =>
      let its := fresh in
      evar (its : list (FullItinerary (H := planar_metres)));
      let F := fresh in
      assert (F : find_transfer_itineraries (H := planar_metres) (fun l => l) planner_db []
                    "A" "B" "08:00:00" (mkdate 739259) 5 = Ok its)
        by (subst its; vm_compute; reflexivity);
      destruct (find_transfer_itineraries_legs _ _ _ _ _ _ _ _ _ F) as (s & Es & _);
      exists s; exact Es
  end.
Defined.


(** ** Time strings *)

(** A time written as [HH:MM:SS] by [f"{h:02d}:{m:02d}:{s:02d}"] (any
    integers) reads back through [gtfs_time_to_seconds],
    [is_extended_time] and [is_time_in_late_night_range] as its
    components: [h*3600 + m*60 + s] seconds, extended iff [h >= 24], late
    night iff [h < 4]. *)
Theorem format_hms_readers (h m s : Z) :
  gtfs_time_to_seconds (format_hms h m s) = Ok (h * 3600 + m * 60 + s) /\
  safe_gtfs_time_to_seconds (format_hms h m s) = Some (h * 3600 + m * 60 + s) /\
  is_extended_time (format_hms h m s) = (24 <=? h) /\
  is_time_in_late_night_range (format_hms h m s) = (h <? LATE_NIGHT_THRESHOLD_HOUR).
Proof.
  unfold gtfs_time_to_seconds, safe_gtfs_time_to_seconds, is_extended_time,
    is_time_in_late_night_range, safe_parse_gtfs_time.
  rewrite parse_format_hms. repeat split.
Qed.
